(** * Accounting: orders, payments and the checkout coordinator

    A shallow embedding of [applications/accounting/models.py] and
    [applications/accounting/views.py], and the properties of the written
    specification checked against it.

    Python [float] is IEEE-754 binary64: it is modelled by Rocq's primitive
    [float], so every evaluation below is bit for bit the one CPython
    performs.  Database tables are finite maps from primary key to row. *)

From Stdlib Require Import ZArith Floats String DecimalString Ascii.
From stdpp Require Import gmap strings list fin_maps sorting.

Open Scope Z_scope.
Set Warnings "-inexact-float".

(** ** Python numbers *)

Module PyFloat.

(** The binary64 number nearest to the rational [n / d] (for [0 < d]),
    ties to even.  The quotient is taken with at least 64 significant
    bits and its last bit is made sticky, so that the single final
    rounding of [binary_normalize] is the correct one.  This is what
    [float(Decimal)], the true division of two [int]s and [strtod] do. *)
Definition of_ratio (n d : Z) : float :=
  if n =? 0 then 0%float
  else
    let a := Z.abs n in
    let s := Z.max 0 (64 + Z.log2 d - Z.log2 a) in
    let num := a * 2 ^ s in
    let q := num / d in
    let q' := if num mod d =? 0 then q else Z.lor q 1 in
    SF2Prim (binary_normalize prec emax (if n <? 0 then - q' else q') (- s) false).

(** [float(n)] for a Python [int]. *)
Definition of_int (n : Z) : float := of_ratio n 1.

(** The exact value of a finite float as a fraction [(n, d)], [0 < d]. *)
Definition to_ratio (x : float) : option (Z * Z) :=
  match Prim2SF x with
  | S754_zero _ => Some (0, 1)
  | S754_finite s m e =>
      let m' := if s then Z.neg m else Z.pos m in
      Some (if 0 <=? e then (m' * 2 ^ e, 1) else (m', 2 ^ (- e)))
  | _ => None
  end.

(** Nearest integer to [n / d] (for [0 < d]), ties to even. *)
Definition round_half_even (n d : Z) : Z :=
  let q := n / d in
  let r := n mod d in
  match 2 * r ?= d with
  | Lt => q
  | Gt => q + 1
  | Eq => if Z.even q then q else q + 1
  end.

(** [round(x, 2)]: CPython prints the exact value of [x] with two
    digits after the point, correctly rounded, and reads the digits
    back.  Zeros, infinities and NaN are returned as they are; a result
    that rounds to zero keeps the sign of [x]. *)
Definition round2 (x : float) : float :=
  match to_ratio x with
  | None => x
  | Some (n, d) =>
      let k := round_half_even (100 * n) d in
      if k =? 0 then (if get_sign x then (-0)%float else 0%float)
      else of_ratio k 100
  end.

(** [int(x)]: truncation towards zero; [None] where CPython raises
    ([ValueError] on NaN, [OverflowError] on an infinity). *)
Definition to_int (x : float) : option Z :=
  match to_ratio x with
  | None => None
  | Some (n, d) => Some (Z.quot n d)
  end.

(** Truth value of a float: [x != 0.0] (NaN is true). *)
Definition truthy (x : float) : bool := negb (PrimFloat.eqb x 0).

End PyFloat.


(** [decimal.Decimal], as the ORM returns money columns and sums of them:
    the number [coefficient / 10 ^ places]. *)
Record Decimal := { coefficient : Z; places : nat }.

Module Dec.

Definition zero : Decimal := {| coefficient := 0; places := 0 |}.

Definition rescale (d : Decimal) (p : nat) : Z :=
  coefficient d * 10 ^ Z.of_nat (p - places d).

(** Exact sum, on the larger of the two scales. *)
Definition add (a b : Decimal) : Decimal :=
  let p := Nat.max (places a) (places b) in
  {| coefficient := rescale a p + rescale b p; places := p |}.

Definition mul_int (a : Decimal) (n : Z) : Decimal :=
  {| coefficient := coefficient a * n; places := places a |}.

(** Truth value: a [Decimal] is false when it is zero. *)
Definition truthy (d : Decimal) : bool := negb (coefficient d =? 0).

(** [float(d)], correctly rounded. *)
Definition to_float (d : Decimal) : float :=
  PyFloat.of_ratio (coefficient d) (10 ^ Z.of_nat (places d)).

(** [sum] of the values that are not NULL; [None] when there is none,
    as SQL's SUM over no rows. *)
Fixpoint Sum (l : list (option Decimal)) : option Decimal :=
  match l with
  | [] => None
  | None :: l' => Sum l'
  | Some d :: l' =>
      match Sum l' with
      | None => Some d
      | Some d' => Some (add d d')
      end
  end.

End Dec.

(** ** Rows of the tables *)

Inductive ServiceType := SOCIAL_PROFILES | REPUTATION_CASE.

(** Modelled from the spec: the status constants of
    [applications.social_sites.models.SocialProfile], which is not part of
    the accounting application.  The four named ones are those the
    accounting code mentions; [PROFILE_OTHER] stands for every other
    state of the creation workflow. *)
Inductive ProfileStatus :=
  | REQUESTED_CREATION_UNPAID
  | REQUESTED_CREATION_PAID
  | CREATED
  | FAILED
  | PROFILE_OTHER (code : Z).

(** Modelled from the spec: the status constants of
    [applications.reputation.models.ReputationCase]. *)
Inductive CaseStatus := OPEN_UNPAID | OPEN_PAID | CASE_OTHER (code : Z).

#[global] Instance ServiceType_eq_dec : EqDecision ServiceType.
Proof. solve_decision. Defined.
#[global] Instance ProfileStatus_eq_dec : EqDecision ProfileStatus.
Proof. solve_decision. Defined.
#[global] Instance CaseStatus_eq_dec : EqDecision CaseStatus.
Proof. solve_decision. Defined.

Record Site := { site_name : string; site_price : Decimal }.

Record SocialProfile := {
  sp_user : Z;
  sp_status : ProfileStatus;
  sp_site : Z;
  sp_username : string;
  sp_email : Z;
  sp_profile_data : string
}.

Record ReputationCase := { rc_price : Decimal; rc_status : CaseStatus }.

Record UserSearch := { us_user : option Z }.

Record OrderSite := {
  os_site : Z;
  os_available_username : string;
  os_user_search : Z
}.

Record GMailAccount := { ga_user : option Z; ga_email : string }.

Record PaymentMethod := { pm_name : string; pm_variant : string }.

Record CouponCode := {
  cc_sales_rep : Z;
  cc_code : string;
  cc_discount : float;
  cc_commission : float
}.

Record Order := {
  o_user : Z;
  o_service_type : ServiceType;
  o_items : list Z;
  o_payment_method : Z;
  o_coupon_code : option Z
}.

(** [Payment(BasePayment)]: the one-to-one [order] of this application
    and the columns of the base class that the accounting code reads or
    writes.  [p_total] is the value handed to [Payment.objects.create],
    as the instance that [create_payment] returns carries it. *)
Record Payment := {
  p_variant : string;
  p_order : Z;
  p_total : float;
  p_currency : string;
  p_status : string;
  p_token : Z
}.

(** ** Session, responses, exceptions *)

Inductive url :=
  | LoginUrl
  | PaymentOverviewUrl (payment_id payment_token : Z)
  | OrderOverviewUrl (pk : Z).

(** The value under ["CHECKOUT_INFO"]: a dict with the two keys the
    views use, each present or not.  [{}] is [empty_info]. *)
Record CheckoutInfo := { is_blocked : option bool; payment_url : option url }.

Definition empty_info : CheckoutInfo :=
  {| is_blocked := None; payment_url := None |}.

(** A dict is true when it is not empty. *)
Definition info_truthy (ci : CheckoutInfo) : bool :=
  match is_blocked ci, payment_url ci with
  | None, None => false
  | _, _ => true
  end.

(** A line of the carton cart kept in the session. *)
Record CartItem := { ci_product : Z; ci_quantity : Z; ci_price : Decimal }.

Record Session := {
  CHECKOUT_INFO : option CheckoutInfo;
  PROFILE_DATA : option string;
  CART : list CartItem
}.

Inductive level := INFO | WARNING.

Record Progress := { created : Z; total : Z; progress : string }.

Inductive response :=
  | Redirect (to : url)
  | Render (template : string)
  | JsonResponse (body : Progress)
  | HttpResponseBadRequest.

Inductive exn :=
  | Http404
  | KeyError
  | AttributeError
  | TypeError
  | ValueError
  | ZeroDivisionError
  | IntegrityError
  | DoesNotExist
  | NoReverseMatch
  | GatewayError.

(** ** The state the views run against *)

Record State := {
  sites : gmap Z Site;
  social_profiles : gmap Z SocialProfile;
  reputation_cases : gmap Z ReputationCase;
  user_searches : gmap Z UserSearch;
  order_sites : gmap Z OrderSite;
  gmail_accounts : gmap Z GMailAccount;
  payment_methods : gmap Z PaymentMethod;
  coupon_codes : gmap Z CouponCode;
  orders : gmap Z Order;
  payments : gmap Z Payment;
  (** users whose [progress.made_an_order] is set *)
  made_an_order : gset Z;
  (** guardian's object permission ["view_order"]: (user, order) *)
  view_order : gset (Z * Z);
  (** [settings.DEBUG] *)
  DEBUG : bool;
  (** source of payment tokens *)
  next_token : Z;
  (** the session of the browser the requests come from *)
  session : Session;
  (** arguments of the [run_worker.apply_async] calls made, oldest first *)
  work_queue : list Z;
  (** messages of [django.contrib.messages], oldest first *)
  flash : list (level * string)
}.

Definition set_social_profiles (f : gmap Z SocialProfile → gmap Z SocialProfile) (s : State) : State :=
  {| sites := sites s; social_profiles := f (social_profiles s);
     reputation_cases := reputation_cases s; user_searches := user_searches s;
     order_sites := order_sites s; gmail_accounts := gmail_accounts s;
     payment_methods := payment_methods s; coupon_codes := coupon_codes s;
     orders := orders s; payments := payments s;
     made_an_order := made_an_order s; view_order := view_order s;
     DEBUG := DEBUG s; next_token := next_token s; session := session s;
     work_queue := work_queue s; flash := flash s |}.

Definition set_reputation_cases (f : gmap Z ReputationCase → gmap Z ReputationCase) (s : State) : State :=
  {| sites := sites s; social_profiles := social_profiles s;
     reputation_cases := f (reputation_cases s); user_searches := user_searches s;
     order_sites := order_sites s; gmail_accounts := gmail_accounts s;
     payment_methods := payment_methods s; coupon_codes := coupon_codes s;
     orders := orders s; payments := payments s;
     made_an_order := made_an_order s; view_order := view_order s;
     DEBUG := DEBUG s; next_token := next_token s; session := session s;
     work_queue := work_queue s; flash := flash s |}.

Definition set_user_searches (f : gmap Z UserSearch → gmap Z UserSearch) (s : State) : State :=
  {| sites := sites s; social_profiles := social_profiles s;
     reputation_cases := reputation_cases s; user_searches := f (user_searches s);
     order_sites := order_sites s; gmail_accounts := gmail_accounts s;
     payment_methods := payment_methods s; coupon_codes := coupon_codes s;
     orders := orders s; payments := payments s;
     made_an_order := made_an_order s; view_order := view_order s;
     DEBUG := DEBUG s; next_token := next_token s; session := session s;
     work_queue := work_queue s; flash := flash s |}.

Definition set_gmail_accounts (f : gmap Z GMailAccount → gmap Z GMailAccount) (s : State) : State :=
  {| sites := sites s; social_profiles := social_profiles s;
     reputation_cases := reputation_cases s; user_searches := user_searches s;
     order_sites := order_sites s; gmail_accounts := f (gmail_accounts s);
     payment_methods := payment_methods s; coupon_codes := coupon_codes s;
     orders := orders s; payments := payments s;
     made_an_order := made_an_order s; view_order := view_order s;
     DEBUG := DEBUG s; next_token := next_token s; session := session s;
     work_queue := work_queue s; flash := flash s |}.

Definition set_orders (f : gmap Z Order → gmap Z Order) (s : State) : State :=
  {| sites := sites s; social_profiles := social_profiles s;
     reputation_cases := reputation_cases s; user_searches := user_searches s;
     order_sites := order_sites s; gmail_accounts := gmail_accounts s;
     payment_methods := payment_methods s; coupon_codes := coupon_codes s;
     orders := f (orders s); payments := payments s;
     made_an_order := made_an_order s; view_order := view_order s;
     DEBUG := DEBUG s; next_token := next_token s; session := session s;
     work_queue := work_queue s; flash := flash s |}.

Definition set_payments (f : gmap Z Payment → gmap Z Payment) (s : State) : State :=
  {| sites := sites s; social_profiles := social_profiles s;
     reputation_cases := reputation_cases s; user_searches := user_searches s;
     order_sites := order_sites s; gmail_accounts := gmail_accounts s;
     payment_methods := payment_methods s; coupon_codes := coupon_codes s;
     orders := orders s; payments := f (payments s);
     made_an_order := made_an_order s; view_order := view_order s;
     DEBUG := DEBUG s; next_token := next_token s; session := session s;
     work_queue := work_queue s; flash := flash s |}.

Definition set_made_an_order (f : gset Z → gset Z) (s : State) : State :=
  {| sites := sites s; social_profiles := social_profiles s;
     reputation_cases := reputation_cases s; user_searches := user_searches s;
     order_sites := order_sites s; gmail_accounts := gmail_accounts s;
     payment_methods := payment_methods s; coupon_codes := coupon_codes s;
     orders := orders s; payments := payments s;
     made_an_order := f (made_an_order s); view_order := view_order s;
     DEBUG := DEBUG s; next_token := next_token s; session := session s;
     work_queue := work_queue s; flash := flash s |}.

Definition set_next_token (f : Z → Z) (s : State) : State :=
  {| sites := sites s; social_profiles := social_profiles s;
     reputation_cases := reputation_cases s; user_searches := user_searches s;
     order_sites := order_sites s; gmail_accounts := gmail_accounts s;
     payment_methods := payment_methods s; coupon_codes := coupon_codes s;
     orders := orders s; payments := payments s;
     made_an_order := made_an_order s; view_order := view_order s;
     DEBUG := DEBUG s; next_token := f (next_token s); session := session s;
     work_queue := work_queue s; flash := flash s |}.

Definition set_session (f : Session → Session) (s : State) : State :=
  {| sites := sites s; social_profiles := social_profiles s;
     reputation_cases := reputation_cases s; user_searches := user_searches s;
     order_sites := order_sites s; gmail_accounts := gmail_accounts s;
     payment_methods := payment_methods s; coupon_codes := coupon_codes s;
     orders := orders s; payments := payments s;
     made_an_order := made_an_order s; view_order := view_order s;
     DEBUG := DEBUG s; next_token := next_token s; session := f (session s);
     work_queue := work_queue s; flash := flash s |}.

Definition set_work_queue (f : list Z → list Z) (s : State) : State :=
  {| sites := sites s; social_profiles := social_profiles s;
     reputation_cases := reputation_cases s; user_searches := user_searches s;
     order_sites := order_sites s; gmail_accounts := gmail_accounts s;
     payment_methods := payment_methods s; coupon_codes := coupon_codes s;
     orders := orders s; payments := payments s;
     made_an_order := made_an_order s; view_order := view_order s;
     DEBUG := DEBUG s; next_token := next_token s; session := session s;
     work_queue := f (work_queue s); flash := flash s |}.

Definition set_flash (f : list (level * string) → list (level * string)) (s : State) : State :=
  {| sites := sites s; social_profiles := social_profiles s;
     reputation_cases := reputation_cases s; user_searches := user_searches s;
     order_sites := order_sites s; gmail_accounts := gmail_accounts s;
     payment_methods := payment_methods s; coupon_codes := coupon_codes s;
     orders := orders s; payments := payments s;
     made_an_order := made_an_order s; view_order := view_order s;
     DEBUG := DEBUG s; next_token := next_token s; session := session s;
     work_queue := work_queue s; flash := f (flash s) |}.

Definition set_CHECKOUT_INFO (v : option CheckoutInfo) (x : Session) : Session :=
  {| CHECKOUT_INFO := v; PROFILE_DATA := PROFILE_DATA x; CART := CART x |}.

Definition set_CART (v : list CartItem) (x : Session) : Session :=
  {| CHECKOUT_INFO := CHECKOUT_INFO x; PROFILE_DATA := PROFILE_DATA x; CART := v |}.

(** ** Computations: state and exceptions

    A view or a model method takes the state to a value or to a raised
    exception, and to the state it leaves behind: the rows written
    before an exception stay written (the ORM commits each statement). *)

Inductive outcome (A : Type) :=
  | Ok (a : A) (s : State)
  | Raise (e : exn) (s : State).
Arguments Ok {A} a s.
Arguments Raise {A} e s.

Definition M (A : Type) : Type := State → outcome A.

Definition ret {A} (a : A) : M A := λ s, Ok a s.
Definition raise {A} (e : exn) : M A := λ s, Raise e s.
Definition bind {A B} (c : M A) (k : A → M B) : M B :=
  λ s, match c s with
       | Ok a s' => k a s'
       | Raise e s' => Raise e s'
       end.
Definition get : M State := λ s, Ok s s.
Definition modify (f : State → State) : M unit := λ s, Ok tt (f s).

(** A lookup that raises when the row or key is missing. *)
Definition orRaise {A} (e : exn) (o : option A) : M A :=
  match o with
  | Some a => ret a
  | None => raise e
  end.

#[global] Instance M_ret : MRet M := @ret.
#[global] Instance M_bind : MBind M := λ A B k c, bind c k.

(** [for x in l: body x] *)
Fixpoint for_each {A} (l : list A) (body : A → M unit) : M unit :=
  match l with
  | [] => ret tt
  | x :: l' => body x;; for_each l' body
  end.

Definition state_of {A} (o : outcome A) : State :=
  match o with
  | Ok _ s => s
  | Raise _ s => s
  end.

(** ** The ORM calls the code makes *)

(** The rows of a table as a query hands them out: in the order of the
    primary key.  [first()] asks for that order itself on a query set
    that has none, and a query without ordering is read in it too. *)
Definition by_pk {R} (a b : Z * R) : Prop := a.1 ≤ b.1.

#[global] Instance by_pk_dec {R} (a b : Z * R) : Decision (by_pk a b) :=
  Z_le_dec a.1 b.1.

Definition rows {R} (tbl : gmap Z R) : list (Z * R) :=
  merge_sort by_pk (map_to_list tbl).

(** [Model.objects.filter(pk__in=pks)]: the rows whose primary key is one
    of [pks], each once whatever [pks] repeats. *)
Definition filter_pk_in {R} (tbl : gmap Z R) (pks : list Z) : list (Z * R) :=
  filter (λ r, r.1 ∈ pks) (rows tbl).

(** [Model.objects.create(...)] of a table without constraints of its
    own: the row is stored under a fresh primary key. *)
Definition insert_fresh {R} (tbl : gmap Z R) (row : R) : Z * gmap Z R :=
  let pk := fresh (dom tbl) in (pk, <[pk := row]> tbl).

(** [Payment.objects.filter(order=pk).exists()] *)
Definition payment_exists (s : State) (order_pk : Z) : bool :=
  bool_decide (Exists (λ r, p_order r.2 = order_pk) (map_to_list (payments s))).

(** ** models.py *)

Module models.

(** *** Order *)

Definition profile_items (s : State) (self : Order) : list (Z * SocialProfile) :=
  filter_pk_in (social_profiles s) (o_items self).

Definition case_items (s : State) (self : Order) : list (Z * ReputationCase) :=
  filter_pk_in (reputation_cases s) (o_items self).

(** The query set of [get_items]: rows of the one table or of the
    other, by the kind of the order. *)
Inductive QuerySet :=
  | Profiles (rows : list (Z * SocialProfile))
  | Cases (rows : list (Z * ReputationCase)).

Definition get_items (s : State) (self : Order) : QuerySet :=
  match o_service_type self with
  | SOCIAL_PROFILES => Profiles (profile_items s self)
  | REPUTATION_CASE => Cases (case_items s self)
  end.

Definition terminal (st : ProfileStatus) : bool :=
  bool_decide (st = CREATED) || bool_decide (st = FAILED).

Definition order_ready (s : State) (self : Order) : bool :=
  match get_items s self with
  | Profiles items => forallb (λ item, terminal (sp_status item.2)) items
  | Cases _ => false
  end.

(** The [order_progress] property.  [None] is Python's [None], what
    the property returns for an order of the other kind. *)
Definition order_progress (self : Order) : M (option Progress) :=
  s ← get;
  match get_items s self with
  | Profiles items =>
      let total_count := Z.of_nat (length items) in
      let created_count :=
        Z.of_nat (length (filter (λ item, terminal (sp_status item.2) = true) items)) in
      if total_count =? 0 then raise ZeroDivisionError
      else
        let progress :=
          (PyFloat.round2 (PyFloat.of_ratio created_count total_count) * 100)%float in
        progress ← orRaise ValueError (PyFloat.to_int progress);
        mret (Some {| created := created_count;
                      total := total_count;
                      progress := NilZero.string_of_int (Z.to_int progress) ++ "%" |})
  | Cases _ => mret None
  end.

Definition add_items (self : Order) (items : list Z) : Order :=
  {| o_user := o_user self; o_service_type := o_service_type self;
     o_items := o_items self ++ items;
     o_payment_method := o_payment_method self;
     o_coupon_code := o_coupon_code self |}.

Definition add_item (self : Order) (item : Z) : Order := add_items self [item].

(** The [discount] property.  Without a coupon code it is the [int]
    zero, which every use treats as the float zero does. *)
Definition discount (self : Order) : M float :=
  match o_coupon_code self with
  | Some pk =>
      s ← get;
      coupon_code ← orRaise DoesNotExist (coupon_codes s !! pk);
      mret (cc_discount coupon_code)
  | None => mret 0%float
  end.

(** [items.aggregate(total=Sum(...)).get("total")]: the sum of
    [site__price] over the rows joined with their sites for social
    profiles, of [price] for reputation cases. *)
Definition aggregate_total (s : State) (self : Order) : option Decimal :=
  match get_items s self with
  | Profiles items =>
      Dec.Sum (map (λ item, site_price <$> sites s !! sp_site item.2) items)
  | Cases items =>
      Dec.Sum (map (λ item, Some (rc_price item.2)) items)
  end.

(** [float(aggregate or 0.0)] *)
Definition raw_total (s : State) (self : Order) : float :=
  match aggregate_total s self with
  | Some d => if Dec.truthy d then Dec.to_float d else 0%float
  | None => 0%float
  end.

Definition calculate_total (self : Order) (include_discount : bool) : M float :=
  s ← get;
  let total := raw_total s self in
  d ← discount self;
  let do_calc_discount := PyFloat.truthy d && include_discount in
  let total := (total * (if do_calc_discount then 1 - d / 100 else 1))%float in
  mret (PyFloat.round2 total).

Definition has_payment (s : State) (pk : Z) : bool := payment_exists s pk.

(** *** Payment *)

(** [Payment.objects.create(variant, order, total, currency)]: the
    instance gets the defaults of the base class, [Payment.save] copies
    the variant of the order's payment method, the base [save] draws the
    token, and the row is inserted.  [order] is a [OneToOneField]: the
    table has a unique constraint on it, and the insert of a second
    payment for an order raises [IntegrityError]. *)
Definition Payment_objects_create
    (variant : string) (order : Z) (total : float) (currency : string)
    : M (Z * Payment) :=
  s ← get;
  o ← orRaise DoesNotExist (orders s !! order);
  pm ← orRaise DoesNotExist (payment_methods s !! o_payment_method o);
  let token := next_token s in
  modify (set_next_token Z.succ);;
  let payment :=
    {| p_variant := pm_variant pm; p_order := order; p_total := total;
       p_currency := currency; p_status := "waiting"; p_token := token |} in
  s ← get;
  if payment_exists s order then raise IntegrityError
  else
    let '(pk, tbl) := insert_fresh (payments s) payment in
    modify (set_payments (λ _, tbl));;
    mret (pk, payment).

(** [create_payment], over the manager call that stores the payment:
    the method is the same whatever the table enforces. *)
Definition create_payment_with
    (objects_create : string → Z → float → string → M (Z * Payment))
    (pk : Z) (self : Order) (amount : option Decimal) : M (Z * Payment) :=
  total ←
    match amount with
    | Some a => if Dec.truthy a then mret (Dec.to_float a)
                else calculate_total self false
    | None => calculate_total self false
    end;
  d ← discount self;
  let total := if PyFloat.truthy d then (total * (1 - d / 100))%float else total in
  s ← get;
  pm ← orRaise DoesNotExist (payment_methods s !! o_payment_method self);
  objects_create (pm_variant pm) pk total "USD".

Definition create_payment := create_payment_with Payment_objects_create.

End models.

(** ** views.py *)

(** Modelled from the spec: [OrderForm] of [forms.py], a model form over
    the payment method and the coupon code of an order; these are its
    cleaned data when it validates. *)
Record OrderFormData := { f_payment_method : Z; f_coupon_code : option Z }.

(** [request.POST] together with [order_form.is_valid()]. *)
Inductive Post :=
  | NoPost
  | InvalidPost
  | ValidPost (cleaned_data : OrderFormData).

Record Request := {
  user : option Z;
  POST : Post;
  is_ajax : bool
}.

(** Modelled from the spec: [payment.capture()] of the payments library
    and the gateway behind it.  What the gateway answers is an input of
    the view: the status the payment is left in, or an exception. *)
Inductive Gateway :=
  | Captured (status : string)
  | CaptureRaises.

Module views.

Import models.

Definition login_required (request : Request) (view : Z → M response) : M response :=
  match user request with
  | Some u => view u
  | None => mret (Redirect LoginUrl)
  end.

(** *** The carton cart of the session *)

(** [cart.products]: the order sites of the cart lines that are still
    in the table. *)
Definition cart_products (s : State) : list OrderSite :=
  omap (λ line, order_sites s !! ci_product line) (CART (session s)).

(** [cart.total]: the sum of the subtotals; the [int] zero of an empty
    [sum] is the zero [Decimal] here, false like it. *)
Definition cart_total (s : State) : Decimal :=
  foldr (λ line acc, Dec.add (Dec.mul_int (ci_price line) (ci_quantity line)) acc)
        Dec.zero
        (filter (λ line, is_Some (order_sites s !! ci_product line)) (CART (session s))).

(** *** cart_checkout *)

(** [GMailAccount.objects.filter(user__isnull=True,
    email__endswith="pokemail.net").first()] *)
Definition endswith (suffix str : string) : bool :=
  let n := String.length str in
  let k := String.length suffix in
  (k <=? n)%nat && String.eqb (String.substring (n - k) k str) suffix.

Definition free_mailbox (s : State) : option (Z * GMailAccount) :=
  head (filter (λ r, ga_user r.2 = None ∧ endswith "pokemail.net" (ga_email r.2) = true)
               (rows (gmail_accounts s))).

(** The mailbox for the new profiles: a blended one under
    [settings.DEBUG], else the first free one, given to the user. *)
Definition assign_email (u : Z) : M Z :=
  s ← get;
  if DEBUG s then
    let '(pk, tbl) := insert_fresh (gmail_accounts s) {| ga_user := None; ga_email := "" |} in
    modify (set_gmail_accounts (λ _, tbl));;
    mret pk
  else
    match free_mailbox s with
    | None => raise AttributeError
    | Some (pk, email) =>
        modify (set_gmail_accounts
                  <[pk := {| ga_user := Some u; ga_email := ga_email email |}]>);;
        mret pk
    end.

(** The loop over [order_sites]: a profile is created for each and
    added to the order, which is not saved yet. *)
Fixpoint create_profiles (u email : Z) (profile_data : string)
    (order_sites : list OrderSite) (order : Order) : M Order :=
  match order_sites with
  | [] => mret order
  | order_site :: rest =>
      s ← get;
      let '(pk, tbl) :=
        insert_fresh (social_profiles s)
          {| sp_user := u; sp_status := REQUESTED_CREATION_UNPAID;
             sp_site := os_site order_site;
             sp_username := os_available_username order_site;
             sp_email := email; sp_profile_data := profile_data |} in
      modify (set_social_profiles (λ _, tbl));;
      create_profiles u email profile_data rest (add_item order pk)
  end.

Definition cart_checkout (request : Request) : M response :=
  login_required request (λ u,
    match POST request with
    | ValidPost form =>
        s ← get;
        let checkout_info := CHECKOUT_INFO (session s) in
        let blocked :=
          match checkout_info with
          | Some info =>
              if info_truthy info then default false (is_blocked info) else false
          | None => false
          end in
        if blocked then
          match checkout_info ≫= payment_url with
          | Some payment_url => mret (Redirect payment_url)
          | None => raise NoReverseMatch
          end
        else
          profile_data ← orRaise KeyError (PROFILE_DATA (session s));
          let order :=
            {| o_user := u; o_service_type := SOCIAL_PROFILES; o_items := [];
               o_payment_method := f_payment_method form;
               o_coupon_code := f_coupon_code form |} in
          let order_sites := cart_products s in
          match order_sites with
          | first :: _ =>
              user_search ← orRaise DoesNotExist (user_searches s !! os_user_search first);
              match us_user user_search with
              | None => modify (set_user_searches
                                  <[os_user_search first := {| us_user := Some u |}]>)
              | Some _ => mret tt
              end
          | [] => mret tt
          end;;
          email ← assign_email u;
          order ← create_profiles u email profile_data order_sites order;
          s ← get;
          let '(order_pk, tbl) := insert_fresh (orders s) order in
          modify (set_orders (λ _, tbl));;
          s ← get;
          '(payment_pk, payment) ← create_payment order_pk order (Some (cart_total s));
          let payment_url := PaymentOverviewUrl payment_pk (p_token payment) in
          modify (set_session (set_CHECKOUT_INFO
                    (Some {| is_blocked := Some true; payment_url := Some payment_url |})));;
          mret (Redirect payment_url)
    | _ => mret (Render "html/checkout.html")
    end).

(** *** payment_success, payment_failure *)

(** [get_object_or_404(Payment, pk=payment_id, token=payment_token,
    order__user=request.user)] *)
Definition get_payment_or_404 (payment_id payment_token u : Z) : M Payment :=
  s ← get;
  payment ← orRaise Http404 (payments s !! payment_id);
  order ← orRaise Http404 (orders s !! p_order payment);
  if bool_decide (p_token payment = payment_token ∧ o_user order = u)
  then mret payment else raise Http404.

Definition set_status (status : string) (p : Payment) : Payment :=
  {| p_variant := p_variant p; p_order := p_order p; p_total := p_total p;
     p_currency := p_currency p; p_status := status; p_token := p_token p |}.

Definition capture (payment_id : Z) (payment : Payment) (gateway : Gateway) : M Payment :=
  match gateway with
  | Captured status =>
      modify (set_payments <[payment_id := set_status status payment]>);;
      mret (set_status status payment)
  | CaptureRaises => raise GatewayError
  end.

Definition set_profile_status (status : ProfileStatus) (p : SocialProfile) : SocialProfile :=
  {| sp_user := sp_user p; sp_status := status; sp_site := sp_site p;
     sp_username := sp_username p; sp_email := sp_email p;
     sp_profile_data := sp_profile_data p |}.

Definition set_case_status (status : CaseStatus) (c : ReputationCase) : ReputationCase :=
  {| rc_price := rc_price c; rc_status := status |}.

(** [SocialProfile.objects.filter(pk__in=pks).update(status=status)] *)
Definition update_profiles (pks : list Z) (status : ProfileStatus)
    (tbl : gmap Z SocialProfile) : gmap Z SocialProfile :=
  foldr (λ pk t, alter (set_profile_status status) pk t) tbl pks.

Definition update_cases (pks : list Z) (status : CaseStatus)
    (tbl : gmap Z ReputationCase) : gmap Z ReputationCase :=
  foldr (λ pk t, alter (set_case_status status) pk t) tbl pks.

(** [run_worker.apply_async(args=(pk,))] *)
Definition run_worker_apply_async (pk : Z) : M unit :=
  modify (set_work_queue (λ q, q ++ [pk])).

Definition add_message (lvl : level) (message : string) : M unit :=
  modify (set_flash (λ l, l ++ [(lvl, message)])).

Definition payment_success (request : Request) (payment_id payment_token : Z)
    (gateway : Gateway) : M response :=
  login_required request (λ u,
    payment ← get_payment_or_404 payment_id payment_token u;
    payment ← capture payment_id payment gateway;
    let confirmed := bool_decide (p_status payment = "confirmed") in
    s ← get;
    order ← orRaise DoesNotExist (orders s !! p_order payment);
    (if bool_decide (o_service_type order = SOCIAL_PROFILES) then
       modify (set_session (set_CART []));;
       modify (set_session (set_CHECKOUT_INFO (Some empty_info)))
     else mret tt);;
    '(lvl, message) ←
      (if bool_decide (o_service_type order = SOCIAL_PROFILES) && confirmed then
         s ← get;
         let social_profile_ids :=
           (filter (λ item, sp_status item.2 = REQUESTED_CREATION_UNPAID)
                   (profile_items s order)).*1 in
         modify (set_social_profiles
                   (update_profiles social_profile_ids REQUESTED_CREATION_PAID));;
         for_each social_profile_ids run_worker_apply_async;;
         s ← get;
         (if bool_decide (u ∈ made_an_order s) then mret tt
          else modify (set_made_an_order (λ m, {[u]} ∪ m)));;
         mret (INFO, "Payment have been successfully processed!")
       else if bool_decide (o_service_type order = REPUTATION_CASE) && confirmed then
         s ← get;
         let unpaid :=
           (filter (λ item, rc_status item.2 = OPEN_UNPAID) (case_items s order)).*1 in
         modify (set_reputation_cases (update_cases unpaid OPEN_PAID));;
         mret (INFO, "Payment have been successfully processed!")
       else mret (WARNING, "Payment failed!"));
    add_message lvl message;;
    mret (Redirect (OrderOverviewUrl (p_order payment)))).

Definition payment_failure (request : Request) (payment_id payment_token : Z) : M response :=
  login_required request (λ u,
    payment ← get_payment_or_404 payment_id payment_token u;
    add_message WARNING "Payment failed!";;
    modify (set_session (set_CHECKOUT_INFO (Some empty_info)));;
    mret (Redirect (OrderOverviewUrl (p_order payment)))).

(** *** OrderDetailView.post *)

(** The edit flow of an order: the payment is created only when the
    order has none yet; with one, or an invalid form, the page is
    rendered again.  The form saves its cleaned data on the order. *)
Definition OrderDetailView_post (request : Request) (pk : Z) : M response :=
  login_required request (λ u,
    s ← get;
    order ← orRaise Http404 (orders s !! pk);
    if bool_decide ((u, pk) ∈ view_order s) then
      match has_payment s pk, POST request with
      | false, ValidPost form =>
          let order :=
            {| o_user := o_user order; o_service_type := o_service_type order;
               o_items := o_items order;
               o_payment_method := f_payment_method form;
               o_coupon_code := f_coupon_code form |} in
          modify (set_orders <[pk := order]>);;
          '(payment_pk, payment) ← create_payment pk order None;
          mret (Redirect (PaymentOverviewUrl payment_pk (p_token payment)))
      | _, _ => mret (Render "html/order-overview.html")
      end
    else raise Http404).

(** *** order_progress *)

Definition order_progress (request : Request) (order_pk : Z) : M response :=
  login_required request (λ u,
    if negb (is_ajax request) then mret HttpResponseBadRequest
    else
      s ← get;
      order ← orRaise Http404 (orders s !! order_pk);
      if negb (bool_decide (o_service_type order = SOCIAL_PROFILES)) then raise Http404
      else if negb (bool_decide ((u, order_pk) ∈ view_order s)) then raise Http404
      else
        body ← models.order_progress order;
        match body with
        | Some body => mret (JsonResponse body)
        | None => raise TypeError
        end).

End views.

(** ** Example data *)

Module example.

Import models.

Definition dec (coefficient : Z) (places : nat) : Decimal :=
  {| coefficient := coefficient; places := places |}.

Definition profile (status : ProfileStatus) : SocialProfile :=
  {| sp_user := 1; sp_status := status; sp_site := 1; sp_username := "ada";
     sp_email := 1; sp_profile_data := "{}" |}.

(** A site at $10, one payment method, a coupon of 20% and one of 10%,
    no order yet. *)
Definition base : State :=
  {| sites := {[ 1 := {| site_name := "site"; site_price := dec 10 0 |} ]};
     social_profiles := ∅;
     reputation_cases := ∅;
     user_searches := {[ 1 := {| us_user := None |} ]};
     order_sites := {[ 1 := {| os_site := 1; os_available_username := "ada";
                               os_user_search := 1 |} ]};
     gmail_accounts := {[ 1 := {| ga_user := None; ga_email := "ada@pokemail.net" |} ]};
     payment_methods := {[ 1 := {| pm_name := "Card"; pm_variant := "default" |} ]};
     coupon_codes := {[ 1 := {| cc_sales_rep := 2; cc_code := "TWENTY";
                                cc_discount := 20; cc_commission := 0 |};
                        2 := {| cc_sales_rep := 2; cc_code := "TEN";
                                cc_discount := 10; cc_commission := 0 |} ]};
     orders := ∅;
     payments := ∅;
     made_an_order := ∅;
     view_order := {[ (1, 1) ]};
     DEBUG := false;
     next_token := 1000;
     session := {| CHECKOUT_INFO := None; PROFILE_DATA := Some "{}"; CART := [] |};
     work_queue := [];
     flash := [] |}.

Definition order (service_type : ServiceType) (items : list Z) (coupon_code : option Z) : Order :=
  {| o_user := 1; o_service_type := service_type; o_items := items;
     o_payment_method := 1; o_coupon_code := coupon_code |}.

(** Order 1 over the given profiles. *)
Definition with_profiles (statuses : list ProfileStatus) (coupon_code : option Z) : State :=
  let rows := zip (Z.of_nat <$> seq 1 (length statuses)) (profile <$> statuses) in
  set_orders <[1 := order SOCIAL_PROFILES rows.*1 coupon_code]>
    (set_social_profiles (λ _, list_to_map rows) base).

(** Order 1 over one reputation case of the given price. *)
Definition with_case (price : Decimal) (coupon_code : option Z) : State :=
  set_orders <[1 := order REPUTATION_CASE [1] coupon_code]>
    (set_reputation_cases <[1 := {| rc_price := price; rc_status := OPEN_UNPAID |}]> base).

Definition request : Request :=
  {| user := Some 1; POST := NoPost; is_ajax := true |}.

Definition post (coupon_code : option Z) : Request :=
  {| user := Some 1;
     POST := ValidPost {| f_payment_method := 1; f_coupon_code := coupon_code |};
     is_ajax := false |}.

End example.

(** ** Definitions of the properties

    What the statements below are written with: the payment a call
    stores, the counts of the progress query, runs of the confirmation
    handler, and the example states the statements are evaluated at. *)

Section property_definitions.

Import models views.

(** The payment that [create_payment] builds for an order saved under
    [pk], given the total it computed. *)
Definition new_payment (s : State) (pk : Z) (pm : PaymentMethod) (total : float) : Payment :=
  {| p_variant := pm_variant pm; p_order := pk; p_total := total;
     p_currency := "USD"; p_status := "waiting"; p_token := next_token s |}.

Definition store_payment (s : State) (p : Payment) : State :=
  set_payments (λ _, <[fresh (dom (payments s)) := p]> (payments s))
               (set_next_token Z.succ s).

(** The total [create_payment] hands to the manager, from the amount
    passed, the undiscounted total [v] and the discount [d]. *)
Definition payment_total (amount : option Decimal) (v d : float) : float :=
  let base :=
    match amount with
    | Some a => if Dec.truthy a then Dec.to_float a else v
    | None => v
    end in
  if PyFloat.truthy d then (base * (1 - d / 100))%float else base.

(** A payments table without the unique constraint: the manager call of
    [models.Payment_objects_create] less its integrity check.  It is not
    what the application runs against; it separates what
    [create_payment] checks itself from what the table enforces. *)
Definition objects_create_unconstrained
    (variant : string) (order : Z) (total : float) (currency : string)
    : M (Z * Payment) :=
  s ← get;
  o ← orRaise DoesNotExist (orders s !! order);
  pm ← orRaise DoesNotExist (payment_methods s !! o_payment_method o);
  let token := next_token s in
  modify (set_next_token Z.succ);;
  let payment :=
    {| p_variant := pm_variant pm; p_order := order; p_total := total;
       p_currency := currency; p_status := "waiting"; p_token := token |} in
  s ← get;
  let '(pk, tbl) := insert_fresh (payments s) payment in
  modify (set_payments (λ _, tbl));;
  mret (pk, payment).

(** Order 1 of the example, already paid for once. *)
Definition paid_once : State :=
  set_payments <[1 := {| p_variant := "default"; p_order := 1; p_total := 20%float;
                        p_currency := "USD"; p_status := "waiting"; p_token := 999 |}]>
    (example.with_profiles [CREATED; CREATED] None).

(** No item of the order resolves to a row. *)
Definition no_items (s : State) (self : Order) : Prop :=
  match get_items s self with
  | Profiles rows => rows = []
  | Cases rows => rows = []
  end.

(** The percentage of the spec: [floor(100 * created / total)]. *)
Definition floor_percent (created total : Z) : Z := 100 * created / total.

(** The percentage the property computes:
    [int(round(created / total, 2) * 100)]. *)
Definition percent (created total : Z) : option Z :=
  PyFloat.to_int (PyFloat.round2 (PyFloat.of_ratio created total) * 100)%float.

(** The ratio as a whole percentage, rounded to the nearest: what
    [round(created / total, 2) * 100] is in exact arithmetic. *)
Definition nearest_percent (created total : Z) : Z :=
  (200 * created + total) / (2 * total).

Definition total_count (s : State) (self : Order) : Z :=
  Z.of_nat (length (profile_items s self)).

Definition created_count (s : State) (self : Order) : Z :=
  Z.of_nat (length (filter (λ item, terminal (sp_status item.2) = true)
                           (profile_items s self))).

(** One run of the confirmation handler: the request, the payment it
    names, and what the gateway answers to the capture. *)
Record Run := {
  run_request : Request;
  run_payment_id : Z;
  run_payment_token : Z;
  run_gateway : Gateway
}.

Definition run_payment_success (s : State) (r : Run) : State :=
  state_of (views.payment_success (run_request r) (run_payment_id r)
              (run_payment_token r) (run_gateway r) s).

(** The state after a sequence of runs, whatever each of them answers. *)
Definition run_all (runs : list Run) (s : State) : State :=
  foldl run_payment_success s runs.

(** The profiles of an order that await the payment. *)
Definition unpaid_ids (s : State) (order : Order) : list Z :=
  (filter (λ item : Z * SocialProfile, sp_status item.2 = REQUESTED_CREATION_UNPAID)
          (models.profile_items s order)).*1.

(** The cases of an order that are open and await the payment, by
    primary key: what the confirmation of a payment marks as paid. *)
Definition unpaid_cases (s : State) (order : Order) : list Z :=
  (filter (λ item : Z * ReputationCase, rc_status item.2 = OPEN_UNPAID)
          (models.case_items s order)).*1.

(** No profile is submitted to the work queue twice, and none that was
    submitted awaits the payment. *)
Definition dispatched_once (s : State) : Prop :=
  NoDup (work_queue s)
  ∧ ∀ pk p, pk ∈ work_queue s → social_profiles s !! pk = Some p →
            sp_status p ≠ REQUESTED_CREATION_UNPAID.

(** Order 1 of the example checked out and not paid yet: two profiles
    await the payment, the cart holds their line, the checkout is
    blocked on payment 1. *)
Definition checked_out : State :=
  set_session
    (λ _, {| CHECKOUT_INFO :=
               Some {| is_blocked := Some true;
                       payment_url := Some (PaymentOverviewUrl 1 999) |};
             PROFILE_DATA := Some "{}";
             CART := [ {| ci_product := 1; ci_quantity := 2;
                          ci_price := example.dec 10 0 |} ] |})
    (set_payments <[1 := {| p_variant := "default"; p_order := 1; p_total := 20%float;
                           p_currency := "USD"; p_status := "waiting"; p_token := 999 |}]>
       (example.with_profiles [REQUESTED_CREATION_UNPAID; REQUESTED_CREATION_UNPAID] None)).

(** The example with the payment of an order of one reputation case,
    open and unpaid. *)
Definition case_checked_out : State :=
  set_payments <[1 := {| p_variant := "default"; p_order := 1; p_total := 30%float;
                         p_currency := "USD"; p_status := "waiting"; p_token := 999 |}]>
    (example.with_case (example.dec 30 0) None).

Definition confirm : Run :=
  {| run_request := example.request; run_payment_id := 1;
     run_payment_token := 999; run_gateway := Captured "confirmed" |}.

(** The example with a cart of one line and the details entered. *)
Definition shopping : State :=
  set_session
    (set_CART [ {| ci_product := 1; ci_quantity := 1; ci_price := example.dec 10 0 |} ])
    example.base.

(** The session's checkout is blocked on a payment page. *)
Definition blocked_on (s : State) (u : url) : Prop :=
  CHECKOUT_INFO (session s) = Some {| is_blocked := Some true; payment_url := Some u |}.

(** The test [cart_checkout] makes of the checkout information. *)
Definition is_blocked_in (s : State) : bool :=
  match CHECKOUT_INFO (session s) with
  | Some info => if info_truthy info then default false (is_blocked info) else false
  | None => false
  end.

(** The tables and the session a step leaves as they are. *)
Definition same_books (s s' : State) : Prop :=
  orders s' = orders s ∧ payments s' = payments s ∧ session s' = session s.

End property_definitions.

(** * More of models.py and views.py *)

(** ** Strings *)

(** [str(n)] for a Python [int]. *)
Definition str_of_int (n : Z) : string := NilZero.string_of_int (Z.to_int n).

(** [s.lower()], on the ASCII letters. *)
Definition lower_char (c : ascii) : ascii :=
  let n := nat_of_ascii c in
  if ((65 <=? n) && (n <=? 90))%nat then ascii_of_nat (n + 32) else c.

Fixpoint lower (s : string) : string :=
  match s with
  | EmptyString => EmptyString
  | String c rest => String (lower_char c) (lower rest)
  end.

(** [s.replace(old, new)] for one-character [old] and [new]. *)
Fixpoint replace_char (old new : ascii) (s : string) : string :=
  match s with
  | EmptyString => EmptyString
  | String c rest =>
      String (if Ascii.eqb c old then new else c) (replace_char old new rest)
  end.

(** ** models.py: the rest of Order and Payment *)

(** [get_service_type_display()]: the label of [SERVICE_TYPE_CHOICES]. *)
Definition get_service_type_display (self : Order) : string :=
  match o_service_type self with
  | SOCIAL_PROFILES => "Social Profiles"
  | REPUTATION_CASE => "Reputation Case"
  end.

(** [payments.PurchasedItem] *)
Record PurchasedItem := {
  pi_name : string;
  pi_quantity : Z;
  pi_sku : string;
  pi_price : float;
  pi_currency : string
}.

(** [Payment.get_purchased_items], the items it yields as a list.
    [order_id] is [p_order]. *)
Definition get_purchased_items (self : Payment) : M (list PurchasedItem) :=
  s ← get;
  order ← orRaise DoesNotExist (orders s !! p_order self);
  let has_items := match o_items order with [] => false | _ => true end in
  if has_items then
    let name := ("Order #" ++ str_of_int (p_order self))%string in
    let service_type :=
      replace_char " " "-" (lower (get_service_type_display order)) in
    let sku := ("order-" ++ service_type ++ "-" ++ str_of_int (p_order self))%string in
    mret [ {| pi_name := name; pi_quantity := 1; pi_sku := sku;
              pi_price := p_total self; pi_currency := p_currency self |} ]
  else mret [].

(** [self.payment], the reverse side of the one-to-one field: the
    payment of the order, [None] where the accessor raises (no payment,
    or more than one row). *)
Definition payment_of (s : State) (pk : Z) : option Payment :=
  match filter (λ r : Z * Payment, p_order r.2 = pk) (map_to_list (payments s)) with
  | [r] => Some r.2
  | _ => None
  end.

Section payment_status.

(** The labels of the status choices of the payments library, which
    [get_status_display] looks up. *)
Variable status_display : string → string.

(** The [payment_status] property: every exception of the lookup is
    caught and answered with ["Payment Pending"]. *)
Definition payment_status (s : State) (pk : Z) : string :=
  match payment_of s pk with
  | Some payment => status_display (p_status payment)
  | None => "Payment Pending"
  end.

(** [Order.__str__] *)
Definition Order_str (s : State) (pk : Z) : string :=
  ("Order #" ++ str_of_int pk ++ " (" ++ payment_status s pk ++ ")")%string.

End payment_status.

(** ** models.py: CouponCode *)

(** The random generator: an endless supply of draws and the number of
    draws taken so far.  [random.choice(seq)] takes the next draw and
    indexes [seq] with it, reduced below [len(seq)]. *)
Record Rng := { draws : nat → nat; taken : nat }.

Definition ascii_uppercase : string := "ABCDEFGHIJKLMNOPQRSTUVWXYZ".
Definition ascii_lowercase : string := "abcdefghijklmnopqrstuvwxyz".
Definition digits : string := "1234567890".

Definition random_choice (seq : string) (rng : Rng) : option ascii * Rng :=
  (String.get (draws rng (taken rng) mod String.length seq) seq,
   {| draws := draws rng; taken := S (taken rng) |}).

(** [[random.choice(base_str) for _ in range(length)]], joined. *)
Fixpoint choices (base_str : string) (length : nat) (rng : Rng) : string * Rng :=
  match length with
  | O => (EmptyString, rng)
  | S n =>
      let '(c, rng) := random_choice base_str rng in
      let '(rest, rng) := choices base_str n rng in
      (match c with Some c => String c rest | None => rest end, rng)
  end.

Definition generate_code (length : nat) (include_numbers all_uppercase : bool)
    (rng : Rng) : string * Rng :=
  let base_str := ascii_uppercase in
  let base_str := (base_str ++ (if negb all_uppercase then ascii_lowercase else ""))%string in
  let base_str := (base_str ++ (if include_numbers then digits else ""))%string in
  choices base_str length rng.

(** [code in existing_codes] *)
Definition code_exists (tbl : gmap Z CouponCode) (code : string) : bool :=
  bool_decide (Exists (λ r : Z * CouponCode, cc_code r.2 = code) (map_to_list tbl)).

(** The [while True] loop of [save]: codes are generated until one is
    not among the existing ones.  [fuel] bounds the iterations looked
    at; [None] is a loop still running when it is used up. *)
Fixpoint fresh_code (fuel : nat) (tbl : gmap Z CouponCode) (rng : Rng)
    : option (string * Rng) :=
  match fuel with
  | O => None
  | S fuel =>
      let '(code, rng) := generate_code 10 false true rng in
      if code_exists tbl code then fresh_code fuel tbl rng
      else Some (code, rng)
  end.

Definition set_code (code : string) (c : CouponCode) : CouponCode :=
  {| cc_sales_rep := cc_sales_rep c; cc_code := code;
     cc_discount := cc_discount c; cc_commission := cc_commission c |}.

(** What [CouponCode.save] of a new coupon code does to the table: the
    row is inserted under a fresh key, with a generated code when it has
    none; [code] is unique in the table, so the insert of a code that is
    there already raises [IntegrityError]. *)
Inductive saved :=
  | Saved (pk : Z) (row : CouponCode) (tbl : gmap Z CouponCode) (rng : Rng)
  | NotSaved (e : exn) (rng : Rng).

Definition CouponCode_save (fuel : nat) (self : CouponCode)
    (tbl : gmap Z CouponCode) (rng : Rng) : option saved :=
  '(self, rng) ←
    (if String.eqb (cc_code self) ""
     then '(code, rng) ← fresh_code fuel tbl rng; Some (set_code code self, rng)
     else Some (self, rng));
  if code_exists tbl (cc_code self) then Some (NotSaved IntegrityError rng)
  else
    let '(pk, tbl) := insert_fresh tbl self in
    Some (Saved pk self tbl rng).

(** ** views.py: the cart views and payment_details *)

(** The ["site"] parameter of the query string: missing, the empty
    string, the writing of a primary key, or any other text (on which
    the lookup by primary key raises [ValueError]). *)
Inductive SiteParam :=
  | SiteMissing
  | SiteEmpty
  | SitePk (pk : Z)
  | SiteOther (text : string).

(** What the cart views answer: the JSON object with the total of the
    cart and a message, or the bad request of [site_id_required]. *)
Inductive cart_response :=
  | CartJson (total : Decimal) (message : string)
  | CartBadRequest (message : string).

(** [get_object_or_404(OrderSite, pk=site_id)] *)
Definition get_order_site_or_404 (site_id : SiteParam) : M (Z * OrderSite) :=
  match site_id with
  | SitePk pk =>
      s ← get;
      order_site ← orRaise Http404 (order_sites s !! pk);
      mret (pk, order_site)
  | _ => raise ValueError
  end.

(** [site_id_required]: the view is called with the site id, unless the
    parameter is missing or empty. *)
Definition site_id_required (view : SiteParam → M cart_response)
    (site : SiteParam) : M cart_response :=
  match site with
  | SiteMissing | SiteEmpty => mret (CartBadRequest "No Site ID provided.")
  | _ => view site
  end.

(** [Cart(request.session)]: the lines of the session whose product is
    still in the table; it is these that a change of the cart writes
    back. *)
Definition load_cart (s : State) : list CartItem :=
  filter (λ line, is_Some (order_sites s !! ci_product line)) (CART (session s)).

Definition in_cart (product : Z) (cart : list CartItem) : bool :=
  existsb (λ line, ci_product line =? product) cart.

Definition add_quantity (n : Z) (product : Z) (line : CartItem) : CartItem :=
  if ci_product line =? product
  then {| ci_product := ci_product line; ci_quantity := ci_quantity line + n;
          ci_price := ci_price line |}
  else line.

(** [cart.add(product, price)]: one more of a product that is in the
    cart, else a new line of quantity one at the price given. *)
Definition cart_add (product : Z) (price : Decimal) (cart : list CartItem) : list CartItem :=
  if in_cart product cart then map (add_quantity 1 product) cart
  else cart ++ [ {| ci_product := product; ci_quantity := 1; ci_price := price |} ].

(** [cart.remove_single(product)]: one less of the product, the line
    removed when it has one left; nothing for a product not in the cart. *)
Definition cart_remove_single (product : Z) (cart : list CartItem) : list CartItem :=
  match find (λ line, ci_product line =? product) cart with
  | None => cart
  | Some line =>
      if ci_quantity line <=? 1
      then filter (λ line, ci_product line ≠ product) cart
      else map (add_quantity (-1) product) cart
  end.

(** [sum(item.subtotal for item in cart.items)] of the lines given. *)
Definition lines_total (cart : list CartItem) : Decimal :=
  foldr (λ line acc, Dec.add (Dec.mul_int (ci_price line) (ci_quantity line)) acc)
        Dec.zero cart.

Definition site_of (s : State) (order_site : OrderSite) : M Site :=
  orRaise DoesNotExist (sites s !! os_site order_site).

Definition add_to_cart : SiteParam → M cart_response :=
  site_id_required (λ site_id,
    s ← get;
    let cart := load_cart s in
    '(pk, order_site) ← get_order_site_or_404 site_id;
    site ← site_of s order_site;
    let cart := cart_add pk (site_price site) cart in
    modify (set_session (set_CART cart));;
    let message :=
      (site_name site ++ " have been successfully added to the cart.")%string in
    mret (CartJson (lines_total cart) message)).

Definition remove_from_cart : SiteParam → M cart_response :=
  site_id_required (λ site_id,
    s ← get;
    let cart := load_cart s in
    '(pk, ordered_site) ← get_order_site_or_404 site_id;
    let cart' := cart_remove_single pk cart in
    (if in_cart pk cart then modify (set_session (set_CART cart')) else mret tt);;
    site ← site_of s ordered_site;
    let message :=
      (site_name site ++ " have been successfully removed from the cart.")%string in
    mret (CartJson (lines_total cart') message)).

(** What [payment_details] answers. *)
Inductive details_response :=
  | PaymentPage (payment : Payment)
  | RedirectTo (target : string).

Section payment_details.

(** [payment.get_form(data=request.POST or None)] of the payments
    library: a computation of its own, which answers with a form or
    raises [RedirectNeeded] with the address to go to. *)
Variable get_form : Z → Payment → M (option string).

Definition payment_details (request : Request) (payment_id payment_token : Z)
    : M details_response :=
  s ← get;
  payment ← orRaise Http404 (payments s !! payment_id);
  (if bool_decide (p_token payment = payment_token) then mret tt else raise Http404);;
  (match user request with
   | Some u =>
       if bool_decide ((u, p_order payment) ∈ view_order s) then mret tt
       else raise Http404
   | None => raise Http404
   end);;
  redirect_to ← get_form payment_id payment;
  match redirect_to with
  | Some target => mret (RedirectTo target)
  | None => mret (PaymentPage payment)
  end.

End payment_details.

(** ** Invariants of the tables *)

(** The one-to-one constraint of [Payment.order]: no two payments of
    one order. *)
Definition payment_order_unique (s : State) : Prop :=
  ∀ k1 k2 p1 p2,
    payments s !! k1 = Some p1 → payments s !! k2 = Some p2 →
    p_order p1 = p_order p2 → k1 = k2.

(** The unique constraint of [CouponCode.code]. *)
Definition codes_unique (tbl : gmap Z CouponCode) : Prop :=
  ∀ k1 k2 c1 c2,
    tbl !! k1 = Some c1 → tbl !! k2 = Some c2 → cc_code c1 = cc_code c2 → k1 = k2.

(** The characters of a string. *)
Fixpoint chars (s : string) : list ascii :=
  match s with
  | EmptyString => []
  | String c rest => c :: chars rest
  end.

(** The alphabet [generate_code] draws from. *)
Definition alphabet (include_numbers all_uppercase : bool) : string :=
  ((ascii_uppercase ++ (if negb all_uppercase then ascii_lowercase else ""))
   ++ (if include_numbers then digits else ""))%string.

(** A coupons table of the example and a generator that draws 0, 1, 2,
    and so on. *)
Definition counting : Rng := {| draws := λ i, i; taken := 0 |}.

Definition coupons : gmap Z CouponCode :=
  {[ 1 := {| cc_sales_rep := 2; cc_code := "ABCDEFGHIJ";
             cc_discount := 20; cc_commission := 0 |} ]}.

(** The foreign key of [Payment.order]: every payment is the payment of
    an order of the table. *)
Definition payments_have_orders (s : State) : Prop :=
  ∀ k p, payments s !! k = Some p → is_Some (orders s !! p_order p).

(** What the steps of the checkout before the order is saved leave as it
    is: everything but the catalogue rows they write (profiles, user
    searches, mailboxes). *)
Definition same_ledger (s s' : State) : Prop :=
  orders s' = orders s
  ∧ payments s' = payments s
  ∧ session s' = session s
  ∧ payment_methods s' = payment_methods s
  ∧ coupon_codes s' = coupon_codes s
  ∧ next_token s' = next_token s
  ∧ work_queue s' = work_queue s
  ∧ made_an_order s' = made_an_order s
  ∧ flash s' = flash s
  ∧ order_sites s' = order_sites s.

(** The preconditions under which a checkout submission goes through. *)
Record can_check_out (request : Request) (u : Z) (form : OrderFormData) (s : State) : Prop := {
  co_user : user request = Some u;
  co_post : POST request = ValidPost form;
  co_free : is_blocked_in s = false;
  co_details : is_Some (PROFILE_DATA (session s));
  co_search :
    match views.cart_products s with
    | [] => True
    | first :: _ => is_Some (user_searches s !! os_user_search first)
    end;
  co_mailbox : DEBUG s = true ∨ is_Some (views.free_mailbox s);
  co_method : is_Some (payment_methods s !! f_payment_method form);
  co_coupon :
    match f_coupon_code form with
    | None => True
    | Some pk => is_Some (coupon_codes s !! pk)
    end;
  co_payments : payments_have_orders s
}.

(** What a checkout that went through has stored: the order, its new
    profiles and its payment. *)
Definition checkout_stored (u : Z) (form : OrderFormData) (s s1 : State)
    (order_pk : Z) (order : Order) (payment_pk : Z) (payment : Payment) (d : float) : Prop :=
  orders s !! order_pk = None
  ∧ orders s1 = <[order_pk := order]> (orders s)
  ∧ o_user order = u
  ∧ o_service_type order = SOCIAL_PROFILES
  ∧ o_payment_method order = f_payment_method form
  ∧ o_coupon_code order = f_coupon_code form
  ∧ length (o_items order) = length (views.cart_products s)
  ∧ NoDup (o_items order)
  ∧ (∀ pk, pk ∈ o_items order →
       social_profiles s !! pk = None
       ∧ ∃ row, social_profiles s1 !! pk = Some row
                ∧ sp_status row = REQUESTED_CREATION_UNPAID ∧ sp_user row = u)
  ∧ (∀ pk row, social_profiles s !! pk = Some row → social_profiles s1 !! pk = Some row)
  ∧ payments s !! payment_pk = None
  ∧ payments s1 = <[payment_pk := payment]> (payments s)
  ∧ p_order payment = order_pk
  ∧ p_status payment = "waiting"
  ∧ models.discount order s = Ok d s
  ∧ (Dec.truthy (views.cart_total s) = true →
     p_total payment =
       if PyFloat.truthy d
       then (Dec.to_float (views.cart_total s) * (1 - d / 100))%float
       else Dec.to_float (views.cart_total s))
  ∧ blocked_on s1 (PaymentOverviewUrl payment_pk (p_token payment))
  ∧ CART (session s1) = CART (session s)
  ∧ work_queue s1 = work_queue s
  ∧ payments_have_orders s1.

(** * Properties *)

(** ** Running computations *)

Ltac unfold_M :=
  unfold orRaise, mbind, M_bind, mret, M_ret, bind, ret, get, modify, raise in *.

Lemma bind_Ok {A B} (c : M A) (k : A → M B) s a s1 :
  c s = Ok a s1 → (c ≫= k) s = k a s1.
Proof. intros H. unfold mbind, M_bind, bind. rewrite H. reflexivity. Qed.

Lemma bind_Raise {A B} (c : M A) (k : A → M B) s e s1 :
  c s = Raise e s1 → (c ≫= k) s = Raise e s1.
Proof. intros H. unfold mbind, M_bind, bind. rewrite H. reflexivity. Qed.

Ltac step := unfold_M; cbn beta iota in *.

Section float_facts.

Local Open Scope float_scope.

(** The two zeros are the only floats that compare equal to zero. *)
Lemma eqb_zero_inv (x : float) : (x =? 0) = true → x = 0 ∨ x = -0.
Proof.
  rewrite FloatAxioms.eqb_spec. intros H.
  rewrite <- (SF2Prim_Prim2SF x).
  destruct (Prim2SF x) as [[|]|[|]| |[|] ? ?]; vm_compute in H; try discriminate.
  - right; reflexivity.
  - left; reflexivity.
Qed.

(** Zero times a finite float is a zero. *)
Lemma mul_zero_finite (x : float) :
  is_finite x = true → 0 * x = 0 ∨ 0 * x = -0.
Proof.
  intros Hfin.
  assert (Hsf : ∃ s, Prim2SF (0 * x) = S754_zero s).
  { rewrite FloatAxioms.mul_spec.
    unfold is_finite in Hfin. apply negb_true_iff, orb_false_iff in Hfin.
    destruct Hfin as [Hnan Hinf].
    unfold Prim2SF at 2. rewrite Hnan, Hinf.
    change (Prim2SF 0) with (S754_zero false).
    destruct (is_zero x); [eexists; reflexivity|].
    destruct (Z.frexp x) as [r exp].
    destruct (shr_fexp _ _ _ _ _) as [shr e'].
    destruct (shr_m shr); eexists; reflexivity. }
  destruct Hsf as [s Hs].
  rewrite <- (SF2Prim_Prim2SF (0 * x)), Hs.
  destruct s; [right | left]; reflexivity.
Qed.

End float_facts.

Section models_facts.

Import models.

Lemma discount_state (self : Order) (s : State) :
  state_of (discount self s) = s.
Proof.
  unfold discount. destruct (o_coupon_code self); [|reflexivity].
  step. destruct (coupon_codes s !! _); reflexivity.
Qed.

Lemma discount_Ok_state (self : Order) (s s' : State) d :
  discount self s = Ok d s' → s' = s.
Proof.
  intros H. pose proof (discount_state self s) as Hs. rewrite H in Hs. exact Hs.
Qed.

(** [calculate_total] in terms of the discount read. *)
Lemma calculate_total_Ok (self : Order) (incl : bool) (s : State) d :
  discount self s = Ok d s →
  calculate_total self incl s =
    Ok (PyFloat.round2
          (raw_total s self *
             (if PyFloat.truthy d && incl then 1 - d / 100 else 1))%float) s.
Proof.
  intros Hd. unfold calculate_total. step. rewrite Hd. reflexivity.
Qed.

Lemma calculate_total_Raise (self : Order) (incl : bool) (s s' : State) e :
  discount self s = Raise e s' →
  calculate_total self incl s = Raise e s'.
Proof.
  intros Hd. unfold calculate_total. step. rewrite Hd. reflexivity.
Qed.

Lemma fresh_pk_None {R} (tbl : gmap Z R) : tbl !! fresh (dom tbl) = None.
Proof. apply not_elem_of_dom, is_fresh. Qed.

Lemma Payment_objects_create_Ok variant pk total s self pm :
  orders s !! pk = Some self →
  payment_methods s !! o_payment_method self = Some pm →
  payment_exists s pk = false →
  Payment_objects_create variant pk total "USD" s =
    Ok (fresh (dom (payments s)), new_payment s pk pm total)
       (store_payment s (new_payment s pk pm total)).
Proof.
  intros Ho Hpm Hex. unfold Payment_objects_create. step.
  rewrite Ho. cbn. rewrite Hpm. cbn.
  change (payment_exists (set_next_token Z.succ s) pk) with (payment_exists s pk).
  rewrite Hex. reflexivity.
Qed.

(** The unique constraint: with a payment of the order in the table,
    the manager call raises and the table is as before. *)
Lemma Payment_objects_create_exists variant pk total currency s :
  payment_exists s pk = true →
  ∃ e s', Payment_objects_create variant pk total currency s = Raise e s'
          ∧ payments s' = payments s.
Proof.
  intros Hex. unfold Payment_objects_create. step.
  destruct (orders s !! pk) as [o|]; cbn; [|eauto].
  destruct (payment_methods s !! o_payment_method o) as [pm|]; cbn; [|eauto].
  change (payment_exists (set_next_token Z.succ s) pk) with (payment_exists s pk).
  rewrite Hex. eauto.
Qed.

Lemma create_payment_with_run objects_create pk self amount s pm d :
  payment_methods s !! o_payment_method self = Some pm →
  discount self s = Ok d s →
  create_payment_with objects_create pk self amount s =
    objects_create (pm_variant pm) pk
      (payment_total amount (PyFloat.round2 (raw_total s self * 1)%float) d) "USD" s.
Proof.
  intros Hpm Hd. unfold create_payment_with, payment_total. step.
  pose proof (calculate_total_Ok self false s d Hd) as Hv.
  rewrite andb_false_r in Hv.
  destruct amount as [a|]; [destruct (Dec.truthy a)|];
    rewrite ?Hv, Hd; cbn; rewrite Hpm; reflexivity.
Qed.

Lemma create_payment_Ok pk self amount s pm d :
  orders s !! pk = Some self →
  payment_methods s !! o_payment_method self = Some pm →
  payment_exists s pk = false →
  discount self s = Ok d s →
  let p := new_payment s pk pm
             (payment_total amount (PyFloat.round2 (raw_total s self * 1)%float) d) in
  create_payment pk self amount s = Ok (fresh (dom (payments s)), p) (store_payment s p).
Proof.
  intros Ho Hpm Hex Hd p. unfold create_payment.
  rewrite (create_payment_with_run _ pk self amount s pm d Hpm Hd).
  eapply Payment_objects_create_Ok; eassumption.
Qed.

(** Whatever happens in [create_payment], a table that holds a payment
    of the order is left as it is. *)
Lemma create_payment_exists pk self amount s :
  payment_exists s pk = true →
  ∃ e s', create_payment pk self amount s = Raise e s' ∧ payments s' = payments s.
Proof.
  intros Hex. unfold create_payment, create_payment_with.
  set (tail := λ total : float, _ : M (Z * Payment)).
  assert (Htail : ∀ total, ∃ e s', tail total s = Raise e s' ∧ payments s' = payments s).
  { intros total. subst tail. cbn beta.
    pose proof (discount_state self s) as Hs.
    destruct (discount self s) as [d s1|e s1] eqn:Hd; cbn in Hs; subst s1.
    - rewrite (bind_Ok _ _ _ _ _ Hd). step.
      destruct (payment_methods s !! o_payment_method self) as [pm|]; [|eauto].
      apply Payment_objects_create_exists, Hex.
    - rewrite (bind_Raise _ _ _ _ _ Hd). eauto. }
  pose proof (discount_state self s) as Hs.
  destruct (discount self s) as [d s1|e s1] eqn:Hd; cbn in Hs; subst s1.
  - pose proof (calculate_total_Ok self false s d Hd) as Hv.
    destruct amount as [a|]; [destruct (Dec.truthy a)|].
    + rewrite (bind_Ok _ _ s (Dec.to_float a) s eq_refl). apply Htail.
    + rewrite (bind_Ok _ _ _ _ _ Hv). apply Htail.
    + rewrite (bind_Ok _ _ _ _ _ Hv). apply Htail.
  - pose proof (calculate_total_Raise self false s s e Hd) as Hv.
    destruct amount as [a|]; [destruct (Dec.truthy a)|].
    + rewrite (bind_Ok _ _ s (Dec.to_float a) s eq_refl). apply Htail.
    + rewrite (bind_Raise _ _ _ _ _ Hv). eauto.
    + rewrite (bind_Raise _ _ _ _ _ Hv). eauto.
Qed.

End models_facts.

(** ** Order.create_payment *)

Section create_payment_properties.

Import models.

(** C3, the claim as the spec states it, fails: with a coupon of 20%
    on the order, [create_payment(10)] stores a payment of 8.0, not of
    10.0: the discount is applied to the amount passed as well. *)
Lemma create_payment_discounts_amount :
  ∃ pk p s',
    create_payment 1 (example.order SOCIAL_PROFILES [] (Some 1))
      (Some (example.dec 10 0)) (example.with_profiles [] (Some 1)) = Ok (pk, p) s'
    ∧ p_total p = 8%float
    ∧ PrimFloat.eqb (p_total p) (Dec.to_float (example.dec 10 0)) = false.
Proof. do 3 eexists. vm_compute. repeat split. Qed.

(** C3, amended.  For an order saved under [pk] that has no payment
    yet, [create_payment] stores exactly one payment, and its total is:
    the amount passed (when there is one and it is not zero), else
    [calculate_total(False)], in both cases multiplied by
    [1 - discount / 100] when the order has a non-zero discount.  So
    without a discount the total is the amount passed, or
    [calculate_total(True)] when none is passed. *)
Theorem create_payment_total s pk self amount pm d :
  orders s !! pk = Some self →
  payment_methods s !! o_payment_method self = Some pm →
  payment_exists s pk = false →
  discount self s = Ok d s →
  ∃ ppk p s' v,
    create_payment pk self amount s = Ok (ppk, p) s'
    ∧ payments s !! ppk = None
    ∧ payments s' = <[ppk := p]> (payments s)
    ∧ calculate_total self false s = Ok v s
    ∧ p_total p = payment_total amount v d
    ∧ (PyFloat.truthy d = false →
       calculate_total self true s = Ok v s
       ∧ p_total p = match amount with
                     | Some a => if Dec.truthy a then Dec.to_float a else v
                     | None => v
                     end).
Proof.
  intros Ho Hpm Hex Hd.
  pose proof (create_payment_Ok pk self amount s pm d Ho Hpm Hex Hd) as Hrun.
  cbn zeta in Hrun.
  pose proof (calculate_total_Ok self false s d Hd) as Hv.
  rewrite andb_false_r in Hv.
  do 4 eexists. split; [exact Hrun|].
  split; [apply fresh_pk_None|].
  split; [reflexivity|].
  split; [exact Hv|].
  split; [reflexivity|].
  intros Hfalsy. split.
  - rewrite (calculate_total_Ok self true s d Hd), Hfalsy. reflexivity.
  - cbn. unfold payment_total. rewrite Hfalsy. reflexivity.
Qed.

Lemma create_payment_total_witness :
  ∃ ppk p s' v,
    create_payment 1 (example.order SOCIAL_PROFILES [1; 2] (Some 1)) None
      (example.with_profiles [CREATED; CREATED] (Some 1)) = Ok (ppk, p) s'
    ∧ calculate_total (example.order SOCIAL_PROFILES [1; 2] (Some 1)) false
        (example.with_profiles [CREATED; CREATED] (Some 1))
      = Ok v (example.with_profiles [CREATED; CREATED] (Some 1))
    ∧ p_total p = payment_total None v 20%float.
Proof.
  destruct (create_payment_total
              (example.with_profiles [CREATED; CREATED] (Some 1)) 1
              (example.order SOCIAL_PROFILES [1; 2] (Some 1)) None
              {| pm_name := "Card"; pm_variant := "default" |} 20%float)
    as (ppk & p & s' & v & Hrun & _ & _ & Hv & Htot & _);
    [reflexivity | reflexivity | reflexivity | reflexivity |].
  exists ppk, p, s', v. repeat split; assumption.
Defined.

(** C10, the claim as it is stated, fails in its first half: a call
    with the amount zero does create a payment of total zero when the
    items of the order come to nothing.  For an order without items (the
    order that a checkout with an empty cart saves, with the cart total
    zero as the amount) the payment stored has the total 0.0. *)
Lemma create_payment_zero_amount_zero_total :
  ∃ ppk p s',
    create_payment 1 (example.order SOCIAL_PROFILES [] None) (Some (example.dec 0 0))
      (example.with_profiles [] None) = Ok (ppk, p) s'
    ∧ payments s' !! ppk = Some p
    ∧ p_order p = 1
    ∧ p_total p = 0%float.
Proof. do 3 eexists. vm_compute. repeat split. Qed.

(** C10, amended.  An explicit amount of zero is false in [if amount],
    so [create_payment(0)] is [create_payment()]: for an order saved
    under [pk] that has no payment yet, one payment of the order is
    stored, under a key that was free, and its total is not taken from
    the amount but computed from the items of the order, with the
    discount applied: [calculate_total(False)], times
    [1 - discount / 100] when the discount is not zero.  It is a payment
    of total zero when the items come to zero. *)
Theorem create_payment_zero_amount s pk self places pm d :
  orders s !! pk = Some self →
  payment_methods s !! o_payment_method self = Some pm →
  payment_exists s pk = false →
  discount self s = Ok d s →
  create_payment pk self (Some {| coefficient := 0; places := places |}) s
    = create_payment pk self None s
  ∧ ∃ ppk p s' v,
      create_payment pk self (Some {| coefficient := 0; places := places |}) s
        = Ok (ppk, p) s'
      ∧ payments s !! ppk = None
      ∧ payments s' = <[ppk := p]> (payments s)
      ∧ p_order p = pk
      ∧ calculate_total self false s = Ok v s
      ∧ p_total p = (if PyFloat.truthy d then (v * (1 - d / 100))%float else v)
      ∧ (v = 0%float → is_finite (1 - d / 100)%float = true →
         PrimFloat.eqb (p_total p) 0 = true).
Proof.
  intros Ho Hpm Hex Hd. split; [reflexivity|].
  pose proof (create_payment_Ok pk self None s pm d Ho Hpm Hex Hd) as Hrun.
  cbn zeta in Hrun.
  pose proof (calculate_total_Ok self false s d Hd) as Hv.
  rewrite andb_false_r in Hv.
  do 4 eexists. split; [exact Hrun|].
  split; [apply fresh_pk_None|]. split; [reflexivity|]. split; [reflexivity|].
  split; [exact Hv|]. split; [reflexivity|].
  intros Hzero Hfin. cbn [p_total new_payment]. unfold payment_total.
  rewrite Hzero. destruct (PyFloat.truthy d); [|reflexivity].
  destruct (mul_zero_finite _ Hfin) as [-> | ->]; reflexivity.
Qed.

Lemma create_payment_zero_amount_witness :
  ∃ ppk p s',
    create_payment 1 (example.order SOCIAL_PROFILES [1; 2] (Some 1))
      (Some (example.dec 0 2))
      (example.with_profiles [CREATED; CREATED] (Some 1)) = Ok (ppk, p) s'
    ∧ payments s' !! ppk = Some p
    ∧ p_order p = 1
    ∧ p_total p = 16%float.
Proof.
  destruct (create_payment_zero_amount
              (example.with_profiles [CREATED; CREATED] (Some 1)) 1
              (example.order SOCIAL_PROFILES [1; 2] (Some 1)) 2%nat
              {| pm_name := "Card"; pm_variant := "default" |} 20%float)
    as (_ & ppk & p & s' & v & Hrun & _ & Hstored & Horder & Hv & Htot & _);
    [reflexivity | reflexivity | reflexivity | reflexivity |].
  exists ppk, p, s'. split; [exact Hrun|].
  split; [rewrite Hstored; apply lookup_insert_eq|]. split; [exact Horder|].
  rewrite Htot. vm_compute in Hv. injection Hv as <-. vm_compute. reflexivity.
Defined.

End create_payment_properties.

(** ** One payment per order *)

Section one_payment_per_order.

Import models.

(** C2, the claim as the spec states it, fails: [create_payment] has
    no check of its own.  On a table that does not enforce the
    one-to-one constraint, a second call for the same order succeeds
    and the order has two payments. *)
Lemma create_payment_has_no_guard :
  payment_exists paid_once 1 = true
  ∧ ∃ pk p s',
      create_payment_with objects_create_unconstrained 1
        (example.order SOCIAL_PROFILES [1; 2] None) None paid_once = Ok (pk, p) s'
      ∧ payments s' !! 1 = payments paid_once !! 1
      ∧ pk ≠ 1
      ∧ payments s' !! pk = Some p
      ∧ p_order p = 1.
Proof.
  split; [reflexivity|]. do 3 eexists. vm_compute. repeat split. discriminate.
Qed.

(** C2, amended.  With a payment of the order in the table, a second
    [create_payment] for it raises and the payments table is left as it
    was: no payment is added and the existing one is untouched.  What
    raises is the insert into the table, whose unique constraint on
    [order] answers [IntegrityError] (when the order, its payment
    method and its coupon are there to be read). *)
Theorem second_create_payment_raises s pk self amount :
  payment_exists s pk = true →
  ∃ e s',
    create_payment pk self amount s = Raise e s'
    ∧ payments s' = payments s
    ∧ (∀ pm d, orders s !! pk = Some self →
               payment_methods s !! o_payment_method self = Some pm →
               discount self s = Ok d s →
               e = IntegrityError).
Proof.
  intros Hex.
  destruct (create_payment_exists pk self amount s Hex) as (e & s' & Hrun & Hp).
  exists e, s'. split; [exact Hrun|]. split; [exact Hp|].
  intros pm d Ho Hpm Hd.
  unfold create_payment in Hrun.
  rewrite (create_payment_with_run _ pk self amount s pm d Hpm Hd) in Hrun.
  unfold Payment_objects_create in Hrun. step.
  rewrite Ho, Hpm in Hrun. cbn in Hrun.
  change (payment_exists (set_next_token Z.succ s) pk) with (payment_exists s pk) in Hrun.
  rewrite Hex in Hrun. congruence.
Qed.

Lemma second_create_payment_raises_witness :
  ∃ s',
    create_payment 1 (example.order SOCIAL_PROFILES [1; 2] None) None paid_once
      = Raise IntegrityError s'
    ∧ payments s' = payments paid_once.
Proof.
  destruct (second_create_payment_raises paid_once 1
              (example.order SOCIAL_PROFILES [1; 2] None) None)
    as (e & s' & Hrun & Hp & He); [reflexivity|].
  exists s'. split; [|exact Hp].
  rewrite Hrun. f_equal.
  apply (He {| pm_name := "Card"; pm_variant := "default" |} 0%float); reflexivity.
Defined.

(** The edit flow of an order asks [has_payment] before it creates the
    payment: with a payment there, the page is rendered again and
    nothing is written. *)
Lemma OrderDetailView_post_has_payment request u pk order s :
  user request = Some u →
  orders s !! pk = Some order →
  (u, pk) ∈ view_order s →
  payment_exists s pk = true →
  views.OrderDetailView_post request pk s = Ok (Render "html/order-overview.html") s.
Proof.
  intros Hu Ho Hperm Hex. unfold views.OrderDetailView_post, views.login_required.
  rewrite Hu. step. rewrite Ho. cbn.
  rewrite bool_decide_eq_true_2 by exact Hperm.
  unfold has_payment. rewrite Hex. reflexivity.
Qed.

End one_payment_per_order.

(** ** Order.calculate_total *)

Section calculate_total_properties.

Import models.

Lemma filter_pk_in_nil {R} (tbl : gmap Z R) : filter_pk_in tbl [] = [].
Proof.
  unfold filter_pk_in. induction (rows tbl) as [|r l IH]; [reflexivity|].
  rewrite filter_cons_False; [exact IH|]. apply not_elem_of_nil.
Qed.

Lemma no_items_nil s self : o_items self = [] → no_items s self.
Proof.
  intros H. unfold no_items, get_items, profile_items, case_items.
  rewrite H. destruct (o_service_type self); apply filter_pk_in_nil.
Qed.

Lemma raw_total_no_items s self : no_items s self → raw_total s self = 0%float.
Proof.
  unfold no_items, raw_total, aggregate_total.
  destruct (get_items s self); intros ->; reflexivity.
Qed.

(** The total of an order none of whose items resolves to a row. *)
Lemma calculate_total_unresolved s self include_discount d :
  no_items s self →
  discount self s = Ok d s →
  is_finite (1 - d / 100)%float = true →
  ∃ v, calculate_total self include_discount s = Ok v s
       ∧ (v = 0%float ∨ v = (-0)%float)
       ∧ PrimFloat.eqb v 0 = true.
Proof.
  intros Hno Hd Hfin.
  rewrite (calculate_total_Ok self include_discount s d Hd).
  rewrite (raw_total_no_items s self Hno).
  eexists. split; [reflexivity|].
  destruct (PyFloat.truthy d && include_discount).
  - destruct (mul_zero_finite _ Hfin) as [-> | ->]; vm_compute; auto.
  - vm_compute. auto.
Qed.

(** C9.  For an order whose item list is empty, whatever rows the
    tables hold, [calculate_total] returns zero, for either value of
    [include_discount], and raises nothing.  The coupon code, if any,
    is assumed to be a row of its table whose discount leaves
    [1 - discount / 100] a finite number, as every percentage does. *)
Theorem calculate_total_no_items s self include_discount d :
  o_items self = [] →
  discount self s = Ok d s →
  is_finite (1 - d / 100)%float = true →
  ∃ v, calculate_total self include_discount s = Ok v s
       ∧ (v = 0%float ∨ v = (-0)%float)
       ∧ PrimFloat.eqb v 0 = true.
Proof.
  intros Hnil. apply calculate_total_unresolved, no_items_nil, Hnil.
Qed.

(** An order without items, of either kind, in tables that hold two
    profiles at 10 each and a case at 30: nothing is charged. *)
Lemma calculate_total_no_items_witness :
  calculate_total (example.order SOCIAL_PROFILES [] (Some 1)) true
    (example.with_profiles [CREATED; CREATED] (Some 1))
  = Ok 0%float (example.with_profiles [CREATED; CREATED] (Some 1))
  ∧ calculate_total (example.order REPUTATION_CASE [] None) false
      (example.with_case (example.dec 30 0) None)
    = Ok 0%float (example.with_case (example.dec 30 0) None)
  ∧ calculate_total (example.order SOCIAL_PROFILES [1; 2] (Some 1)) true
      (example.with_profiles [CREATED; CREATED] (Some 1))
    = Ok 16%float (example.with_profiles [CREATED; CREATED] (Some 1)).
Proof.
  destruct (calculate_total_no_items (example.with_profiles [CREATED; CREATED] (Some 1))
              (example.order SOCIAL_PROFILES [] (Some 1)) true 20%float)
    as (v & Hrun & _ & _); [reflexivity | reflexivity | reflexivity |].
  destruct (calculate_total_no_items (example.with_case (example.dec 30 0) None)
              (example.order REPUTATION_CASE [] None) false 0%float)
    as (w & Hrun' & _ & _); [reflexivity | reflexivity | reflexivity |].
  split; [|split]; vm_compute; reflexivity.
Defined.

(** C4, the claim as the spec states it, fails: [calculate_total(False)]
    is rounded to cents before the spec's formula discounts it, while
    [calculate_total(True)] discounts the sum itself.  For a case
    priced 0.5052 and a coupon of 10%, the one is 0.45 and the other
    0.46. *)
Lemma calculate_total_discount_rounds_once :
  ∃ v w,
    calculate_total (example.order REPUTATION_CASE [1] (Some 2)) true
      (example.with_case (example.dec 5052 4) (Some 2))
    = Ok v (example.with_case (example.dec 5052 4) (Some 2))
    ∧ calculate_total (example.order REPUTATION_CASE [1] (Some 2)) false
        (example.with_case (example.dec 5052 4) (Some 2))
      = Ok w (example.with_case (example.dec 5052 4) (Some 2))
    ∧ v = 0.45%float
    ∧ w = 0.51%float
    ∧ PyFloat.round2 (w * (1 - 10 / 100))%float = 0.46%float
    ∧ PrimFloat.eqb v (PyFloat.round2 (w * (1 - 10 / 100))%float) = false.
Proof. exists 0.45%float, 0.51%float. vm_compute. repeat split. Qed.

(** C4, amended.  For an order with a coupon code of [d] percent whose
    undiscounted total is the plain sum of the prices (rounding it to
    two decimals changes nothing, as for prices in whole cents),
    [calculate_total(True)] is
    [round(calculate_total(False) * (1 - d / 100), 2)]. *)
Theorem calculate_total_discount s self pk coupon :
  o_coupon_code self = Some pk →
  coupon_codes s !! pk = Some coupon →
  calculate_total self false s = Ok (raw_total s self) s →
  ∃ v w,
    calculate_total self true s = Ok v s
    ∧ calculate_total self false s = Ok w s
    ∧ v = PyFloat.round2 (w * (1 - cc_discount coupon / 100))%float.
Proof.
  intros Hc Hcoupon Hraw.
  assert (Hd : discount self s = Ok (cc_discount coupon) s).
  { unfold discount. rewrite Hc. step. rewrite Hcoupon. reflexivity. }
  pose proof (calculate_total_Ok self false s _ Hd) as Hfalse.
  rewrite andb_false_r, Hraw in Hfalse. injection Hfalse as Hround.
  exists (PyFloat.round2
            (raw_total s self *
               (if PyFloat.truthy (cc_discount coupon) && true
                then 1 - cc_discount coupon / 100 else 1))%float),
         (raw_total s self).
  split; [apply calculate_total_Ok, Hd|]. split; [exact Hraw|].
  rewrite andb_true_r.
  destruct (PyFloat.truthy (cc_discount coupon)) eqn:Htruthy; [reflexivity|].
  apply negb_false_iff, eqb_zero_inv in Htruthy.
  destruct Htruthy as [-> | ->];
    change (1 - 0 / 100)%float with 1%float;
    change (1 - -0 / 100)%float with 1%float; reflexivity.
Qed.

Lemma calculate_total_discount_witness :
  ∃ v w,
    calculate_total (example.order SOCIAL_PROFILES [1] (Some 1)) true
      (example.with_profiles [CREATED] (Some 1))
    = Ok v (example.with_profiles [CREATED] (Some 1))
    ∧ calculate_total (example.order SOCIAL_PROFILES [1] (Some 1)) false
        (example.with_profiles [CREATED] (Some 1))
      = Ok w (example.with_profiles [CREATED] (Some 1))
    ∧ v = PyFloat.round2 (w * (1 - 20 / 100))%float
    ∧ v = 8%float ∧ w = 10%float.
Proof.
  destruct (calculate_total_discount (example.with_profiles [CREATED] (Some 1))
              (example.order SOCIAL_PROFILES [1] (Some 1)) 1
              {| cc_sales_rep := 2; cc_code := "TWENTY";
                 cc_discount := 20; cc_commission := 0 |})
    as (v & w & Hv & Hw & Heq); [reflexivity | reflexivity | reflexivity |].
  exists v, w. repeat split; try assumption.
  - vm_compute in Hv. congruence.
  - vm_compute in Hw. congruence.
Defined.

End calculate_total_properties.

(** ** Order.order_progress *)

Section order_progress_properties.

Import models.

Lemma created_le_total s self : (0 <= created_count s self <= total_count s self)%Z.
Proof.
  unfold created_count, total_count. split; [lia|].
  apply inj_le, length_filter.
Qed.

(** What the property returns for an order of social profiles with at
    least one item. *)
Lemma order_progress_Ok s self p :
  o_service_type self = SOCIAL_PROFILES →
  total_count s self ≠ 0 →
  percent (created_count s self) (total_count s self) = Some p →
  order_progress self s =
    Ok (Some {| created := created_count s self;
                total := total_count s self;
                progress := NilZero.string_of_int (Z.to_int p) ++ "%" |}) s.
Proof.
  intros Hkind Ht Hp. unfold order_progress. step.
  unfold get_items. rewrite Hkind.
  fold (total_count s self). fold (created_count s self).
  destruct (Z.eqb_spec (total_count s self) 0) as [|_]; [contradiction|].
  unfold percent in Hp. rewrite Hp. reflexivity.
Qed.

(** With no item resolved, the division raises. *)
Lemma order_progress_no_items s self :
  o_service_type self = SOCIAL_PROFILES →
  profile_items s self = [] →
  order_progress self s = Raise ZeroDivisionError s.
Proof.
  intros Hkind Hnil. unfold order_progress. step.
  unfold get_items. rewrite Hkind, Hnil. reflexivity.
Qed.

(** C5: four created of seven.  The property rounds the ratio to two
    decimals and multiplies by a hundred, both in floats, and [int]
    cuts off what is left: [round(4 / 7, 2)] is 0.57, [0.57 * 100] is
    56.99999999999999 and the answer is 56%.  The floor of the claim is
    57, and the ratio rounded to the nearest percent, which the two
    decimals of [round] are for, is 57 as well: the answer is one short
    on either reading.  Where the product is exact the property does
    what it is written for: two of five, the scenario of the claim,
    gives 40%, and two of three gives 67% (rounded; the floor is 66). *)
Theorem order_progress_truncates :
  let s := example.with_profiles
             [CREATED; CREATED; FAILED; CREATED; REQUESTED_CREATION_PAID;
              REQUESTED_CREATION_PAID; REQUESTED_CREATION_UNPAID] None in
  order_progress (example.order SOCIAL_PROFILES [1; 2; 3; 4; 5; 6; 7] None) s
    = Ok (Some {| created := 4; total := 7; progress := "56%" |}) s
  ∧ floor_percent 4 7 = 57
  ∧ nearest_percent 4 7 = 57
  ∧ PyFloat.round2 (PyFloat.of_ratio 4 7) = 0.57%float
  ∧ (0.57 * 100 <? 57)%float = true
  ∧ PyFloat.to_int (0.57 * 100)%float = Some 56
  ∧ (let s := example.with_profiles
                [CREATED; CREATED; REQUESTED_CREATION_PAID; REQUESTED_CREATION_PAID;
                 REQUESTED_CREATION_PAID] None in
     order_progress (example.order SOCIAL_PROFILES [1; 2; 3; 4; 5] None) s
       = Ok (Some {| created := 2; total := 5; progress := "40%" |}) s)
  ∧ (let s := example.with_profiles [CREATED; FAILED; REQUESTED_CREATION_PAID] None in
     order_progress (example.order SOCIAL_PROFILES [1; 2; 3] None) s
       = Ok (Some {| created := 2; total := 3; progress := "67%" |}) s)
  ∧ floor_percent 2 3 = 66
  ∧ nearest_percent 2 3 = 67.
Proof. vm_compute. repeat split. Qed.

(** C6: the view on an order without items.  The property divides by
    the number of items without a guard, and the view has none
    either: the request ends in [ZeroDivisionError], not in the
    response [{created: 0, total: 0, progress: "0%"}]. *)
Theorem order_progress_view_empty_order :
  views.order_progress example.request 1 (example.with_profiles [] None)
  = Raise ZeroDivisionError (example.with_profiles [] None).
Proof. vm_compute. reflexivity. Qed.

(** The same for every order of social profiles none of whose items
    resolves, and every user allowed to see it. *)
Lemma order_progress_view_no_items request u pk order s :
  user request = Some u →
  is_ajax request = true →
  orders s !! pk = Some order →
  o_service_type order = SOCIAL_PROFILES →
  (u, pk) ∈ view_order s →
  profile_items s order = [] →
  views.order_progress request pk s = Raise ZeroDivisionError s.
Proof.
  intros Hu Hajax Ho Hkind Hperm Hnil.
  pose proof (order_progress_no_items s order Hkind Hnil) as Hraise.
  unfold views.order_progress, views.login_required. rewrite Hu, Hajax.
  step. cbn [negb]. cbv beta. rewrite Ho. cbv beta iota.
  rewrite (bool_decide_eq_true_2 _ Hkind), (bool_decide_eq_true_2 _ Hperm).
  cbn [negb]. cbv beta iota. rewrite Hraise. reflexivity.
Qed.

End order_progress_properties.

(** ** payment_success and payment_failure *)

Section payment_success_properties.

Import models views.

Lemma for_each_run_worker (ids : list Z) (s : State) :
  ∃ s', for_each ids run_worker_apply_async s = Ok tt s'
        ∧ work_queue s' = work_queue s ++ ids
        ∧ social_profiles s' = social_profiles s
        ∧ orders s' = orders s
        ∧ payments s' = payments s
        ∧ session s' = session s
        ∧ made_an_order s' = made_an_order s.
Proof.
  revert s. induction ids as [|pk ids IH]; intros s.
  - exists s. cbn. rewrite app_nil_r. repeat split.
  - destruct (IH (set_work_queue (λ q, q ++ [pk]) s))
      as (s' & Hrun & Hq & Hsp & Ho & Hp & Hse & Hm).
    exists s'. split.
    + cbn [for_each]. unfold run_worker_apply_async at 1. step. exact Hrun.
    + cbn in *. rewrite Hq, <- app_assoc. repeat split; assumption.
Qed.

Lemma lookup_update_profiles ids status tbl (pk : Z) :
  update_profiles ids status tbl !! pk =
    if decide (pk ∈ ids) then set_profile_status status <$> tbl !! pk else tbl !! pk.
Proof.
  unfold update_profiles. induction ids as [|k ids IH]; cbn.
  - rewrite decide_False by apply not_elem_of_nil. reflexivity.
  - rewrite lookup_alter. destruct (decide (k = pk)) as [->|Hne].
    + rewrite decide_True by apply list_elem_of_here.
      rewrite IH. destruct (decide (pk ∈ ids)); [|reflexivity].
      destruct (tbl !! pk); reflexivity.
    + rewrite IH. destruct (decide (pk ∈ ids)) as [Hin|Hnin].
      * rewrite decide_True by (apply list_elem_of_further, Hin). reflexivity.
      * rewrite decide_False; [reflexivity|].
        intros Hin. apply elem_of_cons in Hin. destruct Hin; congruence.
Qed.

Lemma update_profiles_nil status tbl : update_profiles [] status tbl = tbl.
Proof. reflexivity. Qed.

Lemma rows_Permutation {R} (tbl : gmap Z R) : rows tbl ≡ₚ map_to_list tbl.
Proof. apply merge_sort_Permutation. Qed.

(** [rows] are in the order of the primary key. *)
Lemma Sorted_rows {R} (tbl : gmap Z R) : Sorted by_pk (rows tbl).
Proof.
  apply Sorted_merge_sort. intros a b. unfold by_pk. lia.
Qed.

Lemma elem_of_rows {R} (tbl : gmap Z R) pk (row : R) :
  (pk, row) ∈ rows tbl ↔ tbl !! pk = Some row.
Proof. rewrite rows_Permutation. apply elem_of_map_to_list. Qed.

Lemma NoDup_rows {R} (tbl : gmap Z R) : NoDup (rows tbl).
Proof. rewrite rows_Permutation. apply NoDup_map_to_list. Qed.

Lemma elem_of_filter_pk_in {R} (tbl : gmap Z R) pks pk (row : R) :
  (pk, row) ∈ filter_pk_in tbl pks ↔ pk ∈ pks ∧ tbl !! pk = Some row.
Proof.
  unfold filter_pk_in. rewrite list_elem_of_filter, elem_of_rows. reflexivity.
Qed.

Lemma NoDup_filter_pk_in {R} (tbl : gmap Z R) pks : NoDup (filter_pk_in tbl pks).*1.
Proof.
  unfold filter_pk_in.
  eapply NoDup_fmap_fst.
  - intros pk r1 r2 H1 H2.
    apply list_elem_of_filter in H1, H2. destruct H1 as [_ H1], H2 as [_ H2].
    apply elem_of_rows in H1, H2. congruence.
  - apply NoDup_filter, NoDup_rows.
Qed.

Lemma elem_of_unpaid_ids s order pk :
  pk ∈ unpaid_ids s order ↔
    pk ∈ o_items order
    ∧ ∃ p, social_profiles s !! pk = Some p ∧ sp_status p = REQUESTED_CREATION_UNPAID.
Proof.
  unfold unpaid_ids, profile_items. rewrite list_elem_of_fmap. split.
  - intros [[k p] [-> Hin]]. apply list_elem_of_filter in Hin. destruct Hin as [Hst Hin].
    apply elem_of_filter_pk_in in Hin. destruct Hin as [Hk Hl]. cbn in *. eauto.
  - intros [Hk (p & Hl & Hst)]. exists (pk, p). split; [reflexivity|].
    apply list_elem_of_filter. split; [exact Hst|].
    apply elem_of_filter_pk_in. auto.
Qed.

Lemma NoDup_unpaid_ids s order : NoDup (unpaid_ids s order).
Proof.
  unfold unpaid_ids, profile_items, filter_pk_in.
  eapply NoDup_fmap_fst.
  - intros pk r1 r2 H1 H2.
    apply list_elem_of_filter in H1, H2. destruct H1 as [_ H1], H2 as [_ H2].
    apply list_elem_of_filter in H1, H2. destruct H1 as [_ H1], H2 as [_ H2].
    apply elem_of_rows in H1, H2. congruence.
  - apply NoDup_filter, NoDup_filter, NoDup_rows.
Qed.

Lemma for_each_run_worker_eq (ids : list Z) (s : State) :
  for_each ids run_worker_apply_async s
    = Ok tt (set_work_queue (λ _, work_queue s ++ ids) s).
Proof.
  revert s. induction ids as [|pk ids IH]; intros s.
  - destruct s. cbn. rewrite app_nil_r. reflexivity.
  - change (for_each ids run_worker_apply_async (set_work_queue (λ q, q ++ [pk]) s)
            = Ok tt (set_work_queue (λ _, work_queue s ++ pk :: ids) s)).
    rewrite IH. destruct s. cbn. rewrite <- app_assoc. reflexivity.
Qed.

Lemma lookup_update_cases ids status tbl (pk : Z) :
  update_cases ids status tbl !! pk =
    if decide (pk ∈ ids) then set_case_status status <$> tbl !! pk else tbl !! pk.
Proof.
  unfold update_cases. induction ids as [|k ids IH]; cbn.
  - rewrite decide_False by apply not_elem_of_nil. reflexivity.
  - rewrite lookup_alter. destruct (decide (k = pk)) as [->|Hne].
    + rewrite decide_True by apply list_elem_of_here.
      rewrite IH. destruct (decide (pk ∈ ids)); [|reflexivity].
      destruct (tbl !! pk); reflexivity.
    + rewrite IH. destruct (decide (pk ∈ ids)) as [Hin|Hnin].
      * rewrite decide_True by (apply list_elem_of_further, Hin). reflexivity.
      * rewrite decide_False; [reflexivity|].
        intros Hin. apply elem_of_cons in Hin. destruct Hin; congruence.
Qed.

Lemma elem_of_unpaid_cases s order pk :
  pk ∈ unpaid_cases s order ↔
    pk ∈ o_items order
    ∧ ∃ c, reputation_cases s !! pk = Some c ∧ rc_status c = OPEN_UNPAID.
Proof.
  unfold unpaid_cases, case_items. rewrite list_elem_of_fmap. split.
  - intros [[k c] [-> Hin]]. apply list_elem_of_filter in Hin. destruct Hin as [Hst Hin].
    apply elem_of_filter_pk_in in Hin. destruct Hin as [Hk Hl]. cbn in *. eauto.
  - intros [Hk (c & Hl & Hst)]. exists (pk, c). split; [reflexivity|].
    apply list_elem_of_filter. split; [exact Hst|].
    apply elem_of_filter_pk_in. auto.
Qed.

Lemma lookup_set_status_order pid status payment (tbl : gmap Z Payment) k :
  tbl !! pid = Some payment →
  p_order <$> (<[pid := set_status status payment]> tbl) !! k = p_order <$> tbl !! k.
Proof.
  intros Hp. destruct (decide (pid = k)) as [->|Hne].
  - rewrite lookup_insert_eq, Hp. reflexivity.
  - rewrite lookup_insert_ne by exact Hne. reflexivity.
Qed.

(** What one run of the handler does to the orders, the payments, the
    profiles and the work queue.  Either the run does not get as far as
    the order of the payment (it answers something else than the
    redirect to the order), or it finds the payment and its order and
    then flips and submits the unpaid profiles exactly when the order is
    one of social profiles and the payment is confirmed. *)
Lemma payment_success_effect request pid tok g s :
  let out := payment_success request pid tok g s in
  let s' := state_of out in
  orders s' = orders s
  ∧ (∀ k, p_order <$> payments s' !! k = p_order <$> payments s !! k)
  ∧ (((∀ o, out ≠ Ok (Redirect (OrderOverviewUrl o)) s')
      ∧ social_profiles s' = social_profiles s ∧ work_queue s' = work_queue s)
     ∨ ∃ payment order,
         payments s !! pid = Some payment
         ∧ orders s !! p_order payment = Some order
         ∧ ((o_service_type order = SOCIAL_PROFILES
             ∧ g = Captured "confirmed"
             ∧ social_profiles s' =
                 update_profiles (unpaid_ids s order) REQUESTED_CREATION_PAID
                   (social_profiles s)
             ∧ work_queue s' = work_queue s ++ unpaid_ids s order)
            ∨ (¬ (o_service_type order = SOCIAL_PROFILES ∧ g = Captured "confirmed")
               ∧ social_profiles s' = social_profiles s
               ∧ work_queue s' = work_queue s))).
Proof.
  cbv zeta. remember (payment_success request pid tok g s) as out eqn:Hout.
  unfold payment_success, login_required in Hout.
  destruct (user request) as [u|];
    [|subst out; cbn; split; [|split; [|left]]; auto; repeat split; discriminate].
  unfold get_payment_or_404 in Hout. step.
  destruct (payments s !! pid) as [payment|] eqn:Hp;
    [|subst out; cbn; split; [|split; [|left]]; auto; repeat split; discriminate].
  destruct (orders s !! p_order payment) as [order|] eqn:Ho;
    [|subst out; cbn; split; [|split; [|left]]; auto; repeat split; discriminate].
  destruct (bool_decide _);
    [|subst out; cbn; split; [|split; [|left]]; auto; repeat split; discriminate].
  unfold capture in Hout. destruct g as [status|];
    [|subst out; cbn; split; [|split; [|left]]; auto; repeat split; discriminate].
  step. cbn [orders set_payments p_order set_status] in Hout.
  rewrite Ho in Hout.
  assert (Hsame : ∀ k, p_order <$> (<[pid := set_status status payment]> (payments s)) !! k
                       = p_order <$> payments s !! k)
    by (intros k; apply lookup_set_status_order, Hp).
  cbn [p_status set_status] in Hout.
  destruct (o_service_type order) eqn:Hkind;
    change (bool_decide (SOCIAL_PROFILES = SOCIAL_PROFILES)) with true in Hout;
    change (bool_decide (REPUTATION_CASE = SOCIAL_PROFILES)) with false in Hout;
    change (bool_decide (SOCIAL_PROFILES = REPUTATION_CASE)) with false in Hout;
    change (bool_decide (REPUTATION_CASE = REPUTATION_CASE)) with true in Hout;
    destruct (bool_decide_reflect (status = "confirmed")) as [->|Hstatus];
    cbn [andb] in Hout; cbv beta iota in Hout.
  - (* social profiles, confirmed *)
    match type of Hout with
    | context [for_each ?ids _ ?st] =>
        destruct (for_each_run_worker ids st) as (s1 & Hrun & Hq & Hsp & Ho1 & Hp1 & Hse & Hm);
        rewrite Hrun in Hout
    end.
    cbn in Hq, Hsp, Ho1, Hp1.
    assert (Hfinal : orders (state_of out) = orders s1
                     ∧ payments (state_of out) = payments s1
                     ∧ social_profiles (state_of out) = social_profiles s1
                     ∧ work_queue (state_of out) = work_queue s1).
    { destruct (bool_decide (u ∈ made_an_order s1)); subst out; cbn; auto. }
    destruct Hfinal as (-> & -> & -> & ->).
    rewrite Ho1, Hp1, Hsp, Hq.
    split; [reflexivity|]. split; [exact Hsame|].
    right. exists payment, order. split; [reflexivity|]. split; [exact Ho|].
    left. repeat split; assumption.
  - subst out. cbn. split; [reflexivity|]. split; [exact Hsame|].
    right. exists payment, order. split; [reflexivity|]. split; [exact Ho|].
    right. split; [|auto]. intros [_ Heq]. congruence.
  - subst out. cbn. split; [reflexivity|]. split; [exact Hsame|].
    right. exists payment, order. split; [reflexivity|]. split; [exact Ho|].
    right. split; [|auto]. intros [Heq _]. congruence.
  - subst out. cbn. split; [reflexivity|]. split; [exact Hsame|].
    right. exists payment, order. split; [reflexivity|]. split; [exact Ho|].
    right. split; [|auto]. intros [Heq _]. congruence.
Qed.

(** The same for the reputation cases: a run marks cases as paid only
    when it gets as far as the order of the payment, the order is one
    of reputation cases and the payment is confirmed. *)
Lemma payment_success_cases_effect request pid tok g s :
  let out := payment_success request pid tok g s in
  let s' := state_of out in
  ((∀ o, out ≠ Ok (Redirect (OrderOverviewUrl o)) s')
   ∧ reputation_cases s' = reputation_cases s)
  ∨ ∃ payment order,
      payments s !! pid = Some payment
      ∧ orders s !! p_order payment = Some order
      ∧ ((o_service_type order = REPUTATION_CASE
          ∧ g = Captured "confirmed"
          ∧ reputation_cases s' =
              update_cases (unpaid_cases s order) OPEN_PAID (reputation_cases s))
         ∨ (¬ (o_service_type order = REPUTATION_CASE ∧ g = Captured "confirmed")
            ∧ reputation_cases s' = reputation_cases s)).
Proof.
  cbv zeta. remember (payment_success request pid tok g s) as out eqn:Hout.
  unfold payment_success, login_required in Hout.
  destruct (user request) as [u|];
    [|subst out; cbn; left; split; [intros o; discriminate | reflexivity]].
  unfold get_payment_or_404 in Hout. step.
  destruct (payments s !! pid) as [payment|] eqn:Hp;
    [|subst out; cbn; left; split; [intros o; discriminate | reflexivity]].
  destruct (orders s !! p_order payment) as [order|] eqn:Ho;
    [|subst out; cbn; left; split; [intros o; discriminate | reflexivity]].
  destruct (bool_decide _);
    [|subst out; cbn; left; split; [intros o; discriminate | reflexivity]].
  unfold capture in Hout. destruct g as [status|];
    [|subst out; cbn; left; split; [intros o; discriminate | reflexivity]].
  step. cbn [orders set_payments p_order set_status] in Hout.
  rewrite Ho in Hout. cbn [p_status set_status] in Hout.
  right. exists payment, order. split; [reflexivity|]. split; [exact Ho|].
  destruct (o_service_type order) eqn:Hkind;
    change (bool_decide (SOCIAL_PROFILES = SOCIAL_PROFILES)) with true in Hout;
    change (bool_decide (REPUTATION_CASE = SOCIAL_PROFILES)) with false in Hout;
    change (bool_decide (SOCIAL_PROFILES = REPUTATION_CASE)) with false in Hout;
    change (bool_decide (REPUTATION_CASE = REPUTATION_CASE)) with true in Hout;
    destruct (bool_decide_reflect (status = "confirmed")) as [->|Hstatus];
    cbn [andb] in Hout; cbv beta iota in Hout.
  - (* social profiles, confirmed *)
    rewrite for_each_run_worker_eq in Hout.
    right. split; [intros [Heq _]; discriminate Heq|].
    match type of Hout with context [bool_decide (u ∈ ?m)] =>
      destruct (bool_decide (u ∈ m)) end; subst out; reflexivity.
  - subst out. right. split; [intros [Heq _]; discriminate Heq | reflexivity].
  - subst out. left. split; [reflexivity|]. split; reflexivity.
  - subst out. right. split; [intros [_ Heq]; congruence | reflexivity].
Qed.

Lemma dispatched_once_step s r :
  dispatched_once s → dispatched_once (run_payment_success s r).
Proof.
  intros [Hnodup Hpaid]. unfold run_payment_success.
  destruct (payment_success_effect (run_request r) (run_payment_id r)
              (run_payment_token r) (run_gateway r) s)
    as (_ & _ & [(_ & Hsp & Hq) | (payment & order & _ & _ &
                   [(_ & _ & Hsp & Hq) | (_ & Hsp & Hq)])]);
    unfold dispatched_once; rewrite Hsp, Hq; try (split; assumption).
  split.
  - apply NoDup_app. split; [exact Hnodup|]. split; [|apply NoDup_unpaid_ids].
    intros pk Hin Hunpaid. apply elem_of_unpaid_ids in Hunpaid.
    destruct Hunpaid as (_ & p & Hl & Hst). exact (Hpaid pk p Hin Hl Hst).
  - intros pk p Hin Hl. rewrite lookup_update_profiles in Hl.
    destruct (decide (pk ∈ unpaid_ids s order)) as [Hids|Hids].
    + destruct (social_profiles s !! pk); [|discriminate].
      injection Hl as <-. discriminate.
    + apply elem_of_app in Hin. destruct Hin as [Hin|Hin]; [|contradiction].
      exact (Hpaid pk p Hin Hl).
Qed.

Lemma dispatched_once_run_all runs s :
  dispatched_once s → dispatched_once (run_all runs s).
Proof.
  revert s. induction runs as [|r runs IH]; intros s Hs; [exact Hs|].
  cbn. apply IH, dispatched_once_step, Hs.
Qed.

(** Once the unpaid profiles of an order are flipped, none is unpaid. *)
Lemma unpaid_ids_after_update s s1 order :
  social_profiles s1 =
    update_profiles (unpaid_ids s order) REQUESTED_CREATION_PAID (social_profiles s) →
  unpaid_ids s1 order = [].
Proof.
  intros Hsp. destruct (unpaid_ids s1 order) as [|pk l] eqn:Hl; [reflexivity|].
  assert (Hin : pk ∈ unpaid_ids s1 order) by (rewrite Hl; apply list_elem_of_here).
  apply elem_of_unpaid_ids in Hin. destruct Hin as (Hitem & p & Hlook & Hst).
  rewrite Hsp, lookup_update_profiles in Hlook.
  destruct (decide (pk ∈ unpaid_ids s order)) as [Hids|Hids].
  - destruct (social_profiles s !! pk); [|discriminate].
    injection Hlook as <-. discriminate.
  - exfalso. apply Hids, elem_of_unpaid_ids. eauto.
Qed.

(** Once the unpaid cases of an order are marked as paid, none is
    unpaid. *)
Lemma unpaid_cases_after_update s s1 order :
  reputation_cases s1 =
    update_cases (unpaid_cases s order) OPEN_PAID (reputation_cases s) →
  unpaid_cases s1 order = [].
Proof.
  intros Hrc. destruct (unpaid_cases s1 order) as [|pk l] eqn:Hl; [reflexivity|].
  assert (Hin : pk ∈ unpaid_cases s1 order) by (rewrite Hl; apply list_elem_of_here).
  apply elem_of_unpaid_cases in Hin. destruct Hin as (Hitem & c & Hlook & Hst).
  rewrite Hrc, lookup_update_cases in Hlook.
  destruct (decide (pk ∈ unpaid_cases s order)) as [Hids|Hids].
  - destruct (reputation_cases s !! pk); [|discriminate].
    injection Hlook as <-. discriminate.
  - exfalso. apply Hids, elem_of_unpaid_cases. eauto.
Qed.

(** C8.  Over any sequence of runs of the confirmation handler (any
    requests, payments and answers of the gateway) that starts with an
    empty work queue, no profile is submitted to the queue twice.  And
    once a run has confirmed a payment and answered with the redirect
    to its order, a further run for that payment submits nothing and
    changes the status of no item: neither of a profile nor of a
    reputation case. *)
Theorem confirmation_dispatches_once :
  (∀ runs s, work_queue s = [] → NoDup (work_queue (run_all runs s)))
  ∧ (∀ request pid tok s o s1,
       payment_success request pid tok (Captured "confirmed") s
         = Ok (Redirect (OrderOverviewUrl o)) s1 →
       ∀ request' tok' g',
         let s2 := state_of (payment_success request' pid tok' g' s1) in
         work_queue s2 = work_queue s1
         ∧ social_profiles s2 = social_profiles s1
         ∧ reputation_cases s2 = reputation_cases s1).
Proof.
  split.
  - intros runs s Hq. apply (dispatched_once_run_all runs s).
    split; rewrite Hq; [constructor|]. intros pk p Hin. inversion Hin.
  - intros request pid tok s o s1 Hfirst request' tok' g'. cbv zeta.
    pose proof (payment_success_effect request pid tok (Captured "confirmed") s) as H1.
    cbv zeta in H1. rewrite Hfirst in H1. cbn [state_of] in H1.
    destruct H1 as (Ho1 & Hp1 & H1).
    assert (Hcases : reputation_cases
                       (state_of (payment_success request' pid tok' g' s1))
                     = reputation_cases s1).
    { destruct (payment_success_cases_effect request' pid tok' g' s1)
        as [(_ & Hrc) | (payment2 & order2 & Hpay2 & Hord2 &
              [(Hkind2 & _ & Hrc) | (_ & Hrc)])]; try exact Hrc.
      pose proof (payment_success_cases_effect request pid tok (Captured "confirmed") s)
        as Hc1.
      cbv zeta in Hc1. rewrite Hfirst in Hc1. cbn [state_of] in Hc1.
      destruct Hc1 as [(Hne & _) | (payment & order & Hpay & Hord & Hc1)];
        [exfalso; exact (Hne o eq_refl)|].
      assert (order = order2) as ->.
      { specialize (Hp1 pid). rewrite Hpay2, Hpay in Hp1. cbn in Hp1.
        injection Hp1 as Hp1. rewrite Ho1, Hp1, Hord in Hord2. congruence. }
      destruct Hc1 as [(_ & _ & Hrc1) | (Hnot & _)].
      - rewrite Hrc, (unpaid_cases_after_update s s1 order2 Hrc1). reflexivity.
      - exfalso. apply Hnot. auto. }
    destruct (payment_success_effect request' pid tok' g' s1)
      as (_ & _ & [(_ & Hsp & Hq) | (payment2 & order2 & Hpay2 & Hord2 &
                     [(Hkind2 & _ & Hsp & Hq) | (_ & Hsp & Hq)])]);
      try (split; [|split]; assumption).
    assert (Hnone : unpaid_ids s1 order2 = []).
    { destruct H1 as [(Hne & _) | (payment & order & Hpay & Hord & H1)];
        [exfalso; exact (Hne o eq_refl)|].
      assert (order = order2) as ->.
      { specialize (Hp1 pid). rewrite Hpay2, Hpay in Hp1. cbn in Hp1.
        injection Hp1 as Hp1. rewrite Ho1, Hp1, Hord in Hord2. congruence. }
      destruct H1 as [(_ & _ & Hsp1 & _) | (Hnot & _)].
      - eapply unpaid_ids_after_update, Hsp1.
      - exfalso. apply Hnot. auto. }
    rewrite Hsp, Hq, Hnone, app_nil_r. split; [reflexivity|]. split; [reflexivity|].
    exact Hcases.
Qed.

Lemma confirmation_dispatches_once_witness :
  NoDup (work_queue (run_all [confirm; confirm; confirm] checked_out))
  ∧ work_queue (run_all [confirm] checked_out) = [1; 2]
  ∧ work_queue (run_all [confirm; confirm] checked_out)
    = work_queue (run_all [confirm] checked_out)
  ∧ social_profiles (run_all [confirm; confirm] checked_out)
    = social_profiles (run_all [confirm] checked_out)
  ∧ reputation_cases (run_all [confirm; confirm] checked_out)
    = reputation_cases (run_all [confirm] checked_out)
  ∧ rc_status <$> reputation_cases case_checked_out !! 1 = Some OPEN_UNPAID
  ∧ rc_status <$> reputation_cases (run_all [confirm] case_checked_out) !! 1
    = Some OPEN_PAID
  ∧ reputation_cases (run_all [confirm; confirm] case_checked_out)
    = reputation_cases (run_all [confirm] case_checked_out).
Proof.
  destruct confirmation_dispatches_once as [Hnodup Hsecond].
  split; [apply Hnodup; reflexivity|].
  split; [vm_compute; reflexivity|].
  destruct (Hsecond example.request 1 999 checked_out 1 (run_all [confirm] checked_out))
    with (request' := example.request) (tok' := 999) (g' := Captured "confirmed")
    as (Hqueue & Hprofiles & Hcases); [vm_compute; reflexivity|].
  split; [exact Hqueue|]. split; [exact Hprofiles|]. split; [exact Hcases|].
  split; [vm_compute; reflexivity|]. split; [vm_compute; reflexivity|].
  destruct (Hsecond example.request 1 999 case_checked_out 1
              (run_all [confirm] case_checked_out))
    with (request' := example.request) (tok' := 999) (g' := Captured "confirmed")
    as (_ & _ & Hcases'); [vm_compute; reflexivity|].
  exact Hcases'.
Defined.

End payment_success_properties.

(** ** A failed payment and the cart *)

Section failed_payment_properties.

Import models views.

(** C7: a capture that fails, in [payment_success].  For an order of
    social profiles the cart and the checkout information are reset
    before [confirmed] is looked at: the payment is rejected, the user
    is told "Payment failed!", and the cart that the claim says is kept
    for the retry is empty. *)
Theorem payment_success_failed_clears_cart :
  let out := payment_success example.request 1 999 (Captured "rejected") checked_out in
  out = Ok (Redirect (OrderOverviewUrl 1)) (state_of out)
  ∧ p_status <$> payments (state_of out) !! 1 = Some "rejected"
  ∧ flash (state_of out) = [(WARNING, "Payment failed!")]
  ∧ work_queue (state_of out) = []
  ∧ CHECKOUT_INFO (session (state_of out)) = Some empty_info
  ∧ CART (session checked_out)
    = [ {| ci_product := 1; ci_quantity := 2; ci_price := example.dec 10 0 |} ]
  ∧ CART (session (state_of out)) = [].
Proof. vm_compute. repeat split. Qed.

(** The same for every order of social profiles and every status other
    than ["confirmed"] that the capture leaves the payment in. *)
Lemma payment_success_not_confirmed request u pid tok status s payment order :
  user request = Some u →
  payments s !! pid = Some payment →
  orders s !! p_order payment = Some order →
  p_token payment = tok →
  o_user order = u →
  o_service_type order = SOCIAL_PROFILES →
  status ≠ "confirmed" →
  ∃ s', payment_success request pid tok (Captured status) s
          = Ok (Redirect (OrderOverviewUrl (p_order payment))) s'
        ∧ CART (session s') = []
        ∧ CHECKOUT_INFO (session s') = Some empty_info
        ∧ flash s' = flash s ++ [(WARNING, "Payment failed!")].
Proof.
  intros Hu Hp Ho Htok Huser Hkind Hstatus.
  unfold payment_success, login_required, get_payment_or_404, capture.
  rewrite Hu. step. rewrite Hp, Ho.
  rewrite (bool_decide_eq_true_2 _ (conj Htok Huser)).
  cbn [orders set_payments p_order set_status p_status]. rewrite Ho, Hkind.
  change (bool_decide (SOCIAL_PROFILES = SOCIAL_PROFILES)) with true.
  change (bool_decide (SOCIAL_PROFILES = REPUTATION_CASE)) with false.
  rewrite (bool_decide_eq_false_2 _ Hstatus).
  eexists. cbn. repeat split.
Qed.

(** The sibling view [payment_failure] does what the claim says: the
    checkout information is reset and the cart is not touched. *)
Lemma payment_failure_keeps_cart request u pid tok s payment order :
  user request = Some u →
  payments s !! pid = Some payment →
  orders s !! p_order payment = Some order →
  p_token payment = tok →
  o_user order = u →
  ∃ s', payment_failure request pid tok s
          = Ok (Redirect (OrderOverviewUrl (p_order payment))) s'
        ∧ CART (session s') = CART (session s)
        ∧ CHECKOUT_INFO (session s') = Some empty_info
        ∧ flash s' = flash s ++ [(WARNING, "Payment failed!")].
Proof.
  intros Hu Hp Ho Htok Huser.
  unfold payment_failure, login_required, get_payment_or_404.
  rewrite Hu. step. rewrite Hp, Ho.
  rewrite (bool_decide_eq_true_2 _ (conj Htok Huser)).
  eexists. cbn. repeat split.
Qed.

End failed_payment_properties.

(** ** cart_checkout *)

Section cart_checkout_properties.

Import models views.

Lemma bind_Ok_inv {A B} (c : M A) (k : A → M B) s b s2 :
  (c ≫= k) s = Ok b s2 → ∃ a s1, c s = Ok a s1 ∧ k a s1 = Ok b s2.
Proof.
  unfold mbind, M_bind, bind. destruct (c s) as [a s1|e s1]; [eauto|discriminate].
Qed.

Lemma cart_checkout_blocked request u form s url :
  user request = Some u →
  POST request = ValidPost form →
  blocked_on s url →
  cart_checkout request s = Ok (Redirect url) s.
Proof.
  intros Hu Hpost Hb. unfold cart_checkout, login_required.
  rewrite Hu, Hpost. step. rewrite Hb. reflexivity.
Qed.

Lemma same_books_refl s : same_books s s.
Proof. repeat split. Qed.

Lemma same_books_trans s1 s2 s3 : same_books s1 s2 → same_books s2 s3 → same_books s1 s3.
Proof. intros (? & ? & ?) (? & ? & ?). repeat split; congruence. Qed.

Lemma assign_email_books u s : same_books s (state_of (assign_email u s)).
Proof.
  unfold assign_email. step. destruct (DEBUG s).
  - repeat split.
  - destruct (free_mailbox s) as [[pk email]|]; repeat split.
Qed.

Lemma create_profiles_books u email data order_sites order s :
  same_books s (state_of (create_profiles u email data order_sites order s)).
Proof.
  revert order s. induction order_sites as [|os rest IH]; intros order s.
  - apply same_books_refl.
  - cbn [create_profiles]. step.
    eapply same_books_trans; [|apply IH]. repeat split.
Qed.

Lemma create_payment_Ok_inv pk self amount s ppk p s' :
  create_payment pk self amount s = Ok (ppk, p) s' →
  payments s !! ppk = None
  ∧ payments s' = <[ppk := p]> (payments s)
  ∧ orders s' = orders s
  ∧ session s' = session s
  ∧ p_order p = pk.
Proof.
  unfold create_payment, create_payment_with. intros H.
  apply bind_Ok_inv in H as (total & s1 & Htotal & H).
  assert (s1 = s) as ->.
  { destruct amount as [a|]; [destruct (Dec.truthy a)|].
    - step. congruence.
    - unfold calculate_total in Htotal. step.
      pose proof (discount_state self s) as Hs.
      destruct (discount self s); [|discriminate]. cbn in Hs. congruence.
    - unfold calculate_total in Htotal. step.
      pose proof (discount_state self s) as Hs.
      destruct (discount self s); [|discriminate]. cbn in Hs. congruence. }
  apply bind_Ok_inv in H as (d & s1 & Hd & H).
  apply discount_Ok_state in Hd as Hs. subst s1.
  step. destruct (payment_methods s !! o_payment_method self) as [pm|]; [|discriminate].
  unfold Payment_objects_create in H. step.
  destruct (orders s !! pk) as [o|]; [|discriminate]. cbn in H.
  destruct (payment_methods s !! o_payment_method o) as [pm'|]; [|discriminate]. cbn in H.
  destruct (payment_exists _ pk); [discriminate|].
  cbn in H. injection H as <- <- <-. cbn.
  split; [apply fresh_pk_None|]. repeat split.
Qed.

(** C1.  A first submission of the checkout form that goes through
    (the session is not blocked and the view answers) stores exactly
    one order and exactly one payment, of that order, answers with the
    redirect to the page of that payment and leaves the session
    blocked on it.  Any further submission of the form in that session
    creates nothing: the state is left as it is and the answer is the
    redirect to the same payment page. *)
Theorem cart_checkout_idempotent request request' u u' form form' s r s1 :
  user request = Some u → POST request = ValidPost form →
  user request' = Some u' → POST request' = ValidPost form' →
  is_blocked_in s = false →
  cart_checkout request s = Ok r s1 →
  ∃ order_pk order payment_pk payment,
    orders s !! order_pk = None
    ∧ orders s1 = <[order_pk := order]> (orders s)
    ∧ payments s !! payment_pk = None
    ∧ payments s1 = <[payment_pk := payment]> (payments s)
    ∧ p_order payment = order_pk
    ∧ r = Redirect (PaymentOverviewUrl payment_pk (p_token payment))
    ∧ blocked_on s1 (PaymentOverviewUrl payment_pk (p_token payment))
    ∧ cart_checkout request' s1 = Ok r s1.
Proof.
  intros Hu Hpost Hu' Hpost' Hfree Hrun.
  unfold cart_checkout, login_required in Hrun. rewrite Hu, Hpost in Hrun.
  apply bind_Ok_inv in Hrun as (s0 & s0' & Hget & Hrun).
  unfold get in Hget. injection Hget as <- <-.
  fold (is_blocked_in s) in Hrun. rewrite Hfree in Hrun.
  apply bind_Ok_inv in Hrun as (profile_data & s2 & Hdata & Hrun).
  assert (s2 = s) as ->.
  { destruct (PROFILE_DATA (session s)); cbn in Hdata; step; congruence. }
  apply bind_Ok_inv in Hrun as ([] & s3 & Hsearch & Hrun).
  assert (Hb3 : same_books s s3).
  { destruct (cart_products s) as [|first rest].
    - step. injection Hsearch as <-. apply same_books_refl.
    - step. destruct (user_searches s !! os_user_search first) as [us|]; [|discriminate].
      destruct (us_user us); injection Hsearch as <-; repeat split. }
  apply bind_Ok_inv in Hrun as (email & s4 & Hmail & Hrun).
  pose proof (assign_email_books u s3) as Hb4. rewrite Hmail in Hb4. cbn [state_of] in Hb4.
  apply bind_Ok_inv in Hrun as (order & s5 & Hprofiles & Hrun).
  pose proof (create_profiles_books u email profile_data (cart_products s)
                {| o_user := u; o_service_type := SOCIAL_PROFILES; o_items := [];
                   o_payment_method := f_payment_method form;
                   o_coupon_code := f_coupon_code form |} s4) as Hb5.
  rewrite Hprofiles in Hb5. cbn [state_of] in Hb5.
  pose proof (same_books_trans _ _ _ (same_books_trans _ _ _ Hb3 Hb4) Hb5)
    as (Horders & Hpayments & Hsession).
  apply bind_Ok_inv in Hrun as (s5' & s5'' & Hget & Hrun).
  unfold get in Hget. injection Hget as <- <-.
  unfold insert_fresh in Hrun.
  apply bind_Ok_inv in Hrun as ([] & s6 & Hsave & Hrun).
  unfold modify in Hsave. injection Hsave as <-.
  apply bind_Ok_inv in Hrun as (s6' & s6'' & Hget & Hrun).
  unfold get in Hget. injection Hget as <- <-.
  apply bind_Ok_inv in Hrun as ([payment_pk payment] & s7 & Hpay & Hrun).
  apply create_payment_Ok_inv in Hpay as (Hfresh & Hp7 & Ho7 & Hs7 & Hpo).
  cbn [payments orders session set_orders] in Hfresh, Hp7, Ho7, Hs7.
  step. injection Hrun as <- <-.
  rewrite Horders in Ho7, Hpo. rewrite Hpayments in Hp7, Hfresh.
  exists (fresh (dom (orders s))), order, payment_pk, payment.
  cbn [orders payments session set_session set_CHECKOUT_INFO CHECKOUT_INFO].
  split; [apply fresh_pk_None|].
  split; [exact Ho7|]. split; [exact Hfresh|]. split; [exact Hp7|].
  split; [exact Hpo|]. split; [reflexivity|].
  split; [reflexivity|].
  eapply cart_checkout_blocked; [exact Hu' | exact Hpost' | reflexivity].
Qed.

Lemma cart_checkout_idempotent_witness :
  ∃ s1,
    cart_checkout (example.post (Some 1)) shopping
      = Ok (Redirect (PaymentOverviewUrl 0 1000)) s1
    ∧ size (orders s1) = 1%nat
    ∧ size (payments s1) = 1%nat
    ∧ cart_checkout (example.post None) s1
      = Ok (Redirect (PaymentOverviewUrl 0 1000)) s1.
Proof.
  exists (state_of (cart_checkout (example.post (Some 1)) shopping)).
  destruct (cart_checkout_idempotent (example.post (Some 1)) (example.post None)
              1 1 {| f_payment_method := 1; f_coupon_code := Some 1 |}
              {| f_payment_method := 1; f_coupon_code := None |}
              shopping (Redirect (PaymentOverviewUrl 0 1000))
              (state_of (cart_checkout (example.post (Some 1)) shopping)))
    as (order_pk & order & payment_pk & payment & _ & _ & _ & _ & _ & _ & _ & Hagain);
    [reflexivity | reflexivity | reflexivity | reflexivity | reflexivity
    | vm_compute; reflexivity |].
  split; [vm_compute; reflexivity|].
  split; [vm_compute; reflexivity|].
  split; [vm_compute; reflexivity|].
  exact Hagain.
Defined.

End cart_checkout_properties.

(** * More properties of the code *)

(** ** Order.order_ready and Order.order_progress *)

Section order_ready_properties.

Import models.

Lemma forallb_filter_length {A} (f : A → bool) (l : list A) :
  forallb f l = true ↔ length (filter (λ x, f x = true) l) = length l.
Proof.
  induction l as [|x l IH]; [cbn; tauto|].
  cbn [forallb]. destruct (f x) eqn:Hx.
  - rewrite filter_cons_True by exact Hx. cbn. rewrite IH. split; lia.
  - rewrite filter_cons_False by (rewrite Hx; discriminate). cbn.
    pose proof (length_filter (λ x, f x = true) l). split; [discriminate|lia].
Qed.

Lemma order_ready_created s self :
  o_service_type self = SOCIAL_PROFILES →
  (order_ready s self = true ↔ created_count s self = total_count s self).
Proof.
  unfold order_ready, get_items, created_count, total_count. intros ->.
  rewrite forallb_filter_length. split; [congruence | apply Nat2Z.inj].
Qed.

(** X1.  An order of social profiles is ready exactly when all the items
    that resolve are counted as created by [order_progress] (so also
    when none resolves); an order of reputation cases is never ready. *)
Theorem order_ready_counts s self :
  (o_service_type self = SOCIAL_PROFILES →
   (order_ready s self = true ↔ created_count s self = total_count s self))
  ∧ (o_service_type self = REPUTATION_CASE → order_ready s self = false).
Proof.
  split; [apply order_ready_created|].
  unfold order_ready, get_items. intros ->. reflexivity.
Qed.

Lemma order_ready_counts_witness :
  order_ready (example.with_profiles [CREATED; FAILED] None)
    (example.order SOCIAL_PROFILES [1; 2] None) = true
  ∧ order_ready (example.with_profiles [CREATED; REQUESTED_CREATION_PAID] None)
      (example.order SOCIAL_PROFILES [1; 2] None) = false
  ∧ order_ready (example.with_case (example.dec 10 0) None)
      (example.order REPUTATION_CASE [1] None) = false.
Proof.
  split; [|split].
  - apply (proj1 (order_ready_counts _ _)); reflexivity.
  - destruct (order_ready _ _) eqn:H; [|reflexivity].
    apply (proj1 (order_ready_counts _ _)) in H; [discriminate H | reflexivity].
  - apply (proj2 (order_ready_counts _ _)). reflexivity.
Defined.

Lemma of_ratio_same (n : Z) : 0 < n → PyFloat.of_ratio n n = 1%float.
Proof.
  intros Hn. unfold PyFloat.of_ratio.
  destruct (Z.eqb_spec n 0) as [|_]; [lia|].
  rewrite Z.abs_eq by lia.
  replace (64 + Z.log2 n - Z.log2 n) with 64 by lia.
  change (Z.max 0 64) with 64.
  rewrite (Z.mul_comm n), Z.div_mul, Z.mod_mul by lia.
  destruct (Z.ltb_spec n 0) as [|_]; [lia|].
  vm_compute. reflexivity.
Qed.

Lemma percent_all (t : Z) : 0 < t → percent t t = Some 100.
Proof. intros Ht. unfold percent. rewrite of_ratio_same by exact Ht. vm_compute. reflexivity. Qed.

Lemma percent_none (t : Z) : percent 0 t = Some 0.
Proof. vm_compute. reflexivity. Qed.

(** X2.  The two ends of the progress, for an order of social profiles of
    any size with at least one item: when the order is ready the
    property answers 100%, and when no item is created or failed yet it
    answers 0%. *)
Theorem order_progress_ends s self :
  o_service_type self = SOCIAL_PROFILES →
  total_count s self ≠ 0 →
  (order_ready s self = true →
   order_progress self s =
     Ok (Some {| created := total_count s self; total := total_count s self;
                 progress := "100%" |}) s)
  ∧ (created_count s self = 0 →
     order_progress self s =
       Ok (Some {| created := 0; total := total_count s self; progress := "0%" |}) s).
Proof.
  intros Hkind Ht. split.
  - intros Hready.
    apply (order_ready_created s self Hkind) in Hready.
    assert (Hpos : 0 < total_count s self) by (unfold total_count in *; lia).
    rewrite (order_progress_Ok s self 100 Hkind Ht);
      [rewrite Hready; reflexivity | rewrite Hready; apply percent_all, Hpos].
  - intros Hzero.
    rewrite (order_progress_Ok s self 0 Hkind Ht);
      [rewrite Hzero; reflexivity | rewrite Hzero; apply percent_none].
Qed.

Lemma order_progress_ends_witness :
  order_progress (example.order SOCIAL_PROFILES [1; 2; 3] None)
    (example.with_profiles [CREATED; FAILED; CREATED] None)
  = Ok (Some {| created := 3; total := 3; progress := "100%" |})
       (example.with_profiles [CREATED; FAILED; CREATED] None)
  ∧ order_progress (example.order SOCIAL_PROFILES [1; 2; 3] None)
      (example.with_profiles
         [REQUESTED_CREATION_PAID; REQUESTED_CREATION_PAID; REQUESTED_CREATION_UNPAID] None)
    = Ok (Some {| created := 0; total := 3; progress := "0%" |})
         (example.with_profiles
            [REQUESTED_CREATION_PAID; REQUESTED_CREATION_PAID; REQUESTED_CREATION_UNPAID]
            None).
Proof.
  split.
  - apply (order_progress_ends
             (example.with_profiles [CREATED; FAILED; CREATED] None)
             (example.order SOCIAL_PROFILES [1; 2; 3] None));
      [reflexivity | discriminate | reflexivity].
  - apply (order_progress_ends
             (example.with_profiles
                [REQUESTED_CREATION_PAID; REQUESTED_CREATION_PAID;
                 REQUESTED_CREATION_UNPAID] None)
             (example.order SOCIAL_PROFILES [1; 2; 3] None));
      [reflexivity | discriminate | reflexivity].
Defined.

End order_ready_properties.

(** ** Order.get_items, Order.add_items *)

Section get_items_properties.

Import models.

(** X3.  The rows [get_items] returns for an order of social profiles are
    those of the ids listed that are rows of the table, each once: an id
    listed twice or an id without a row adds nothing, and there are never
    more rows than ids. *)
Theorem get_items_resolves s self :
  NoDup (profile_items s self).*1
  ∧ (∀ pk row, (pk, row) ∈ profile_items s self
               ↔ pk ∈ o_items self ∧ social_profiles s !! pk = Some row)
  ∧ (length (profile_items s self) ≤ length (o_items self))%nat.
Proof.
  split; [apply NoDup_filter_pk_in|].
  split; [intros pk row; apply elem_of_filter_pk_in|].
  rewrite <- (length_fmap fst).
  apply submseteq_length, NoDup_submseteq; [apply NoDup_filter_pk_in|].
  intros pk Hin. apply list_elem_of_fmap in Hin as [[k row] [-> Hin]].
  apply elem_of_filter_pk_in in Hin. tauto.
Qed.

Lemma get_items_resolves_witness :
  let s := example.with_profiles [CREATED] None in
  let self := example.order SOCIAL_PROFILES [1; 1; 5] None in
  (profile_items s self).*1 = [1]
  ∧ NoDup (profile_items s self).*1
  ∧ (1, example.profile CREATED) ∈ profile_items s self.
Proof.
  cbv zeta.
  destruct (get_items_resolves (example.with_profiles [CREATED] None)
              (example.order SOCIAL_PROFILES [1; 1; 5] None)) as (Hnodup & Hrows & _).
  split; [vm_compute; reflexivity|]. split; [exact Hnodup|].
  apply Hrows. split; [apply list_elem_of_here | vm_compute; reflexivity].
Defined.

Lemma filter_pk_in_app_listed {R} (tbl : gmap Z R) (pks more : list Z) :
  (∀ pk, pk ∈ more → pk ∈ pks) →
  filter_pk_in tbl (pks ++ more) = filter_pk_in tbl pks.
Proof.
  intros Hlisted. unfold filter_pk_in. apply list_filter_iff.
  intros r. rewrite elem_of_app. split; [intros [?|?]; auto | auto].
Qed.

(** X4.  Adding ids the order lists already changes neither the items it
    resolves to nor its total: an item is charged once however often it
    is listed. *)
Theorem add_items_listed s self items include_discount :
  (∀ pk, pk ∈ items → pk ∈ o_items self) →
  get_items s (add_items self items) = get_items s self
  ∧ calculate_total (add_items self items) include_discount s
    = calculate_total self include_discount s.
Proof.
  intros Hlisted.
  assert (Hitems : get_items s (add_items self items) = get_items s self).
  { unfold get_items, profile_items, case_items, add_items. cbn.
    destruct (o_service_type self); f_equal; apply filter_pk_in_app_listed, Hlisted. }
  split; [exact Hitems|].
  unfold calculate_total, raw_total, aggregate_total. unfold_M.
  rewrite Hitems. reflexivity.
Qed.

Lemma add_items_listed_witness :
  calculate_total (add_item (example.order SOCIAL_PROFILES [1; 2] None) 2) true
    (example.with_profiles [CREATED; CREATED] None)
  = Ok 20%float (example.with_profiles [CREATED; CREATED] None).
Proof.
  unfold add_item.
  destruct (add_items_listed (example.with_profiles [CREATED; CREATED] None)
              (example.order SOCIAL_PROFILES [1; 2] None) [2] true) as [_ ->].
  - intros pk Hin. apply list_elem_of_singleton in Hin as ->. cbn.
    apply list_elem_of_further, list_elem_of_here.
  - vm_compute. reflexivity.
Defined.

End get_items_properties.

(** ** Queries that only read *)

Section read_only_properties.

Import models.

Lemma calculate_total_state self include_discount s :
  state_of (calculate_total self include_discount s) = s.
Proof.
  unfold calculate_total. unfold_M.
  pose proof (discount_state self s) as Hs.
  destruct (discount self s); cbn in *; exact Hs.
Qed.

Lemma order_progress_state self s : state_of (order_progress self s) = s.
Proof.
  unfold order_progress. unfold_M.
  destruct (get_items s self) as [rows|rows]; [|reflexivity].
  destruct (Z.of_nat (length rows) =? 0); [reflexivity|].
  destruct (PyFloat.to_int _); reflexivity.
Qed.

(** X5.  The queries of an order and of a payment write nothing, whether they
    answer or raise: after [discount], [calculate_total], the progress
    property and [get_purchased_items] the state is the one before. *)
Theorem order_queries_read_only s self include_discount payment :
  state_of (discount self s) = s
  ∧ state_of (calculate_total self include_discount s) = s
  ∧ state_of (order_progress self s) = s
  ∧ state_of (get_purchased_items payment s) = s.
Proof.
  split; [apply discount_state|].
  split; [apply calculate_total_state|].
  split; [apply order_progress_state|].
  unfold get_purchased_items. unfold_M.
  destruct (orders s !! p_order payment) as [order|]; [|reflexivity].
  cbn. destruct (o_items order); reflexivity.
Qed.

End read_only_properties.

(** ** Order.create_payment and the payment it stores *)

Section create_payment_frame_properties.

Import models.

Lemma Payment_objects_create_frame variant pk total currency s :
  let s' := state_of (Payment_objects_create variant pk total currency s) in
  orders s' = orders s
  ∧ social_profiles s' = social_profiles s
  ∧ reputation_cases s' = reputation_cases s
  ∧ session s' = session s
  ∧ work_queue s' = work_queue s
  ∧ (payments s' = payments s
     ∨ ∃ ppk p, payments s !! ppk = None
                ∧ payments s' = <[ppk := p]> (payments s)
                ∧ Payment_objects_create variant pk total currency s = Ok (ppk, p) s'
                ∧ p_order p = pk ∧ p_total p = total
                ∧ p_status p = "waiting" ∧ p_currency p = currency
                ∧ p_token p = next_token s).
Proof.
  cbv zeta. unfold Payment_objects_create. unfold_M.
  destruct (orders s !! pk) as [o|]; [|cbn; tauto].
  cbn. destruct (payment_methods s !! o_payment_method o) as [pm|]; [|cbn; tauto].
  cbn. change (payment_exists (set_next_token Z.succ s) pk) with (payment_exists s pk).
  destruct (payment_exists s pk); [cbn; tauto|].
  cbn. repeat (split; [reflexivity|]). right.
  eexists _, _. split; [apply fresh_pk_None|]. repeat split.
Qed.

(** X6.  Whatever [create_payment] answers, it leaves the orders, the
    catalogue rows, the session and the work queue as they are, and the
    payments table either as it is or with one row more: a payment of
    this order, waiting, in USD, under a key that was free. *)
Theorem create_payment_frame pk self amount s :
  let s' := state_of (create_payment pk self amount s) in
  orders s' = orders s
  ∧ social_profiles s' = social_profiles s
  ∧ reputation_cases s' = reputation_cases s
  ∧ session s' = session s
  ∧ work_queue s' = work_queue s
  ∧ (payments s' = payments s
     ∨ ∃ ppk p, payments s !! ppk = None
                ∧ payments s' = <[ppk := p]> (payments s)
                ∧ create_payment pk self amount s = Ok (ppk, p) s'
                ∧ p_order p = pk
                ∧ p_status p = "waiting" ∧ p_currency p = "USD").
Proof.
  cbv zeta. unfold create_payment, create_payment_with.
  set (tail := λ total : float, _ : M (Z * Payment)).
  assert (Htail : ∀ total,
    let s' := state_of (tail total s) in
    orders s' = orders s
    ∧ social_profiles s' = social_profiles s
    ∧ reputation_cases s' = reputation_cases s
    ∧ session s' = session s
    ∧ work_queue s' = work_queue s
    ∧ (payments s' = payments s
       ∨ ∃ ppk p, payments s !! ppk = None
                  ∧ payments s' = <[ppk := p]> (payments s)
                  ∧ tail total s = Ok (ppk, p) s'
                  ∧ p_order p = pk
                  ∧ p_status p = "waiting" ∧ p_currency p = "USD")).
  { intros total. cbv zeta. subst tail. cbn beta.
    pose proof (discount_state self s) as Hs.
    destruct (discount self s) as [d s1|e s1] eqn:Hd; cbn in Hs; subst s1.
    - rewrite (bind_Ok _ _ _ _ _ Hd). unfold_M.
      destruct (payment_methods s !! o_payment_method self) as [pm|]; [|cbn; tauto].
      cbn beta iota.
      destruct (Payment_objects_create_frame (pm_variant pm) pk
                  (if PyFloat.truthy d then (total * (1 - d / 100))%float else total)
                  "USD" s) as (? & ? & ? & ? & ? & Hp).
      repeat (split; [assumption|]).
      destruct Hp as [Hp | (ppk & p & ? & ? & ? & ? & ? & ? & ? & ?)]; [left; exact Hp|].
      right. exists ppk, p. repeat split; assumption.
    - rewrite (bind_Raise _ _ _ _ _ Hd). cbn. tauto. }
  pose proof (calculate_total_state self false s) as Hs.
  destruct amount as [a|]; [destruct (Dec.truthy a)|].
  - rewrite (bind_Ok _ _ s (Dec.to_float a) s eq_refl). apply Htail.
  - destruct (calculate_total self false s) as [v s1|e s1] eqn:Hv; cbn in Hs; subst s1.
    + rewrite (bind_Ok _ _ _ _ _ Hv). apply Htail.
    + rewrite (bind_Raise _ _ _ _ _ Hv). cbn. tauto.
  - destruct (calculate_total self false s) as [v s1|e s1] eqn:Hv; cbn in Hs; subst s1.
    + rewrite (bind_Ok _ _ _ _ _ Hv). apply Htail.
    + rewrite (bind_Raise _ _ _ _ _ Hv). cbn. tauto.
Qed.

End create_payment_frame_properties.

(** ** Payment.get_purchased_items *)

Section purchased_items_properties.

(** X7.  A payment exports at most one purchased item: none when the order
    lists no item, else one, of quantity one, at the total and in the
    currency of the payment, named after the order and with the sku
    [order-social-profiles-<id>] or [order-reputation-case-<id>]. *)
Theorem get_purchased_items_one self order s :
  orders s !! p_order self = Some order →
  ∃ items,
    get_purchased_items self s = Ok items s
    ∧ (o_items order = [] → items = [])
    ∧ (o_items order ≠ [] →
       items =
         [ {| pi_name := "Order #" ++ str_of_int (p_order self);
              pi_quantity := 1;
              pi_sku :=
                match o_service_type order with
                | SOCIAL_PROFILES => "order-social-profiles-"
                | REPUTATION_CASE => "order-reputation-case-"
                end ++ str_of_int (p_order self);
              pi_price := p_total self;
              pi_currency := p_currency self |} ]).
Proof.
  intros Ho. unfold get_purchased_items. unfold_M. rewrite Ho. cbn beta iota.
  destruct (o_items order) as [|pk rest].
  - eexists. split; [reflexivity|]. split; [reflexivity | congruence].
  - eexists. split; [reflexivity|]. split; [discriminate|]. intros _.
    unfold get_service_type_display. destruct (o_service_type order); reflexivity.
Qed.

Lemma get_purchased_items_one_witness :
  get_purchased_items
    {| p_variant := "default"; p_order := 1; p_total := 20%float;
       p_currency := "USD"; p_status := "waiting"; p_token := 999 |} paid_once
  = Ok [ {| pi_name := "Order #1"; pi_quantity := 1;
            pi_sku := "order-social-profiles-1"; pi_price := 20%float;
            pi_currency := "USD" |} ] paid_once.
Proof.
  destruct (get_purchased_items_one
              {| p_variant := "default"; p_order := 1; p_total := 20%float;
                 p_currency := "USD"; p_status := "waiting"; p_token := 999 |}
              (example.order SOCIAL_PROFILES [1; 2] None) paid_once)
    as (items & Hrun & _ & Hitems); [reflexivity|].
  rewrite Hrun, Hitems; [reflexivity | discriminate].
Defined.

End purchased_items_properties.

(** ** Order.payment_status *)

Section payment_status_properties.

Import models.

Variable status_display : string → string.

Lemma payment_exists_false s pk :
  payment_exists s pk = false →
  filter (λ r : Z * Payment, p_order r.2 = pk) (map_to_list (payments s)) = [].
Proof.
  unfold payment_exists. intros H. apply bool_decide_eq_false in H.
  induction (map_to_list (payments s)) as [|r l IH]; [reflexivity|].
  rewrite filter_cons_False.
  - apply IH. intros Hex. apply H. right. exact Hex.
  - intros Hr. apply H. left. exact Hr.
Qed.

Lemma NoDup_all_eq {A} (l : list A) (x : A) :
  NoDup l → x ∈ l → (∀ y, y ∈ l → y = x) → l = [x].
Proof.
  intros Hnd Hin Hall. destruct l as [|y l]; [inversion Hin|].
  assert (y = x) as -> by (apply Hall, list_elem_of_here).
  f_equal. destruct l as [|z l]; [reflexivity|].
  assert (z = x) as -> by (apply Hall, list_elem_of_further, list_elem_of_here).
  apply NoDup_cons in Hnd as [Hnot _]. exfalso. apply Hnot, list_elem_of_here.
Qed.

Lemma payment_of_unique s k p :
  payment_order_unique s →
  payments s !! k = Some p →
  payment_of s (p_order p) = Some p.
Proof.
  intros Huniq Hk. unfold payment_of.
  rewrite (NoDup_all_eq _ (k, p)); [reflexivity| | |].
  - apply NoDup_filter, NoDup_map_to_list.
  - apply list_elem_of_filter. split; [reflexivity|]. apply elem_of_map_to_list, Hk.
  - intros [k' p'] Hin. apply list_elem_of_filter in Hin as [Horder Hin].
    apply elem_of_map_to_list in Hin. cbn in Horder.
    assert (k' = k) as -> by (eapply Huniq; eassumption).
    congruence.
Qed.

(** X8.  [payment_status] never raises.  It is ["Payment Pending"] for an
    order without a payment, and, where no order has two payments, the
    label of the status of the payment of the order. *)
Theorem payment_status_spec s pk :
  (has_payment s pk = false → payment_status status_display s pk = "Payment Pending")
  ∧ (payment_order_unique s →
     ∀ k p, payments s !! k = Some p → p_order p = pk →
            has_payment s pk = true
            ∧ payment_status status_display s pk = status_display (p_status p)).
Proof.
  split.
  - intros Hno. unfold payment_status, payment_of.
    rewrite (payment_exists_false s pk Hno). reflexivity.
  - intros Huniq k p Hk <-. split.
    + unfold has_payment, payment_exists. apply bool_decide_eq_true.
      apply Exists_exists. exists (k, p). split; [|reflexivity].
      apply elem_of_map_to_list, Hk.
    + unfold payment_status. rewrite (payment_of_unique s k p Huniq Hk). reflexivity.
Qed.

End payment_status_properties.

Lemma payment_status_spec_witness :
  payment_status (λ status, status) (example.with_profiles [CREATED] None) 1
    = "Payment Pending"
  ∧ payment_status (λ status, status) paid_once 1 = "waiting".
Proof.
  split.
  - apply (proj1 (payment_status_spec (λ status, status) _ 1)). reflexivity.
  - apply (proj2 (payment_status_spec (λ status, status) paid_once 1)) with (k := 1)
      (p := {| p_variant := "default"; p_order := 1; p_total := 20%float;
               p_currency := "USD"; p_status := "waiting"; p_token := 999 |});
      [|reflexivity|reflexivity].
    intros k1 k2 p1 p2 H1 H2 _.
    unfold paid_once in H1, H2. cbn in H1, H2.
    apply lookup_insert_Some in H1 as [[<- _]|[_ H1]]; [|rewrite lookup_empty in H1; discriminate].
    apply lookup_insert_Some in H2 as [[<- _]|[_ H2]]; [|rewrite lookup_empty in H2; discriminate].
    reflexivity.
Defined.

(** ** CouponCode.generate_code and CouponCode.save *)

Section coupon_code_properties.

Lemma get_chars (s : string) (i : nat) :
  (i < String.length s)%nat → ∃ c, String.get i s = Some c ∧ c ∈ chars s.
Proof.
  revert i. induction s as [|c s IH]; intros i Hi; cbn in Hi; [lia|].
  destruct i as [|i]; cbn.
  - exists c. split; [reflexivity | apply list_elem_of_here].
  - destruct (IH i) as (c' & Hget & Hin); [lia|].
    exists c'. split; [exact Hget | apply list_elem_of_further, Hin].
Qed.

Lemma choices_spec (base_str : string) (n : nat) (rng : Rng) :
  (0 < String.length base_str)%nat →
  String.length (choices base_str n rng).1 = n
  ∧ Forall (λ c, c ∈ chars base_str) (chars (choices base_str n rng).1)
  ∧ taken (choices base_str n rng).2 = (taken rng + n)%nat
  ∧ draws (choices base_str n rng).2 = draws rng.
Proof.
  intros Hbase. revert rng. induction n as [|n IH]; intros rng.
  - cbn. repeat split; [constructor | lia].
  - cbn [choices]. unfold random_choice.
    destruct (get_chars base_str (draws rng (taken rng) mod String.length base_str))
      as (c & Hget & Hin); [apply Nat.mod_upper_bound; lia|].
    rewrite Hget.
    destruct (IH {| draws := draws rng; taken := S (taken rng) |}) as (Hlen & Hall & Htaken & Hdraws).
    destruct (choices base_str n _) as [rest rng'].
    cbn in *. repeat split; [lia | constructor; assumption | lia | assumption].
Qed.

Lemma alphabet_nonempty nums upper : (0 < String.length (alphabet nums upper))%nat.
Proof. destruct nums, upper; vm_compute; lia. Qed.

Lemma generate_code_length length include_numbers all_uppercase rng :
  String.length (generate_code length include_numbers all_uppercase rng).1 = length.
Proof.
  unfold generate_code. fold (alphabet include_numbers all_uppercase).
  apply choices_spec, alphabet_nonempty.
Qed.

(** X9.  A generated code has the length asked for and only characters of
    the alphabet selected; with the defaults these are the 26 capitals.
    Each character takes one draw of the generator. *)
Theorem generate_code_spec length include_numbers all_uppercase rng :
  let code := (generate_code length include_numbers all_uppercase rng).1 in
  String.length code = length
  ∧ Forall (λ c, c ∈ chars (alphabet include_numbers all_uppercase)) (chars code)
  ∧ (include_numbers = false → all_uppercase = true →
     Forall (λ c, (65 ≤ nat_of_ascii c ≤ 90)%nat) (chars code))
  ∧ taken (generate_code length include_numbers all_uppercase rng).2
    = (taken rng + length)%nat.
Proof.
  cbv zeta. unfold generate_code. fold (alphabet include_numbers all_uppercase).
  destruct (choices_spec (alphabet include_numbers all_uppercase) length rng
              (alphabet_nonempty _ _)) as (Hlen & Hall & Htaken & _).
  split; [exact Hlen|]. split; [exact Hall|]. split; [|exact Htaken].
  intros -> ->. eapply Forall_impl; [exact Hall|].
  intros c Hc. cbn in Hc.
  repeat (apply elem_of_cons in Hc as [->|Hc]; [vm_compute; split; repeat constructor|]).
  inversion Hc.
Qed.

Lemma generate_code_spec_witness :
  (generate_code 10 false true counting).1 = "ABCDEFGHIJ"
  ∧ Forall (λ c, (65 ≤ nat_of_ascii c ≤ 90)%nat)
           (chars (generate_code 10 false true counting).1)
  ∧ taken (generate_code 10 false true counting).2 = 10%nat.
Proof.
  destruct (generate_code_spec 10 false true counting) as (_ & _ & Hcapitals & Htaken).
  split; [vm_compute; reflexivity|].
  split; [apply Hcapitals; reflexivity | exact Htaken].
Defined.

Lemma code_exists_true tbl code :
  code_exists tbl code = true ↔ ∃ k c, tbl !! k = Some c ∧ cc_code c = code.
Proof.
  unfold code_exists. rewrite bool_decide_eq_true, Exists_exists. split.
  - intros ([k c] & Hin & Hcode). apply elem_of_map_to_list in Hin. eauto.
  - intros (k & c & Hk & Hcode). exists (k, c). split; [|exact Hcode].
    apply elem_of_map_to_list, Hk.
Qed.

Lemma fresh_code_spec fuel tbl rng code rng' :
  fresh_code fuel tbl rng = Some (code, rng') →
  code_exists tbl code = false ∧ String.length code = 10%nat.
Proof.
  revert rng. induction fuel as [|fuel IH]; intros rng; [discriminate|].
  cbn [fresh_code].
  pose proof (generate_code_length 10 false true rng) as Hlen.
  destruct (generate_code 10 false true rng) as [candidate rng1]. cbn in Hlen.
  destruct (code_exists tbl candidate) eqn:Hex; [apply IH|].
  intros [= <- <-]. auto.
Qed.

(** More fuel does not change what the loop of [save] finds. *)
Lemma fresh_code_more_fuel fuel more tbl rng r :
  fresh_code fuel tbl rng = Some r → fresh_code (fuel + more) tbl rng = Some r.
Proof.
  revert rng. induction fuel as [|fuel IH]; intros rng; [discriminate|].
  cbn [fresh_code Nat.add].
  destruct (generate_code 10 false true rng) as [candidate rng1].
  destruct (code_exists tbl candidate); [apply IH | auto].
Qed.

Lemma codes_unique_insert tbl pk row :
  codes_unique tbl → tbl !! pk = None → code_exists tbl (cc_code row) = false →
  codes_unique (<[pk := row]> tbl).
Proof.
  intros Huniq Hfree Hnew k1 k2 c1 c2 H1 H2 Hcode.
  assert (Hnot : ∀ k c, tbl !! k = Some c → cc_code c ≠ cc_code row).
  { intros k c Hk Heq.
    assert (code_exists tbl (cc_code row) = true) by (apply code_exists_true; eauto).
    congruence. }
  apply lookup_insert_Some in H1 as [[<- <-]|[Hne1 H1]];
    apply lookup_insert_Some in H2 as [[<- <-]|[Hne2 H2]].
  - reflexivity.
  - exfalso. eapply Hnot; [exact H2 | congruence].
  - exfalso. eapply Hnot; [exact H1 | congruence].
  - eapply Huniq; eassumption.
Qed.

(** X10.  Saving a new coupon code keeps the codes of the table distinct.  A
    coupon saved keeps the code it came with, or gets a generated one of
    ten characters when it came with none, and in both cases the code was
    not in the table; a code that is in the table already is refused with
    [IntegrityError]; and the only way not to finish is the loop that
    generates codes, with a coupon that has none. *)
Theorem CouponCode_save_unique fuel self tbl rng :
  codes_unique tbl →
  match CouponCode_save fuel self tbl rng with
  | Some (Saved pk row tbl' rng') =>
      tbl !! pk = None
      ∧ tbl' = <[pk := row]> tbl
      ∧ codes_unique tbl'
      ∧ code_exists tbl (cc_code row) = false
      ∧ (cc_code self ≠ "" → row = self)
      ∧ (cc_code self = "" →
         String.length (cc_code row) = 10%nat
         ∧ row = set_code (cc_code row) self)
  | Some (NotSaved e rng') =>
      e = IntegrityError ∧ code_exists tbl (cc_code self) = true ∧ rng' = rng
  | None => cc_code self = ""
  end.
Proof.
  intros Huniq. unfold CouponCode_save.
  destruct (String.eqb_spec (cc_code self) "") as [Hempty|Hcode]; cbn.
  - destruct (fresh_code fuel tbl rng) as [[code rng']|] eqn:Hfresh; cbn; [|exact Hempty].
    apply fresh_code_spec in Hfresh as [Hnew Hlen].
    rewrite Hnew. unfold insert_fresh.
    split; [apply fresh_pk_None|]. split; [reflexivity|].
    split; [apply codes_unique_insert; auto using fresh_pk_None|].
    split; [exact Hnew|]. split; [congruence|]. intros _. split; [exact Hlen | reflexivity].
  - destruct (code_exists tbl (cc_code self)) eqn:Hex; [auto|].
    unfold insert_fresh.
    split; [apply fresh_pk_None|]. split; [reflexivity|].
    split; [apply codes_unique_insert; auto using fresh_pk_None|].
    split; [exact Hex|]. split; [reflexivity | contradiction].
Qed.

Lemma coupons_unique : codes_unique coupons.
Proof.
  intros k1 k2 c1 c2 H1 H2 _. unfold coupons in *.
  apply lookup_singleton_Some in H1 as [<- _].
  apply lookup_singleton_Some in H2 as [<- _]. reflexivity.
Qed.

(** The generator that counts draws ["ABCDEFGHIJ"] first, which the
    table has, and ["KLMNOPQRST"] next, which is saved. *)
Lemma CouponCode_save_unique_witness :
  ∃ pk row tbl' rng',
    CouponCode_save 2
      {| cc_sales_rep := 3; cc_code := ""; cc_discount := 5; cc_commission := 1 |}
      coupons counting = Some (Saved pk row tbl' rng')
    ∧ cc_code row = "KLMNOPQRST"
    ∧ taken rng' = 20%nat
    ∧ codes_unique tbl'.
Proof.
  pose proof (CouponCode_save_unique 2
                {| cc_sales_rep := 3; cc_code := ""; cc_discount := 5; cc_commission := 1 |}
                coupons counting coupons_unique) as H.
  destruct (CouponCode_save 2 _ coupons counting) as [[pk row tbl' rng'|e rng']|] eqn:Hsave;
    [|vm_compute in Hsave; discriminate|vm_compute in Hsave; discriminate].
  exists pk, row, tbl', rng'. destruct H as (_ & _ & Huniq & _).
  split; [reflexivity|].
  assert (Hrow : cc_code row = "KLMNOPQRST" ∧ taken rng' = 20%nat).
  { vm_compute in Hsave. injection Hsave as _ <- _ <-. split; reflexivity. }
  destruct Hrow. repeat split; assumption.
Defined.

End coupon_code_properties.

(** ** cart_checkout: when it goes through and what it stores *)

Section cart_checkout_success.

Import models views.

Lemma same_ledger_refl s : same_ledger s s.
Proof. repeat split. Qed.

Lemma same_ledger_trans s1 s2 s3 :
  same_ledger s1 s2 → same_ledger s2 s3 → same_ledger s1 s3.
Proof.
  intros (?&?&?&?&?&?&?&?&?&?) (?&?&?&?&?&?&?&?&?&?). repeat split; congruence.
Qed.

Lemma create_profiles_spec u email data order_sites order s :
  ∃ order' s' new,
    create_profiles u email data order_sites order s = Ok order' s'
    ∧ same_ledger s s'
    ∧ o_user order' = o_user order
    ∧ o_service_type order' = o_service_type order
    ∧ o_payment_method order' = o_payment_method order
    ∧ o_coupon_code order' = o_coupon_code order
    ∧ o_items order' = o_items order ++ new
    ∧ length new = length order_sites
    ∧ NoDup new
    ∧ (∀ pk, pk ∈ new →
         social_profiles s !! pk = None
         ∧ ∃ row, social_profiles s' !! pk = Some row
                  ∧ sp_status row = REQUESTED_CREATION_UNPAID ∧ sp_user row = u)
    ∧ (∀ pk row, social_profiles s !! pk = Some row → social_profiles s' !! pk = Some row).
Proof.
  revert order s. induction order_sites as [|os rest IH]; intros order s.
  - exists order, s, []. split; [reflexivity|]. split; [apply same_ledger_refl|].
    do 4 (split; [reflexivity|]). split; [symmetry; apply app_nil_r|].
    split; [reflexivity|]. split; [constructor|].
    split; [intros pk Hin; inversion Hin | auto].
  - cbn [create_profiles]. unfold_M. cbn beta iota. unfold insert_fresh.
    set (pk0 := fresh (dom (social_profiles s))).
    set (row0 := {| sp_user := u; sp_status := REQUESTED_CREATION_UNPAID;
                    sp_site := os_site os; sp_username := os_available_username os;
                    sp_email := email; sp_profile_data := data |}).
    set (s0 := set_social_profiles (λ _, <[pk0 := row0]> (social_profiles s)) s).
    destruct (IH (add_item order pk0) s0)
      as (order' & s' & new & Hrun & Hledger & Hu & Hk & Hpm & Hc & Hitems & Hlen & Hnd
          & Hnew & Hold).
    assert (Hfree0 : social_profiles s !! pk0 = None) by apply fresh_pk_None.
    assert (Hrow0 : social_profiles s' !! pk0 = Some row0).
    { apply Hold. subst s0. cbn. apply lookup_insert_eq. }
    exists order', s', (pk0 :: new).
    split; [exact Hrun|].
    split; [eapply same_ledger_trans; [|exact Hledger]; repeat split|].
    split; [exact Hu|]. split; [exact Hk|]. split; [exact Hpm|]. split; [exact Hc|].
    split; [rewrite Hitems; cbn; rewrite <- app_assoc; reflexivity|].
    split; [cbn; lia|].
    split.
    { apply NoDup_cons. split; [|exact Hnd].
      intros Hin. destruct (Hnew pk0 Hin) as [Hnone _].
      subst s0. cbn in Hnone. rewrite lookup_insert_eq in Hnone. discriminate. }
    split.
    { intros pk Hin. apply elem_of_cons in Hin as [->|Hin].
      - split; [exact Hfree0|]. exists row0. repeat split. exact Hrow0.
      - destruct (Hnew pk Hin) as [Hnone Hrow]. split; [|exact Hrow].
        subst s0. cbn in Hnone.
        apply lookup_insert_None in Hnone as [Hnone _]. exact Hnone. }
    intros pk row Hpk. apply Hold. subst s0. cbn.
    rewrite lookup_insert_ne; [exact Hpk|]. intros <-. congruence.
Qed.

Lemma payment_exists_ext s s' pk :
  payments s' = payments s → payment_exists s' pk = payment_exists s pk.
Proof. unfold payment_exists. intros ->. reflexivity. Qed.

Lemma discount_ext self s s' d :
  coupon_codes s' = coupon_codes s → discount self s = Ok d s → discount self s' = Ok d s'.
Proof.
  unfold discount. intros Hc. destruct (o_coupon_code self) as [c|].
  - unfold_M. rewrite Hc. destruct (coupon_codes s !! c); cbn; congruence.
  - unfold_M. congruence.
Qed.

Lemma cart_total_ext s s' :
  session s' = session s → order_sites s' = order_sites s → cart_total s' = cart_total s.
Proof. unfold cart_total. intros -> ->. reflexivity. Qed.

Lemma fresh_order_unpaid s :
  payments_have_orders s → payment_exists s (fresh (dom (orders s))) = false.
Proof.
  intros Hfk. unfold payment_exists. apply bool_decide_eq_false.
  intros Hex. apply Exists_exists in Hex as ([k p] & Hin & Horder).
  apply elem_of_map_to_list in Hin. cbn in Horder.
  destruct (Hfk k p Hin) as [o Ho]. rewrite Horder, fresh_pk_None in Ho. discriminate.
Qed.

Lemma assign_email_spec u s :
  DEBUG s = true ∨ is_Some (free_mailbox s) →
  ∃ email s', assign_email u s = Ok email s'
              ∧ same_ledger s s' ∧ social_profiles s' = social_profiles s.
Proof.
  intros Hmail. unfold assign_email. unfold_M. destruct (DEBUG s).
  - eexists _, _. split; [reflexivity|]. repeat split.
  - destruct Hmail as [|[[pk email] ->]]; [discriminate|].
    eexists _, _. split; [reflexivity|]. repeat split.
Qed.

Lemma cart_checkout_run request u form s :
  can_check_out request u form s →
  ∃ order_pk order payment_pk payment s1 d,
    cart_checkout request s
      = Ok (Redirect (PaymentOverviewUrl payment_pk (p_token payment))) s1
    ∧ checkout_stored u form s s1 order_pk order payment_pk payment d.
Proof.
  intros [Hu Hpost Hfree [data Hdata] Hsearch Hmail [pm Hpm] Hcoupon Hfk].
  unfold cart_checkout, login_required. rewrite Hu, Hpost.
  erewrite bind_Ok by reflexivity. cbv beta.
  fold (is_blocked_in s). rewrite Hfree, Hdata.
  erewrite bind_Ok by reflexivity. cbv beta.
  (* the user search of the first product *)
  assert (Hstage1 : ∃ s3,
    (match cart_products s with
     | [] => mret ()
     | first :: _ =>
         orRaise DoesNotExist (user_searches s !! os_user_search first)
         ≫= λ user_search : UserSearch,
              match us_user user_search with
              | Some _ => mret ()
              | None =>
                  modify (set_user_searches
                            <[os_user_search first := {| us_user := Some u |}]>)
              end
     end) s = Ok tt s3
    ∧ same_ledger s s3 ∧ social_profiles s3 = social_profiles s
    ∧ DEBUG s3 = DEBUG s ∧ gmail_accounts s3 = gmail_accounts s).
  { destruct (cart_products s) as [|first rest].
    - exists s. repeat split.
    - destruct Hsearch as [us Hus]. rewrite Hus. unfold_M.
      destruct (us_user us); eexists; (split; [reflexivity|]); repeat split. }
  destruct Hstage1 as (s3 & Hrun1 & Hl3 & Hsp3 & Hdebug3 & Hgmail3).
  rewrite (bind_Ok _ _ _ _ _ Hrun1).
  (* the mailbox *)
  destruct (assign_email_spec u s3) as (email & s4 & Hrun2 & Hl4 & Hsp4).
  { unfold free_mailbox. rewrite Hdebug3, Hgmail3. exact Hmail. }
  rewrite (bind_Ok _ _ _ _ _ Hrun2).
  (* the profiles *)
  destruct (create_profiles_spec u email data (cart_products s)
              {| o_user := u; o_service_type := SOCIAL_PROFILES; o_items := [];
                 o_payment_method := f_payment_method form;
                 o_coupon_code := f_coupon_code form |} s4)
    as (order & s5 & new & Hrun3 & Hl5 & Hou & Hok & Hopm & Hoc & Hitems & Hlen & Hnd
        & Hnew & Hold).
  cbn in Hou, Hok, Hopm, Hoc, Hitems. subst new.
  rewrite (bind_Ok _ _ _ _ _ Hrun3).
  pose proof (same_ledger_trans _ _ _ (same_ledger_trans _ _ _ Hl3 Hl4) Hl5)
    as (Ho5 & Hp5 & Hse5 & Hpm5 & Hc5 & Htok5 & Hq5 & Hm5 & Hf5 & Hos5).
  (* the order *)
  erewrite bind_Ok by reflexivity. cbv beta. unfold insert_fresh. cbv zeta. cbn iota.
  erewrite bind_Ok by reflexivity. cbv beta.
  set (s6 := set_orders _ s5).
  erewrite bind_Ok by reflexivity. cbv beta.
  (* the payment *)
  assert (Hd : ∃ d, discount order s = Ok d s).
  { unfold discount. rewrite Hoc. destruct (f_coupon_code form) as [c|].
    - destruct Hcoupon as [coupon Hc]. unfold_M. rewrite Hc. eauto.
    - eauto. }
  destruct Hd as [d Hd].
  assert (Hpay : create_payment (fresh (dom (orders s5))) order (Some (cart_total s6)) s6
                 = Ok (fresh (dom (payments s6)),
                       new_payment s6 (fresh (dom (orders s5))) pm
                         (payment_total (Some (cart_total s6))
                            (PyFloat.round2 (raw_total s6 order * 1)%float) d))
                      (store_payment s6
                         (new_payment s6 (fresh (dom (orders s5))) pm
                            (payment_total (Some (cart_total s6))
                               (PyFloat.round2 (raw_total s6 order * 1)%float) d)))).
  { apply create_payment_Ok.
    - subst s6. cbn. apply lookup_insert_eq.
    - subst s6. cbn. rewrite Hpm5, Hopm. exact Hpm.
    - subst s6.
      change (payment_exists (set_orders _ s5) ?pk) with (payment_exists s5 pk).
      rewrite (payment_exists_ext s s5 _ Hp5), Ho5. apply fresh_order_unpaid, Hfk.
    - apply (discount_ext order s s6 d); [subst s6; cbn; exact Hc5 | exact Hd]. }
  rewrite (bind_Ok _ _ _ _ _ Hpay); clear Hpay.
  unfold_M. cbn beta iota.
  assert (Htotal6 : cart_total s6 = cart_total s).
  { apply cart_total_ext; subst s6; cbn; assumption. }
  eexists (fresh (dom (orders s))), order, _, _, _, d. unfold checkout_stored.
  rewrite Ho5. split; [reflexivity|].
  cbn [orders payments session social_profiles work_queue set_session set_CHECKOUT_INFO
       store_payment set_payments set_next_token set_orders CHECKOUT_INFO CART
       new_payment p_order p_status p_total p_token].
  subst s6. cbn [orders payments session social_profiles work_queue set_orders next_token].
  rewrite Ho5, Hp5, Hse5, Hq5.
  split; [apply fresh_pk_None|]. split; [reflexivity|].
  split; [exact Hou|]. split; [exact Hok|]. split; [exact Hopm|]. split; [exact Hoc|].
  split; [exact Hlen|]. split; [exact Hnd|].
  split.
  { intros pk Hin. destruct (Hnew pk Hin) as [Hnone Hrow].
    rewrite Hsp4, Hsp3 in Hnone. auto. }
  split.
  { intros pk row Hrow. apply Hold. rewrite Hsp4, Hsp3. exact Hrow. }
  split; [apply fresh_pk_None|]. split; [reflexivity|]. split; [reflexivity|].
  split; [reflexivity|]. split; [exact Hd|].
  split.
  { intros Htruthy. unfold payment_total.
    rewrite (cart_total_ext s (set_orders _ s5) Hse5 Hos5), Htruthy. reflexivity. }
  split; [reflexivity|]. split; [reflexivity|]. split; [reflexivity|].
  intros k p Hk.
  cbn [payments orders set_session store_payment set_payments set_next_token set_orders] in Hk |- *.
  rewrite Hp5 in Hk.
  apply lookup_insert_Some in Hk as [[<- <-]|[Hne Hk]].
  - cbn. rewrite lookup_insert_eq. eauto.
  - destruct (Hfk k p Hk) as [o Ho]. exists o.
    rewrite lookup_insert_ne; [exact Ho|]. intros Heq. rewrite <- Heq, fresh_pk_None in Ho.
    discriminate.
Qed.

(** X11.  A checkout submission that meets the preconditions goes through:
    the view answers with the redirect to the page of a new payment.  The
    order it stores is the user's, of social profiles, with the payment
    method and the coupon of the form; its items are new profiles, one
    for each product of the cart whatever the quantity of its line, all
    awaiting the payment; the profiles there before are untouched; the
    payment is the order's, waiting, and when the cart total is not zero
    its total is that total, discounted by the coupon of the form. *)
Theorem cart_checkout_goes_through request u form s :
  can_check_out request u form s →
  ∃ order_pk order payment_pk payment s1 d,
    cart_checkout request s
      = Ok (Redirect (PaymentOverviewUrl payment_pk (p_token payment))) s1
    ∧ orders s !! order_pk = None
    ∧ orders s1 = <[order_pk := order]> (orders s)
    ∧ o_user order = u
    ∧ o_service_type order = SOCIAL_PROFILES
    ∧ o_payment_method order = f_payment_method form
    ∧ o_coupon_code order = f_coupon_code form
    ∧ length (o_items order) = length (cart_products s)
    ∧ NoDup (o_items order)
    ∧ (∀ pk, pk ∈ o_items order →
         social_profiles s !! pk = None
         ∧ ∃ row, social_profiles s1 !! pk = Some row
                  ∧ sp_status row = REQUESTED_CREATION_UNPAID ∧ sp_user row = u)
    ∧ (∀ pk row, social_profiles s !! pk = Some row → social_profiles s1 !! pk = Some row)
    ∧ payments s !! payment_pk = None
    ∧ payments s1 = <[payment_pk := payment]> (payments s)
    ∧ p_order payment = order_pk
    ∧ p_status payment = "waiting"
    ∧ discount order s = Ok d s
    ∧ (Dec.truthy (cart_total s) = true →
       p_total payment =
         if PyFloat.truthy d
         then (Dec.to_float (cart_total s) * (1 - d / 100))%float
         else Dec.to_float (cart_total s))
    ∧ blocked_on s1 (PaymentOverviewUrl payment_pk (p_token payment))
    ∧ CART (session s1) = CART (session s)
    ∧ work_queue s1 = work_queue s
    ∧ payments_have_orders s1.
Proof.
  intros Hcan.
  destruct (cart_checkout_run request u form s Hcan)
    as (order_pk & order & payment_pk & payment & s1 & d & Hrun & Hstored).
  exists order_pk, order, payment_pk, payment, s1, d. exact (conj Hrun Hstored).
Qed.


Lemma shopping_can_check_out :
  can_check_out (example.post (Some 1)) 1
    {| f_payment_method := 1; f_coupon_code := Some 1 |} shopping.
Proof.
  split; try reflexivity.
  - vm_compute. eauto.
  - vm_compute. eauto.
  - right. vm_compute. eauto.
  - vm_compute. eauto.
  - vm_compute. eauto.
  - intros k p Hk. vm_compute in Hk. discriminate.
Defined.

Lemma cart_checkout_goes_through_witness :
  ∃ order_pk order payment_pk payment s1,
    cart_checkout (example.post (Some 1)) shopping
      = Ok (Redirect (PaymentOverviewUrl payment_pk (p_token payment))) s1
    ∧ orders s1 !! order_pk = Some order
    ∧ o_user order = 1
    ∧ length (o_items order) = 1%nat
    ∧ payments s1 !! payment_pk = Some payment
    ∧ p_order payment = order_pk
    ∧ p_status payment = "waiting".
Proof.
  destruct (cart_checkout_goes_through (example.post (Some 1)) 1
              {| f_payment_method := 1; f_coupon_code := Some 1 |} shopping
              shopping_can_check_out)
    as (order_pk & order & payment_pk & payment & s1 & d & Hrun & Hnew & Horders & Hu & _
        & _ & _ & Hlen & _ & _ & _ & Hfree & Hpayments & Horder & Hstatus & _).
  exists order_pk, order, payment_pk, payment, s1.
  split; [exact Hrun|]. split; [rewrite Horders; apply lookup_insert_eq|].
  split; [exact Hu|]. split; [exact Hlen|].
  split; [rewrite Hpayments; apply lookup_insert_eq|]. split; [exact Horder | exact Hstatus].
Defined.

(** X12.  The failures of a checkout submission on a session that is
    not blocked, for a form that was valid (its payment method and its
    coupon exist) and payments that all belong to orders.  Whatever is
    raised, no order, payment or profile has been stored, no mailbox has
    been given away and the session is as it was.  The exception is one
    of three.  With the profile details missing from the session, or the
    user search of the first product gone, nothing at all has been
    written.  With no mailbox free, one write has been made before the
    failure and stays: the user search of the first product of the cart
    has been saved with the user, when it had none. *)
Theorem cart_checkout_failure_effect request u form s e s' :
  user request = Some u →
  POST request = ValidPost form →
  is_blocked_in s = false →
  is_Some (payment_methods s !! f_payment_method form) →
  match f_coupon_code form with
  | None => True
  | Some pk => is_Some (coupon_codes s !! pk)
  end →
  payments_have_orders s →
  cart_checkout request s = Raise e s' →
  orders s' = orders s
  ∧ payments s' = payments s
  ∧ social_profiles s' = social_profiles s
  ∧ gmail_accounts s' = gmail_accounts s
  ∧ session s' = session s
  ∧ (e = KeyError ∧ PROFILE_DATA (session s) = None ∧ s' = s
     ∨ e = DoesNotExist
       ∧ (∃ first, head (cart_products s) = Some first
                   ∧ user_searches s !! os_user_search first = None)
       ∧ s' = s
     ∨ e = AttributeError ∧ DEBUG s = false ∧ free_mailbox s = None
       ∧ match head (cart_products s) with
         | None => user_searches s' = user_searches s
         | Some first =>
             ∃ user_search,
               user_searches s !! os_user_search first = Some user_search
               ∧ user_searches s' =
                   match us_user user_search with
                   | Some _ => user_searches s
                   | None =>
                       <[os_user_search first := {| us_user := Some u |}]>
                         (user_searches s)
                   end
         end).
Proof.
  intros Hu Hpost Hfree Hpm Hcoupon Hfk Hrun.
  destruct (PROFILE_DATA (session s)) as [data|] eqn:Hdata.
  2:{ unfold cart_checkout, login_required in Hrun. rewrite Hu, Hpost in Hrun.
      erewrite bind_Ok in Hrun by reflexivity. cbv beta zeta in Hrun.
      fold (is_blocked_in s) in Hrun. rewrite Hfree, Hdata in Hrun.
      injection Hrun as <- <-. repeat split. left. auto. }
  assert (Hsearch :
    (match cart_products s with
     | [] => True
     | first :: _ => is_Some (user_searches s !! os_user_search first)
     end)
    ∨ ∃ first, head (cart_products s) = Some first
               ∧ user_searches s !! os_user_search first = None).
  { destruct (cart_products s) as [|first rest]; [left; exact I|].
    destruct (user_searches s !! os_user_search first) eqn:Hus; [left; eauto|].
    right. exists first. auto. }
  destruct Hsearch as [Hsearch|(first & Hhead & Hnone)].
  2:{ unfold cart_checkout, login_required in Hrun. rewrite Hu, Hpost in Hrun.
      erewrite bind_Ok in Hrun by reflexivity. cbv beta zeta in Hrun.
      fold (is_blocked_in s) in Hrun. rewrite Hfree, Hdata in Hrun.
      erewrite bind_Ok in Hrun by reflexivity. cbv beta in Hrun.
      destruct (cart_products s) as [|first' rest]; [discriminate|].
      injection Hhead as ->. rewrite Hnone in Hrun.
      injection Hrun as <- <-. repeat split. right. left.
      split; [reflexivity|]. split; [|reflexivity]. exists first. auto. }
  assert (Hmail : (DEBUG s = true ∨ is_Some (free_mailbox s))
                  ∨ (DEBUG s = false ∧ free_mailbox s = None)).
  { destruct (DEBUG s); [left; left; reflexivity|].
    destruct (free_mailbox s); [left; right; eauto | right; auto]. }
  destruct Hmail as [Hmail|[Hdebug Hnone]].
  { destruct (cart_checkout_run request u form s) as (? & ? & ? & ? & ? & ? & Hok & _).
    - split; try assumption. rewrite Hdata. eauto.
    - rewrite Hok in Hrun. discriminate. }
  unfold cart_checkout, login_required in Hrun. rewrite Hu, Hpost in Hrun.
  erewrite bind_Ok in Hrun by reflexivity. cbv beta zeta in Hrun.
  fold (is_blocked_in s) in Hrun. rewrite Hfree, Hdata in Hrun.
  erewrite bind_Ok in Hrun by reflexivity. cbv beta in Hrun.
  assert (Hstage1 : ∃ s3,
    (match cart_products s with
     | [] => mret ()
     | first :: _ =>
         orRaise DoesNotExist (user_searches s !! os_user_search first)
         ≫= λ user_search : UserSearch,
              match us_user user_search with
              | Some _ => mret ()
              | None =>
                  modify (set_user_searches
                            <[os_user_search first := {| us_user := Some u |}]>)
              end
     end) s = Ok tt s3
    ∧ same_ledger s s3 ∧ social_profiles s3 = social_profiles s
    ∧ DEBUG s3 = DEBUG s ∧ gmail_accounts s3 = gmail_accounts s
    ∧ match head (cart_products s) with
      | None => user_searches s3 = user_searches s
      | Some first =>
          ∃ user_search,
            user_searches s !! os_user_search first = Some user_search
            ∧ user_searches s3 =
                match us_user user_search with
                | Some _ => user_searches s
                | None =>
                    <[os_user_search first := {| us_user := Some u |}]>
                      (user_searches s)
                end
      end).
  { destruct (cart_products s) as [|first rest].
    - exists s. repeat split.
    - destruct Hsearch as [us Hus]. rewrite Hus. unfold_M. cbn [head].
      destruct (us_user us) eqn:Hclaimed; eexists; (split; [reflexivity|]);
        (do 4 (split; [repeat split|])); exists us; rewrite Hclaimed; auto. }
  destruct Hstage1 as (s3 & Hrun1 & Hl3 & Hsp3 & Hdebug3 & Hgmail3 & Hsearches).
  rewrite (bind_Ok _ _ _ _ _ Hrun1) in Hrun.
  assert (Hraise : assign_email u s3 = Raise AttributeError s3).
  { unfold assign_email. unfold_M. rewrite Hdebug3, Hdebug.
    unfold free_mailbox in Hnone |- *. rewrite Hgmail3, Hnone. reflexivity. }
  rewrite (bind_Raise _ _ _ _ _ Hraise) in Hrun. injection Hrun as <- <-.
  destruct Hl3 as (Ho & Hp & Hse & _).
  split; [exact Ho|]. split; [exact Hp|]. split; [exact Hsp3|]. split; [exact Hgmail3|].
  split; [exact Hse|]. right. right. auto.
Qed.

(** The checkout of the example with no mailbox in the table: the
    failure leaves the user search taken by the user. *)
Lemma cart_checkout_failure_effect_witness :
  let s := set_gmail_accounts (λ _, ∅) shopping in
  let out := cart_checkout (example.post None) s in
  out = Raise AttributeError (state_of out)
  ∧ orders (state_of out) = orders s
  ∧ payments (state_of out) = payments s
  ∧ social_profiles (state_of out) = social_profiles s
  ∧ session (state_of out) = session s
  ∧ user_searches s !! 1 = Some {| us_user := None |}
  ∧ user_searches (state_of out) !! 1 = Some {| us_user := Some 1 |}.
Proof.
  cbv zeta.
  set (s := set_gmail_accounts _ shopping).
  assert (Hrun : cart_checkout (example.post None) s
                 = Raise AttributeError (state_of (cart_checkout (example.post None) s)))
    by (vm_compute; reflexivity).
  destruct (cart_checkout_failure_effect (example.post None) 1
              {| f_payment_method := 1; f_coupon_code := None |} s AttributeError
              (state_of (cart_checkout (example.post None) s)))
    as (Ho & Hp & Hsp & _ & Hse & _).
  - reflexivity.
  - reflexivity.
  - reflexivity.
  - vm_compute. eauto.
  - exact I.
  - intros k p Hk. vm_compute in Hk. discriminate.
  - exact Hrun.
  - split; [exact Hrun|]. split; [exact Ho|]. split; [exact Hp|].
    split; [exact Hsp|]. split; [exact Hse|]. split; vm_compute; reflexivity.
Defined.

End cart_checkout_success.

(** ** The payment pages *)

Section payment_pages.

Import models views.

Lemma get_payment_or_404_owned pid tok u s payment order :
  payments s !! pid = Some payment →
  orders s !! p_order payment = Some order →
  p_token payment = tok →
  o_user order = u →
  get_payment_or_404 pid tok u s = Ok payment s.
Proof.
  intros Hp Ho Htok Hu. unfold get_payment_or_404. step. rewrite Hp, Ho.
  rewrite (bool_decide_eq_true_2 _ (conj Htok Hu)). reflexivity.
Qed.

Lemma get_payment_or_404_cases pid tok u s :
  (∃ payment order,
     payments s !! pid = Some payment ∧ orders s !! p_order payment = Some order
     ∧ p_token payment = tok ∧ o_user order = u
     ∧ get_payment_or_404 pid tok u s = Ok payment s)
  ∨ get_payment_or_404 pid tok u s = Raise Http404 s.
Proof.
  unfold get_payment_or_404. step.
  destruct (payments s !! pid) as [payment|] eqn:Hp; [|right; reflexivity].
  destruct (orders s !! p_order payment) as [order|] eqn:Ho; [|right; reflexivity].
  destruct (bool_decide_reflect (p_token payment = tok ∧ o_user order = u)) as [[Htok Hu]|Hno];
    [|right; reflexivity].
  left. exists payment, order. auto.
Qed.

(** The confirmation of the payment of an order of social profiles. *)
Lemma payment_success_confirmed request u pid tok s payment order :
  user request = Some u →
  payments s !! pid = Some payment →
  orders s !! p_order payment = Some order →
  p_token payment = tok →
  o_user order = u →
  o_service_type order = SOCIAL_PROFILES →
  ∃ s', payment_success request pid tok (Captured "confirmed") s
          = Ok (Redirect (OrderOverviewUrl (p_order payment))) s'
        ∧ payments s' = <[pid := set_status "confirmed" payment]> (payments s)
        ∧ orders s' = orders s
        ∧ social_profiles s' =
            update_profiles (unpaid_ids s order) REQUESTED_CREATION_PAID (social_profiles s)
        ∧ work_queue s' = work_queue s ++ unpaid_ids s order
        ∧ CART (session s') = []
        ∧ CHECKOUT_INFO (session s') = Some empty_info
        ∧ u ∈ made_an_order s'
        ∧ flash s' = flash s ++ [(INFO, "Payment have been successfully processed!")].
Proof.
  intros Hu Hp Ho Htok Huser Hkind.
  unfold payment_success, login_required. rewrite Hu.
  rewrite (bind_Ok _ _ _ _ _ (get_payment_or_404_owned pid tok u s payment order Hp Ho Htok Huser)).
  unfold capture. step.
  cbn [orders set_payments p_order set_status p_status]. rewrite Ho, Hkind.
  change (bool_decide (SOCIAL_PROFILES = SOCIAL_PROFILES)) with true.
  change (bool_decide ("confirmed" = "confirmed")) with true.
  cbn [andb]. cbv beta iota.
  rewrite for_each_run_worker_eq.
  unfold unpaid_ids, profile_items.
  cbn [social_profiles set_session set_payments set_social_profiles set_work_queue
       work_queue made_an_order].
  match goal with |- context [bool_decide (u ∈ ?m)] =>
    destruct (bool_decide_reflect (u ∈ m)) as [Hin|Hnin] end.
  - eexists. split; [reflexivity|]. cbn. repeat split. exact Hin.
  - eexists. split; [reflexivity|]. cbn. repeat split. set_solver.
Qed.


Lemma unpaid_ids_all s order u :
  NoDup (o_items order) →
  (∀ pk, pk ∈ o_items order →
     ∃ row, social_profiles s !! pk = Some row
            ∧ sp_status row = REQUESTED_CREATION_UNPAID ∧ sp_user row = u) →
  unpaid_ids s order ≡ₚ o_items order.
Proof.
  intros Hnodup Hrows. apply NoDup_Permutation; [apply NoDup_unpaid_ids | exact Hnodup|].
  intros pk. rewrite elem_of_unpaid_ids. split; [tauto|].
  intros Hin. split; [exact Hin|]. destruct (Hrows pk Hin) as (row & Hrow & Hst & _). eauto.
Qed.

Lemma empty_info_unblocked s :
  CHECKOUT_INFO (session s) = Some empty_info → is_blocked_in s = false.
Proof. unfold is_blocked_in. intros ->. reflexivity. Qed.

(** X13.  A checkout and the confirmation of its payment.  When a submission
    goes through and the payment it redirects to is then confirmed for
    the same user, every profile of the new order is submitted to the
    workers, once, and awaits its creation as paid; the payment is
    confirmed, the cart is empty, the checkout of the session is open
    again and the user is marked as having made an order. *)
Theorem checkout_then_confirm request request' u form s :
  can_check_out request u form s →
  user request' = Some u →
  ∃ pid tok s1 order_pk order s2,
    cart_checkout request s = Ok (Redirect (PaymentOverviewUrl pid tok)) s1
    ∧ payment_success request' pid tok (Captured "confirmed") s1
        = Ok (Redirect (OrderOverviewUrl order_pk)) s2
    ∧ orders s2 !! order_pk = Some order
    ∧ work_queue s2 ≡ₚ work_queue s ++ o_items order
    ∧ (∀ pk, pk ∈ o_items order →
         ∃ row, social_profiles s2 !! pk = Some row
                ∧ sp_status row = REQUESTED_CREATION_PAID)
    ∧ p_status <$> payments s2 !! pid = Some "confirmed"
    ∧ CART (session s2) = []
    ∧ is_blocked_in s2 = false
    ∧ u ∈ made_an_order s2.
Proof.
  intros Hcan Hu'.
  destruct (cart_checkout_run request u form s Hcan)
    as (order_pk & order & pid & payment & s1 & d & Hrun & _ & Horders & Hu & Hkind
        & _ & _ & _ & Hnodup & Hnew & _ & _ & Hpayments & Horder & _ & _ & _ & _ & _
        & Hqueue & _).
  assert (Hp1 : payments s1 !! pid = Some payment)
    by (rewrite Hpayments; apply lookup_insert_eq).
  assert (Ho1 : orders s1 !! p_order payment = Some order)
    by (rewrite Horder, Horders; apply lookup_insert_eq).
  destruct (payment_success_confirmed request' u pid (p_token payment) s1 payment order
              Hu' Hp1 Ho1 eq_refl Hu Hkind)
    as (s2 & Hconfirm & Hp2 & Ho2 & Hsp2 & Hq2 & Hcart & Hinfo & Hmade & _).
  assert (Hrows : ∀ pk, pk ∈ o_items order →
            ∃ row, social_profiles s1 !! pk = Some row
                   ∧ sp_status row = REQUESTED_CREATION_UNPAID ∧ sp_user row = u)
    by (intros pk Hin; exact (proj2 (Hnew pk Hin))).
  exists pid, (p_token payment), s1, order_pk, order, s2.
  split; [exact Hrun|]. split; [rewrite <- Horder; exact Hconfirm|].
  split; [rewrite Ho2, <- Horder; exact Ho1|].
  split; [rewrite Hq2, Hqueue, (unpaid_ids_all s1 order u Hnodup Hrows); reflexivity|].
  split.
  { intros pk Hin. destruct (Hrows pk Hin) as (row & Hrow & Hst & _).
    exists (set_profile_status REQUESTED_CREATION_PAID row).
    split; [|reflexivity].
    rewrite Hsp2, lookup_update_profiles, decide_True, Hrow; [reflexivity|].
    apply elem_of_unpaid_ids. eauto. }
  split; [rewrite Hp2, lookup_insert_eq; reflexivity|].
  split; [exact Hcart|]. split; [apply empty_info_unblocked, Hinfo | exact Hmade].
Qed.

Lemma checkout_then_confirm_witness :
  ∃ pid tok s1 order_pk order s2,
    cart_checkout (example.post (Some 1)) shopping
      = Ok (Redirect (PaymentOverviewUrl pid tok)) s1
    ∧ payment_success example.request pid tok (Captured "confirmed") s1
        = Ok (Redirect (OrderOverviewUrl order_pk)) s2
    ∧ orders s2 !! order_pk = Some order
    ∧ work_queue s2 ≡ₚ o_items order
    ∧ CART (session s2) = [].
Proof.
  destruct (checkout_then_confirm (example.post (Some 1)) example.request 1
              {| f_payment_method := 1; f_coupon_code := Some 1 |} shopping
              shopping_can_check_out eq_refl)
    as (pid & tok & s1 & order_pk & order & s2 & Hrun & Hconfirm & Horder & Hqueue & _ & _
        & Hcart & _).
  exists pid, tok, s1, order_pk, order, s2. auto.
Defined.

Lemma payment_failure_run request u pid tok s payment order :
  user request = Some u →
  payments s !! pid = Some payment →
  orders s !! p_order payment = Some order →
  p_token payment = tok →
  o_user order = u →
  payment_failure request pid tok s
    = Ok (Redirect (OrderOverviewUrl (p_order payment)))
         (set_session (set_CHECKOUT_INFO (Some empty_info))
            (set_flash (λ l, l ++ [(WARNING, "Payment failed!")]) s)).
Proof.
  intros Hu Hp Ho Htok Huser. unfold payment_failure, login_required. rewrite Hu.
  rewrite (bind_Ok _ _ _ _ _ (get_payment_or_404_owned pid tok u s payment order Hp Ho Htok Huser)).
  reflexivity.
Qed.

(** X14.  A checkout and the failure page of its payment.  When a submission
    goes through and the failure page of its payment is then visited by
    the same user, the checkout of the session is open again with the
    cart as it was; the order stays stored with its payment still
    waiting and its profiles still unpaid, and nothing is submitted to
    the workers. *)
Theorem checkout_then_failure request request' u form s :
  can_check_out request u form s →
  user request' = Some u →
  ∃ pid tok s1 order_pk order payment s2,
    cart_checkout request s = Ok (Redirect (PaymentOverviewUrl pid tok)) s1
    ∧ payment_failure request' pid tok s1 = Ok (Redirect (OrderOverviewUrl order_pk)) s2
    ∧ is_blocked_in s1 = true
    ∧ is_blocked_in s2 = false
    ∧ CART (session s2) = CART (session s)
    ∧ orders s2 !! order_pk = Some order
    ∧ payments s2 !! pid = Some payment
    ∧ p_order payment = order_pk
    ∧ p_status payment = "waiting"
    ∧ (∀ pk, pk ∈ o_items order →
         ∃ row, social_profiles s2 !! pk = Some row
                ∧ sp_status row = REQUESTED_CREATION_UNPAID)
    ∧ work_queue s2 = work_queue s.
Proof.
  intros Hcan Hu'.
  destruct (cart_checkout_run request u form s Hcan)
    as (order_pk & order & pid & payment & s1 & d & Hrun & _ & Horders & Hu & Hkind
        & _ & _ & _ & Hnodup & Hnew & _ & _ & Hpayments & Horder & Hstatus & _ & _ & Hblocked
        & Hcart & Hqueue & _).
  assert (Hp1 : payments s1 !! pid = Some payment)
    by (rewrite Hpayments; apply lookup_insert_eq).
  assert (Ho1 : orders s1 !! p_order payment = Some order)
    by (rewrite Horder, Horders; apply lookup_insert_eq).
  pose proof (payment_failure_run request' u pid (p_token payment) s1 payment order
                Hu' Hp1 Ho1 eq_refl Hu) as Hfail.
  eexists pid, (p_token payment), s1, order_pk, order, payment, _.
  split; [exact Hrun|]. split; [rewrite <- Horder; exact Hfail|].
  split; [unfold is_blocked_in; rewrite Hblocked; reflexivity|].
  split; [reflexivity|]. split; [exact Hcart|].
  split; [rewrite <- Horder; exact Ho1|]. split; [exact Hp1|].
  split; [exact Horder|]. split; [exact Hstatus|].
  split; [|exact Hqueue].
  intros pk Hin. destruct (Hnew pk Hin) as (_ & row & Hrow & Hst & _). eauto.
Qed.

Lemma checkout_then_failure_witness :
  ∃ pid tok s1 order_pk s2,
    cart_checkout (example.post (Some 1)) shopping
      = Ok (Redirect (PaymentOverviewUrl pid tok)) s1
    ∧ payment_failure example.request pid tok s1
        = Ok (Redirect (OrderOverviewUrl order_pk)) s2
    ∧ is_blocked_in s2 = false
    ∧ CART (session s2) = CART (session shopping).
Proof.
  destruct (checkout_then_failure (example.post (Some 1)) example.request 1
              {| f_payment_method := 1; f_coupon_code := Some 1 |} shopping
              shopping_can_check_out eq_refl)
    as (pid & tok & s1 & order_pk & order & payment & s2 & Hrun & Hfail & _ & Hfree & Hcart & _).
  exists pid, tok, s1, order_pk, s2. auto.
Defined.

(** X15.  The pages after a payment are for the owner of its order only: for
    a signed-in user, when no payment has this id and token and an order
    of this user, [payment_success] and [payment_failure] raise the 404
    and change nothing; the gateway is not asked to capture. *)
Theorem payment_pages_guarded request u pid tok gateway s :
  user request = Some u →
  (∀ payment order,
     payments s !! pid = Some payment → orders s !! p_order payment = Some order →
     ¬ (p_token payment = tok ∧ o_user order = u)) →
  payment_success request pid tok gateway s = Raise Http404 s
  ∧ payment_failure request pid tok s = Raise Http404 s.
Proof.
  intros Hu Hnone.
  assert (H404 : get_payment_or_404 pid tok u s = Raise Http404 s).
  { destruct (get_payment_or_404_cases pid tok u s)
      as [(payment & order & Hp & Ho & Htok & Huser & _)|H]; [|exact H].
    exfalso. exact (Hnone payment order Hp Ho (conj Htok Huser)). }
  unfold payment_success, payment_failure, login_required. rewrite Hu.
  rewrite !(bind_Raise _ _ _ _ _ H404). split; reflexivity.
Qed.

Lemma payment_pages_guarded_witness :
  let other := {| user := Some 2; POST := NoPost; is_ajax := false |} in
  payment_success other 1 999 (Captured "confirmed") checked_out = Raise Http404 checked_out
  ∧ payment_failure other 1 999 checked_out = Raise Http404 checked_out
  ∧ payment_success example.request 1 1000 (Captured "confirmed") checked_out
    = Raise Http404 checked_out.
Proof.
  cbv zeta.
  assert (Hp : payments checked_out !! 1
               = Some {| p_variant := "default"; p_order := 1; p_total := 20%float;
                         p_currency := "USD"; p_status := "waiting"; p_token := 999 |})
    by (vm_compute; reflexivity).
  assert (Ho : orders checked_out !! 1
               = Some (example.order SOCIAL_PROFILES [1; 2] None))
    by (vm_compute; reflexivity).
  split; [|split].
  - apply (payment_pages_guarded _ 2); [reflexivity|].
    intros payment order Hp' Ho' [_ Huser]. rewrite Hp in Hp'. injection Hp' as <-.
    cbn [p_order] in Ho'. rewrite Ho in Ho'. injection Ho' as <-. discriminate Huser.
  - apply (payment_pages_guarded _ 2 1 999 CaptureRaises); [reflexivity|].
    intros payment order Hp' Ho' [_ Huser]. rewrite Hp in Hp'. injection Hp' as <-.
    cbn [p_order] in Ho'. rewrite Ho in Ho'. injection Ho' as <-. discriminate Huser.
  - apply (payment_pages_guarded _ 1); [reflexivity|].
    intros payment order Hp' Ho' [Htok _]. rewrite Hp in Hp'. injection Hp' as <-.
    discriminate Htok.
Defined.

(** X16.  The confirmation of the payment of a reputation case order: the
    cases of the order that were open and unpaid become open and paid,
    every other case is as it was; unlike for social profiles, the
    session (cart and checkout) is not touched, nothing is submitted to
    the workers and the user is not marked as having made an order. *)
Theorem payment_success_reputation_case request u pid tok s payment order :
  user request = Some u →
  payments s !! pid = Some payment →
  orders s !! p_order payment = Some order →
  p_token payment = tok →
  o_user order = u →
  o_service_type order = REPUTATION_CASE →
  ∃ s', payment_success request pid tok (Captured "confirmed") s
          = Ok (Redirect (OrderOverviewUrl (p_order payment))) s'
        ∧ (∀ pk c, reputation_cases s !! pk = Some c →
             reputation_cases s' !! pk =
               Some (if bool_decide (pk ∈ o_items order ∧ rc_status c = OPEN_UNPAID)
                     then set_case_status OPEN_PAID c else c))
        ∧ (∀ pk, reputation_cases s !! pk = None → reputation_cases s' !! pk = None)
        ∧ payments s' = <[pid := set_status "confirmed" payment]> (payments s)
        ∧ session s' = session s
        ∧ social_profiles s' = social_profiles s
        ∧ work_queue s' = work_queue s
        ∧ made_an_order s' = made_an_order s
        ∧ flash s' = flash s ++ [(INFO, "Payment have been successfully processed!")].
Proof.
  intros Hu Hp Ho Htok Huser Hkind.
  unfold payment_success, login_required. rewrite Hu.
  rewrite (bind_Ok _ _ _ _ _ (get_payment_or_404_owned pid tok u s payment order Hp Ho Htok Huser)).
  unfold capture. step.
  cbn [orders set_payments p_order set_status p_status]. rewrite Ho, Hkind.
  change (bool_decide (REPUTATION_CASE = SOCIAL_PROFILES)) with false.
  change (bool_decide (REPUTATION_CASE = REPUTATION_CASE)) with true.
  change (bool_decide ("confirmed" = "confirmed")) with true.
  cbn [andb]. cbv beta iota.
  eexists. split; [reflexivity|].
  cbn [reputation_cases set_reputation_cases set_flash set_payments payments session
       social_profiles work_queue made_an_order flash].
  split.
  { intros pk c Hc. rewrite lookup_update_cases.
    change (case_items (set_payments _ s) order) with (case_items s order).
    destruct (bool_decide_reflect (pk ∈ o_items order ∧ rc_status c = OPEN_UNPAID))
      as [[Hin Hst]|Hno].
    - rewrite decide_True, Hc; [reflexivity|]. apply elem_of_unpaid_cases. eauto.
    - rewrite decide_False; [exact Hc|]. intros Hin.
      apply elem_of_unpaid_cases in Hin as (Hin & c' & Hc' & Hst).
      apply Hno. split; [exact Hin|]. congruence. }
  split.
  { intros pk Hc. rewrite lookup_update_cases, Hc. destruct (decide _); reflexivity. }
  repeat split.
Qed.

Lemma payment_success_reputation_case_witness :
  let s := set_payments <[1 := {| p_variant := "default"; p_order := 1; p_total := 30%float;
                                  p_currency := "USD"; p_status := "waiting";
                                  p_token := 999 |}]>
             (example.with_case (example.dec 30 0) None) in
  ∃ s', payment_success example.request 1 999 (Captured "confirmed") s
          = Ok (Redirect (OrderOverviewUrl 1)) s'
        ∧ rc_status <$> reputation_cases s' !! 1 = Some OPEN_PAID
        ∧ session s' = session s
        ∧ work_queue s' = [].
Proof.
  cbv zeta.
  set (payment := {| p_variant := "default"; p_order := 1; p_total := 30%float;
                     p_currency := "USD"; p_status := "waiting"; p_token := 999 |}).
  set (s := set_payments _ _).
  destruct (payment_success_reputation_case example.request 1 1 999 s payment
              (example.order REPUTATION_CASE [1] None))
    as (s' & Hrun & Hcases & _ & _ & Hsession & _ & Hqueue & _);
    [reflexivity | vm_compute; reflexivity | vm_compute; reflexivity | reflexivity
    | reflexivity | reflexivity |].
  exists s'. split; [exact Hrun|].
  split; [|split; [exact Hsession | exact Hqueue]].
  rewrite (Hcases 1 {| rc_price := example.dec 30 0; rc_status := OPEN_UNPAID |});
    [|vm_compute; reflexivity].
  rewrite bool_decide_eq_true_2; [reflexivity|].
  split; [apply list_elem_of_here | reflexivity].
Defined.

(** X17.  The payment page is answered only to a user who holds the permission
    to view the order of the payment, and only for the token of the
    payment, whatever the form of the payments library does. *)
Theorem payment_details_guarded get_form request pid tok s r s' :
  payment_details get_form request pid tok s = Ok r s' →
  ∃ u payment,
    user request = Some u
    ∧ payments s !! pid = Some payment
    ∧ p_token payment = tok
    ∧ (u, p_order payment) ∈ view_order s.
Proof.
  unfold payment_details. intros Hrun.
  apply bind_Ok_inv in Hrun as (s0 & s1 & Hget & Hrun). injection Hget as <- <-.
  apply bind_Ok_inv in Hrun as (payment & s1 & Hp & Hrun).
  destruct (payments s !! pid) as [p|] eqn:Hpay; [|discriminate].
  injection Hp as <- <-.
  apply bind_Ok_inv in Hrun as ([] & s1 & Htok & Hrun).
  destruct (bool_decide_reflect (p_token p = tok)) as [Heq|]; [|discriminate].
  injection Htok as <-.
  apply bind_Ok_inv in Hrun as ([] & s2 & Hperm & _).
  destruct (user request) as [u|]; [|discriminate].
  destruct (bool_decide_reflect ((u, p_order p) ∈ view_order s)) as [Hin|]; [|discriminate].
  exists u, p. auto.
Qed.

Lemma payment_details_guarded_witness :
  ∃ payment,
    payment_details (λ _ _, mret None) example.request 1 999 checked_out
      = Ok (PaymentPage payment) checked_out
    ∧ payments checked_out !! 1 = Some payment
    ∧ (1, p_order payment) ∈ view_order checked_out.
Proof.
  assert (Hrun : payment_details (λ _ _, mret None) example.request 1 999 checked_out
                 = Ok (PaymentPage {| p_variant := "default"; p_order := 1;
                                      p_total := 20%float; p_currency := "USD";
                                      p_status := "waiting"; p_token := 999 |})
                      checked_out)
    by (vm_compute; reflexivity).
  destruct (payment_details_guarded _ _ _ _ _ _ _ Hrun)
    as (u & payment & Hu & Hp & _ & Hperm).
  injection Hu as <-.
  assert (Hp' := Hp). vm_compute in Hp'. injection Hp' as <-.
  eexists. split; [exact Hrun|]. split; [exact Hp | exact Hperm].
Defined.

End payment_pages.

(** ** The order pages *)

Section order_pages.

Import models views.

(** X18.  The progress endpoint writes nothing, whatever it answers, and it
    answers with the progress only to an ajax request of a signed-in
    user who holds the permission to view the order, for an order of
    social profiles; the body is then what the progress property of the
    order gives. *)
Theorem order_progress_view_guarded request pk s :
  state_of (views.order_progress request pk s) = s
  ∧ ∀ body s', views.order_progress request pk s = Ok (JsonResponse body) s' →
      is_ajax request = true
      ∧ ∃ u order,
          user request = Some u
          ∧ orders s !! pk = Some order
          ∧ o_service_type order = SOCIAL_PROFILES
          ∧ (u, pk) ∈ view_order s
          ∧ models.order_progress order s = Ok (Some body) s.
Proof.
  unfold views.order_progress, login_required.
  destruct (user request) as [u|]; [|split; [reflexivity | discriminate]].
  destruct (is_ajax request); [|split; [reflexivity | discriminate]].
  cbn [negb]. step.
  destruct (orders s !! pk) as [order|] eqn:Ho; [|split; [reflexivity | discriminate]].
  destruct (bool_decide_reflect (o_service_type order = SOCIAL_PROFILES)) as [Hkind|];
    [|split; [reflexivity | discriminate]].
  destruct (bool_decide_reflect ((u, pk) ∈ view_order s)) as [Hperm|];
    [|split; [reflexivity | discriminate]].
  cbn [negb]. pose proof (order_progress_state order s) as Hs.
  destruct (models.order_progress order s) as [[body|] s1|e s1] eqn:Hprogress;
    cbn in Hs; subst s1; (split; [reflexivity|]); try discriminate.
  intros body' s' [= <- <-]. split; [reflexivity|]. exists u, order. auto.
Qed.

Lemma order_progress_view_guarded_witness :
  let s := example.with_profiles [CREATED; REQUESTED_CREATION_PAID] None in
  views.order_progress example.request 1 s
    = Ok (JsonResponse {| created := 1; total := 2; progress := "50%" |}) s
  ∧ models.order_progress (example.order SOCIAL_PROFILES [1; 2] None) s
    = Ok (Some {| created := 1; total := 2; progress := "50%" |}) s.
Proof.
  cbv zeta.
  assert (Hrun : views.order_progress example.request 1
                   (example.with_profiles [CREATED; REQUESTED_CREATION_PAID] None)
                 = Ok (JsonResponse {| created := 1; total := 2; progress := "50%" |})
                      (example.with_profiles [CREATED; REQUESTED_CREATION_PAID] None))
    by (vm_compute; reflexivity).
  split; [exact Hrun|].
  destruct (order_progress_view_guarded example.request 1
              (example.with_profiles [CREATED; REQUESTED_CREATION_PAID] None)) as [_ Hbody].
  destruct (Hbody _ _ Hrun) as (_ & u & order & _ & Ho & _ & _ & Hprogress).
  vm_compute in Ho. injection Ho as <-. exact Hprogress.
Defined.

Lemma payment_exists_insert s s' k p :
  payments s' = <[k := p]> (payments s) → payment_exists s' (p_order p) = true.
Proof.
  intros Hp. unfold payment_exists. apply bool_decide_eq_true, Exists_exists.
  exists (k, p). split; [|reflexivity].
  apply elem_of_map_to_list. rewrite Hp. apply lookup_insert_eq.
Qed.

(** X19.  The edit page of an order pays once.  For an order without a
    payment, a valid submission by a user who may view it saves the
    payment method and the coupon of the form on the order, stores one
    payment of the order and answers with the redirect to its page;
    every later submission by that user finds the payment, renders the
    page again and stores nothing. *)
Theorem OrderDetailView_post_pays_once request u pk order form s :
  user request = Some u →
  POST request = ValidPost form →
  orders s !! pk = Some order →
  (u, pk) ∈ view_order s →
  payment_exists s pk = false →
  is_Some (payment_methods s !! f_payment_method form) →
  match f_coupon_code form with
  | None => True
  | Some c => is_Some (coupon_codes s !! c)
  end →
  ∃ payment_pk payment s1,
    OrderDetailView_post request pk s
      = Ok (Redirect (PaymentOverviewUrl payment_pk (p_token payment))) s1
    ∧ payments s !! payment_pk = None
    ∧ payments s1 = <[payment_pk := payment]> (payments s)
    ∧ p_order payment = pk
    ∧ p_status payment = "waiting"
    ∧ orders s1 =
        <[pk := {| o_user := o_user order; o_service_type := o_service_type order;
                   o_items := o_items order;
                   o_payment_method := f_payment_method form;
                   o_coupon_code := f_coupon_code form |}]> (orders s)
    ∧ ∀ request', user request' = Some u →
        OrderDetailView_post request' pk s1 = Ok (Render "html/order-overview.html") s1.
Proof.
  intros Hu Hpost Ho Hperm Hex [pm Hpm] Hcoupon.
  unfold OrderDetailView_post, login_required. rewrite Hu.
  erewrite bind_Ok by reflexivity. cbv beta. rewrite Ho.
  erewrite bind_Ok by reflexivity. cbv beta.
  rewrite (bool_decide_eq_true_2 _ Hperm). unfold has_payment. rewrite Hex, Hpost.
  set (order' := {| o_user := o_user order; o_service_type := o_service_type order;
                    o_items := o_items order;
                    o_payment_method := f_payment_method form;
                    o_coupon_code := f_coupon_code form |}).
  erewrite bind_Ok by reflexivity. cbv beta.
  set (s0 := set_orders <[pk := order']> s).
  assert (Hd : ∃ d, discount order' s0 = Ok d s0).
  { unfold discount. cbn [o_coupon_code order']. destruct (f_coupon_code form) as [c|].
    - destruct Hcoupon as [coupon Hc]. unfold_M. subst s0. cbn. rewrite Hc. eauto.
    - eauto. }
  destruct Hd as [d Hd].
  assert (Hpay : create_payment pk order' None s0
                 = Ok (fresh (dom (payments s0)),
                       new_payment s0 pk pm
                         (payment_total None
                            (PyFloat.round2 (raw_total s0 order' * 1)%float) d))
                      (store_payment s0
                         (new_payment s0 pk pm
                            (payment_total None
                               (PyFloat.round2 (raw_total s0 order' * 1)%float) d)))).
  { apply create_payment_Ok.
    - subst s0. cbn. apply lookup_insert_eq.
    - subst s0. cbn. exact Hpm.
    - exact Hex.
    - exact Hd. }
  rewrite (bind_Ok _ _ _ _ _ Hpay). cbv beta iota.
  eexists _, _, _. split; [reflexivity|].
  split; [apply fresh_pk_None|]. split; [reflexivity|]. split; [reflexivity|].
  split; [reflexivity|]. split; [reflexivity|].
  intros request' Hu'.
  apply (OrderDetailView_post_has_payment request' u pk order'); [exact Hu' | | exact Hperm |].
  - subst s0. cbn. apply lookup_insert_eq.
  - apply (payment_exists_insert s0 _ (fresh (dom (payments s0)))
             (new_payment s0 pk pm
                (payment_total None (PyFloat.round2 (raw_total s0 order' * 1)%float) d))).
    reflexivity.
Qed.

Lemma OrderDetailView_post_pays_once_witness :
  let s := example.with_case (example.dec 30 0) None in
  ∃ payment_pk payment s1,
    OrderDetailView_post (example.post (Some 1)) 1 s
      = Ok (Redirect (PaymentOverviewUrl payment_pk (p_token payment))) s1
    ∧ payments s1 = <[payment_pk := payment]> (payments s)
    ∧ OrderDetailView_post (example.post None) 1 s1
      = Ok (Render "html/order-overview.html") s1.
Proof.
  cbv zeta.
  destruct (OrderDetailView_post_pays_once (example.post (Some 1)) 1 1
              (example.order REPUTATION_CASE [1] None)
              {| f_payment_method := 1; f_coupon_code := Some 1 |}
              (example.with_case (example.dec 30 0) None))
    as (payment_pk & payment & s1 & Hrun & _ & Hpayments & _ & _ & _ & Hagain);
    [reflexivity | reflexivity | vm_compute; reflexivity | vm_compute; set_solver
    | vm_compute; reflexivity | vm_compute; eauto | vm_compute; eauto |].
  exists payment_pk, payment, s1.
  split; [exact Hrun|]. split; [exact Hpayments|]. apply Hagain. reflexivity.
Defined.

End order_pages.

(** ** The cart pages *)

Section cart_pages.

Import models views.

(** X20.  The errors of the cart pages.  Without a site in the query, or with
    an empty one, both pages answer the bad request; for a site that is
    not a number the lookup raises; for a number that is no order site
    they raise the 404.  In each case the cart is as it was. *)
Theorem cart_pages_errors s :
  add_to_cart SiteMissing s = Ok (CartBadRequest "No Site ID provided.") s
  ∧ add_to_cart SiteEmpty s = Ok (CartBadRequest "No Site ID provided.") s
  ∧ remove_from_cart SiteMissing s = Ok (CartBadRequest "No Site ID provided.") s
  ∧ remove_from_cart SiteEmpty s = Ok (CartBadRequest "No Site ID provided.") s
  ∧ (∀ text, add_to_cart (SiteOther text) s = Raise ValueError s
             ∧ remove_from_cart (SiteOther text) s = Raise ValueError s)
  ∧ (∀ pk, order_sites s !! pk = None →
           add_to_cart (SitePk pk) s = Raise Http404 s
           ∧ remove_from_cart (SitePk pk) s = Raise Http404 s).
Proof.
  do 4 (split; [reflexivity|]). split; [intros text; split; reflexivity|].
  intros pk Hnone. unfold add_to_cart, remove_from_cart, site_id_required,
    get_order_site_or_404. step. rewrite Hnone. split; reflexivity.
Qed.

Lemma cart_pages_errors_witness :
  add_to_cart (SitePk 7) shopping = Raise Http404 shopping
  ∧ remove_from_cart (SitePk 7) shopping = Raise Http404 shopping.
Proof.
  destruct (cart_pages_errors shopping) as (_ & _ & _ & _ & _ & H404).
  apply H404. vm_compute. reflexivity.
Defined.

Lemma add_quantity_inverse pk line :
  add_quantity (-1) pk (add_quantity 1 pk line) = line.
Proof.
  unfold add_quantity. destruct (ci_product line =? pk) eqn:E; cbn; rewrite E; [|reflexivity].
  destruct line. cbn. f_equal. lia.
Qed.

Lemma find_after_add pk cart :
  in_cart pk cart = true →
  Forall (λ line, 1 ≤ ci_quantity line) cart →
  ∃ line, find (λ line, ci_product line =? pk) (map (add_quantity 1 pk) cart) = Some line
          ∧ 2 ≤ ci_quantity line.
Proof.
  unfold in_cart. induction cart as [|line rest IH]; intros Hin Hall; [discriminate|].
  apply Forall_cons in Hall as [Hline Hall]. cbv beta in Hline. cbn in Hin |- *.
  unfold add_quantity at 1. destruct (ci_product line =? pk) eqn:E; cbn.
  - rewrite E. eexists. split; [reflexivity|]. unfold add_quantity. rewrite E. cbn. lia.
  - rewrite E. apply IH; assumption.
Qed.

Lemma find_new_line pk cart new :
  in_cart pk cart = false → ci_product new = pk →
  find (λ line, ci_product line =? pk) (cart ++ [new]) = Some new
  ∧ filter (λ line, ci_product line ≠ pk) (cart ++ [new]) = cart.
Proof.
  unfold in_cart. intros Hin Hnew.
  induction cart as [|line rest IH]; cbn [app find existsb] in Hin |- *.
  - rewrite Hnew, Z.eqb_refl. split; [reflexivity|].
    rewrite filter_cons_False by (intros H; apply H; exact Hnew). reflexivity.
  - apply orb_false_iff in Hin as [E Hin]. rewrite E.
    destruct (IH Hin) as [Hfind Hfilter]. split; [exact Hfind|].
    rewrite filter_cons_True by (apply Z.eqb_neq; exact E). rewrite Hfilter. reflexivity.
Qed.

Lemma cart_remove_add pk price cart :
  Forall (λ line, 1 ≤ ci_quantity line) cart →
  cart_remove_single pk (cart_add pk price cart) = cart
  ∧ in_cart pk (cart_add pk price cart) = true.
Proof.
  intros Hall. unfold cart_add, cart_remove_single.
  destruct (in_cart pk cart) eqn:Hin.
  - destruct (find_after_add pk cart Hin Hall) as (line & -> & Hq).
    destruct (Z.leb_spec (ci_quantity line) 1) as [|_]; [lia|].
    split.
    + rewrite map_map. rewrite <- (map_id cart) at 2. apply map_ext, add_quantity_inverse.
    + clear line Hq. unfold in_cart in *. induction cart as [|line rest IH]; [discriminate|].
      apply Forall_cons in Hall as [_ Hall]. cbn in Hin |- *. unfold add_quantity at 1.
      destruct (ci_product line =? pk) eqn:E; cbn; rewrite E; [reflexivity|].
      apply IH; assumption.
  - destruct (find_new_line pk cart {| ci_product := pk; ci_quantity := 1; ci_price := price |}
                Hin eq_refl) as [-> Hfilter].
    cbn. split; [exact Hfilter|].
    unfold in_cart. rewrite existsb_app. cbn. rewrite Z.eqb_refl. apply orb_true_r.
Qed.

Lemma filter_all {A} (P : A → Prop) `{∀ x, Decision (P x)} (l : list A) :
  Forall P l → filter P l = l.
Proof.
  induction 1 as [|x l Hx Hl IH]; [reflexivity|].
  rewrite filter_cons_True by exact Hx. rewrite IH. reflexivity.
Qed.

Lemma cart_add_stocked s pk order_site price :
  order_sites s !! pk = Some order_site →
  Forall (λ line, is_Some (order_sites s !! ci_product line))
         (cart_add pk price (load_cart s)).
Proof.
  intros Hsite.
  assert (Hload : Forall (λ line, is_Some (order_sites s !! ci_product line)) (load_cart s)).
  { apply Forall_forall. intros line Hin. apply list_elem_of_filter in Hin as [Hsome _].
    exact Hsome. }
  unfold cart_add. destruct (in_cart pk (load_cart s)).
  - apply Forall_fmap. eapply Forall_impl; [exact Hload|].
    intros line Hsome. cbn. unfold add_quantity. destruct (ci_product line =? pk); exact Hsome.
  - apply Forall_app. split; [exact Hload|]. constructor; [|constructor].
    cbn. rewrite Hsite. eauto.
Qed.

(** X21.  Adding a site to the cart and removing it again gives the cart back,
    for a cart whose lines have a quantity of one at least: the second
    answer carries the total of the cart before the two requests. *)
Theorem add_then_remove_restores pk order_site site s :
  order_sites s !! pk = Some order_site →
  sites s !! os_site order_site = Some site →
  Forall (λ line, 1 ≤ ci_quantity line) (load_cart s) →
  ∃ total message s1 message' s2,
    add_to_cart (SitePk pk) s = Ok (CartJson total message) s1
    ∧ in_cart pk (CART (session s1)) = true
    ∧ remove_from_cart (SitePk pk) s1 = Ok (CartJson (cart_total s) message') s2
    ∧ CART (session s2) = load_cart s.
Proof.
  intros Hsite Hrow Hall.
  destruct (cart_remove_add pk (site_price site) (load_cart s) Hall) as [Hback Hin].
  set (cart1 := cart_add pk (site_price site) (load_cart s)) in *.
  assert (Hload1 : load_cart (set_session (set_CART cart1) s) = cart1).
  { unfold load_cart. cbn. apply filter_all.
    apply (cart_add_stocked s pk order_site (site_price site) Hsite). }
  eexists _, _, (set_session (set_CART cart1) s), _, _.
  split.
  { unfold add_to_cart, site_id_required, get_order_site_or_404, site_of. step.
    rewrite Hsite. cbn. rewrite Hrow. reflexivity. }
  split; [exact Hin|].
  unfold remove_from_cart, site_id_required, get_order_site_or_404, site_of.
  erewrite bind_Ok by reflexivity. cbv beta zeta. rewrite Hload1.
  assert (Hsite1 :
    (get ≫= λ s0 : State,
       orRaise Http404 (order_sites s0 !! pk)
       ≫= λ order_site0 : OrderSite, mret (pk, order_site0))
      (set_session (set_CART cart1) s)
    = Ok (pk, order_site) (set_session (set_CART cart1) s))
    by (unfold_M; cbn; rewrite Hsite; reflexivity).
  rewrite (bind_Ok _ _ _ _ _ Hsite1). cbv beta iota. rewrite Hback, Hin.
  step. cbn [sites set_session]. rewrite Hrow. split; reflexivity.
Qed.

Lemma add_then_remove_restores_witness :
  ∃ total message s1 message' s2,
    add_to_cart (SitePk 1) shopping = Ok (CartJson total message) s1
    ∧ CART (session s1)
      = [ {| ci_product := 1; ci_quantity := 2; ci_price := example.dec 10 0 |} ]
    ∧ remove_from_cart (SitePk 1) s1 = Ok (CartJson (example.dec 10 0) message') s2
    ∧ CART (session s2) = CART (session shopping).
Proof.
  destruct (add_then_remove_restores 1
              {| os_site := 1; os_available_username := "ada"; os_user_search := 1 |}
              {| site_name := "site"; site_price := example.dec 10 0 |} shopping)
    as (total & message & s1 & message' & s2 & Hadd & _ & Hremove & Hcart);
    [vm_compute; reflexivity | vm_compute; reflexivity
    | vm_compute; repeat constructor; discriminate |].
  exists total, message, s1, message', s2.
  split; [exact Hadd|].
  split.
  { apply (f_equal (λ o, CART (session (state_of o)))) in Hadd. cbn [state_of] in Hadd.
    rewrite <- Hadd. vm_compute. reflexivity. }
  split; [exact Hremove | exact Hcart].
Defined.

End cart_pages.
